(** * interwhisp: a turn-end prediction head on a Whisper model

    A shallow embedding of [experiments.ipynb]: the [TurnEndClassifier]
    head, [CustomWhisperModel], [TurnEndPipeline] and the training loop
    ([train_single_epoch], [train_model]), followed by the properties
    of the specification that were checked against them.

    Conventions of the embedding.
    - A tensor is its [shape] together with an indexing function; every
      operation of [torch] that the notebook uses computes the shape of
      its result and raises where [torch] raises.
    - Scalars are kept abstract behind the class [Scalar]; the
      statements about shapes and errors hold for every interpretation
      of the arithmetic.  What depends on the arithmetic is stated for
      the floating-point numbers that the code computes with: [Float32]
      for the entries of [torch]'s tensors, [Float64] for Python's
      [float].  The real numbers serve only to run the definitions on
      concrete tensors.
    - A Python exception is a value of [exn]; code that can raise
      returns a [result], code that also mutates objects is a state
      transformer that keeps the state reached when it raises. *)

From Stdlib Require Import List Arith ZArith Lia Bool String QArith.
From Stdlib Require Import Reals Qreals Lra.
From Stdlib Require Import SpecFloat.
Import ListNotations.

Set Implicit Arguments.
Local Open Scope string_scope.
Local Open Scope nat_scope.

(** ** Python: exceptions and results *)

Inductive exn : Type :=
| AssertionError (msg : string)
| RuntimeError (msg : string)
| IndexError (msg : string)
| AttributeError (msg : string)
| ZeroDivisionError (msg : string)
| OverflowError (msg : string)
| ValueError (msg : string)
| External (msg : string).

Inductive result (A : Type) : Type :=
| Ok (a : A)
| Raise (e : exn).
Arguments Ok {A} a.
Arguments Raise {A} e.

Definition bind {A B : Type} (m : result A) (k : A -> result B) : result B :=
  match m with
  | Ok a => k a
  | Raise e => Raise e
  end.

Notation "x <- m ;; k" := (bind m (fun x => k))
  (at level 61, m at next level, right associativity).

Definition is_ok {A : Type} (m : result A) : bool :=
  match m with Ok _ => true | Raise _ => false end.

(** A result that is not an [AssertionError]. *)
Definition no_assertion {A : Type} (r : result A) : Prop :=
  forall msg, r <> Raise (AssertionError msg).

(** What [torch] raises when a convolution's kernel is longer than its
    padded input. *)
Definition kernel_error : exn :=
  RuntimeError "Kernel size can't be greater than actual input size".

(** [l[i:]] for a Python sequence: a negative start counts from the
    end, and both ends are clamped to the sequence. *)
Definition py_slice_from {A : Type} (i : Z) (l : list A) : list A :=
  let n := Z.of_nat (List.length l) in
  let start := if (i <? 0)%Z then Z.max (n + i) 0 else Z.min i n in
  skipn (Z.to_nat start) l.

(** [l[:j]], with the same conventions. *)
Definition py_slice_to {A : Type} (j : Z) (l : list A) : list A :=
  let n := Z.of_nat (List.length l) in
  let stop := if (j <? 0)%Z then Z.max (n + j) 0 else Z.min j n in
  firstn (Z.to_nat stop) l.

(** [t[-1]] on a tuple. *)
Definition py_last {A : Type} (l : list A) : result A :=
  match rev l with
  | x :: _ => Ok x
  | [] => Raise (IndexError "tuple index out of range")
  end.

(** [int(x)] on a number: truncation toward zero. *)
Definition py_int (q : Q) : Z := Z.quot (Qnum q) (Zpos (Qden q)).

(** ** Floating point

    Python's [float] is IEEE 754 binary64, the entries of the tensors of
    this program are binary32 ([torch.float32], the default type and the
    one the notebook asks for on a CPU).  Both are [spec_float] values
    with the operations of the standard library at the precision and the
    exponent range of the format, rounding to nearest, ties to even. *)

Module Float64.

Definition prec : Z := 53.
Definition emax : Z := 1024.

(** The float nearest to [m * 2^e]: a literal such as [30.0] is
    [scaled 30 0]. *)
Definition scaled (m e : Z) : spec_float := binary_normalize prec emax m e false.

(** The float nearest to [n / d]: the value of a decimal literal such as
    [1.001], which is [ratio 1001 1000]. *)
Definition ratio (n d : Z) : spec_float :=
  SFdiv prec emax (scaled n 0) (scaled d 0).

Definition mul : spec_float -> spec_float -> spec_float := SFmul prec emax.

(** The conversion of an [int] operand of a [float] operation. *)
Definition of_int (n : Z) : result spec_float :=
  match scaled n 0 with
  | S754_infinity _ => Raise (OverflowError "int too large to convert to float")
  | x => Ok x
  end.

(** [x * n] for a [float] [x] and an [int] [n]. *)
Definition mul_int (x : spec_float) (n : Z) : result spec_float :=
  y <- of_int n ;;
  Ok (mul x y).

(** [int(x)]: truncation toward zero; infinities and NaN are refused. *)
Definition to_int (x : spec_float) : result Z :=
  match x with
  | S754_zero _ => Ok 0%Z
  | S754_infinity _ =>
      Raise (OverflowError "cannot convert float infinity to integer")
  | S754_nan => Raise (ValueError "cannot convert float NaN to integer")
  | S754_finite s m e =>
      let magnitude :=
        if (0 <=? e)%Z then Z.shiftl (Zpos m) e else Z.shiftr (Zpos m) (- e) in
      Ok (if s then (- magnitude)%Z else magnitude)
  end.

End Float64.

Module Float32.

Definition prec : Z := 24.
Definition emax : Z := 128.

Definition zero : spec_float := S754_zero false.
Definition one : spec_float := SFone prec emax.

(** The float nearest to the integer [n]. *)
Definition of_Z (n : Z) : spec_float := binary_normalize prec emax n 0 false.


Definition add : spec_float -> spec_float -> spec_float := SFadd prec emax.
Definition mul : spec_float -> spec_float -> spec_float := SFmul prec emax.

Definition is_nan (x : spec_float) : bool :=
  match x with S754_nan => true | _ => false end.


(** The maximum that [torch.relu] and the max pooling take: NaN if
    either operand is NaN. *)
Definition maximum (x y : spec_float) : spec_float :=
  if is_nan x || is_nan y then S754_nan
  else if SFltb x y then y else x.

(** [0 <= x <= 1]; false of NaN, as every comparison with NaN is. *)
Definition in_unit (x : spec_float) : bool := SFleb zero x && SFleb x one.

(** [0 <= x]; false of NaN. *)
Definition nonnegative (x : spec_float) : bool := SFleb zero x.

(** What is relied on of [torch.sigmoid], whose exponential this
    development does not compute: NaN is mapped to NaN, and every other
    float, the two infinities included, to a float between 0 and 1. *)
Definition sigmoid_contract (sig : spec_float -> spec_float) : Prop :=
  sig S754_nan = S754_nan
  /\ forall x, is_nan x = false -> in_unit (sig x) = true.

End Float32.

(** ** Scalars *)

Class Scalar (T : Type) : Type := {
  zero : T;
  add : T -> T -> T;
  mul : T -> T -> T;
  maximum : T -> T -> T;
  sigmoid_fn : T -> T
}.

(** ** Tensors *)

Section Tensors.
Context {T : Type} `{Scalar T}.

Record tensor : Type := mkTensor {
  shape : list nat;
  elem : list nat -> T
}.

Definition shape_eqb (s1 s2 : list nat) : bool :=
  if list_eq_dec Nat.eq_dec s1 s2 then true else false.

Definition numel (x : tensor) : nat := fold_right Nat.mul 1 (shape x).

(** Sum of [f 0 .. f (n-1)]. *)
Definition sum_upto (n : nat) (f : nat -> T) : T :=
  fold_left (fun acc i => add acc (f i)) (seq 0 n) zero.

(** Maximum of [f lo .. f (hi-1)], a non-empty range. *)
Definition max_over (lo hi : nat) (f : nat -> T) : T :=
  fold_left (fun acc i => maximum acc (f i)) (seq (S lo) (hi - S lo)) (f lo).

Definition set_nth (i : nat) (v : nat) (l : list nat) : list nat :=
  firstn i l ++ match skipn i l with [] => [] | _ :: r => v :: r end.

Definition remove_nth (i : nat) (l : list nat) : list nat :=
  firstn i l ++ skipn (S i) l.

(** [torch.nn.functional.linear]: [x @ w.T + b] over the last axis. *)
Definition F_linear (x w b : tensor) : result tensor :=
  match shape w with
  | [out_features; in_features] =>
      match rev (shape x) with
      | d :: lead =>
          if d =? in_features then
            Ok {| shape := rev lead ++ [out_features];
                  elem := fun idx =>
                    let o := last idx 0 in
                    let pre := removelast idx in
                    add (sum_upto in_features
                           (fun i => mul (elem x (pre ++ [i])) (elem w [o; i])))
                        (elem b [o]) |}
          else Raise (RuntimeError "mat1 and mat2 shapes cannot be multiplied")
      | [] => Raise (RuntimeError "both arguments to linear need to be at least 1D")
      end
  | _ => Raise (RuntimeError "linear: weight must be 2D")
  end.

(** [Tensor.transpose(d0, d1)]. *)
Definition swap_dims (d0 d1 : nat) (l : list nat) : list nat :=
  map (fun k => nth (if k =? d0 then d1 else if k =? d1 then d0 else k) l 0)
      (seq 0 (List.length l)).

Definition transpose (d0 d1 : nat) (x : tensor) : result tensor :=
  if (d0 <? List.length (shape x)) && (d1 <? List.length (shape x)) then
    Ok {| shape := swap_dims d0 d1 (shape x);
          elem := fun idx => elem x (swap_dims d0 d1 idx) |}
  else Raise (IndexError "Dimension out of range").

(** [torch.nn.functional.conv1d] on a batched input [n, c_in, l] with
    weight [c_out, c_in, k], zero padding on both sides, dilation 1 and
    one group.  [torch] refuses a padded input shorter than the kernel.
    (The unbatched two-dimensional form is never reached by this
    program, whose inputs come from [transpose(1, 2)].) *)
Definition conv1d (x w b : tensor) (stride padding : nat) : result tensor :=
  match shape x, shape w with
  | [n; c_in; l], [c_out; c_in'; k] =>
      if negb (c_in =? c_in') then
        Raise (RuntimeError "conv1d: input channels do not match the weight")
      else if l + 2 * padding <? k then
        Raise (RuntimeError "Kernel size can't be greater than actual input size")
      else
        Ok {| shape := [n; c_out; (l + 2 * padding - k) / stride + 1];
              elem := fun idx =>
                match idx with
                | [i; co; j] =>
                    let xpad ci p :=
                      if p <? padding then zero
                      else if p - padding <? l then elem x [i; ci; p - padding]
                      else zero in
                    add (sum_upto c_in (fun ci =>
                           sum_upto k (fun t =>
                             mul (elem w [co; ci; t]) (xpad ci (j * stride + t)))))
                        (elem b [co])
                | _ => zero
                end |}
  | _, _ => Raise (RuntimeError "conv1d: expected a 3D input and a 3D weight")
  end.

Definition relu (x : tensor) : tensor :=
  {| shape := shape x; elem := fun idx => maximum zero (elem x idx) |}.

Definition sigmoid (x : tensor) : tensor :=
  {| shape := shape x; elem := fun idx => sigmoid_fn (elem x idx) |}.

(** [torch.nn.functional.adaptive_max_pool1d] on a batched input: output
    cell [j] is the maximum over [floor(j*l/o) .. ceil((j+1)*l/o) - 1];
    the dimensions other than the batch must not be empty.  (As for
    [conv1d], the unbatched form is never reached.) *)
Definition adaptive_max_pool1d (x : tensor) (output_size : nat) : result tensor :=
  match shape x with
  | [n; c; l] =>
      if (c =? 0) || (l =? 0) then
        Raise (RuntimeError
          "adaptive_max_pool1d: expected non-zero size for non-batch dimensions")
      else
        Ok {| shape := [n; c; output_size];
              elem := fun idx =>
                match idx with
                | [i; ch; j] =>
                    max_over ((j * l) / output_size)
                             (((j + 1) * l + output_size - 1) / output_size)
                             (fun t => elem x [i; ch; t])
                | _ => zero
                end |}
  | _ => Raise (RuntimeError "adaptive_max_pool1d: expected a 3D input")
  end.

(** [Tensor.squeeze(-1)]: drops the last axis when its size is 1. *)
Definition squeeze_last (x : tensor) : tensor :=
  match rev (shape x) with
  | 1 :: lead =>
      {| shape := rev lead; elem := fun idx => elem x (idx ++ [0]) |}
  | _ => x
  end.

(** [torch.cat((a, b), dim)]: the shapes agree outside [dim]. *)
Definition cat (a b : tensor) (dim : nat) : result tensor :=
  if negb ((dim <? List.length (shape a)) && (dim <? List.length (shape b))) then
    Raise (IndexError "Dimension out of range")
  else if negb (shape_eqb (remove_nth dim (shape a)) (remove_nth dim (shape b))) then
    Raise (RuntimeError "Sizes of tensors must match except in the cat dimension")
  else
    let na := nth dim (shape a) 0 in
    Ok {| shape := set_nth dim (na + nth dim (shape b) 0) (shape a);
          elem := fun idx =>
            let j := nth dim idx 0 in
            if j <? na then elem a idx else elem b (set_nth dim (j - na) idx) |}.

(** [Tensor.squeeze().item()]: the single element of a tensor that has
    exactly one. *)
Definition squeeze_item (x : tensor) : result T :=
  if numel x =? 1 then Ok (elem x (map (fun _ => 0) (shape x)))
  else Raise (RuntimeError
    "a Tensor with more than one element cannot be converted to Scalar").

End Tensors.

Arguments tensor T : clear implicits.

(** ** [torch.nn]: parameters and the modules the head is built from *)

Section Modules.
Context {T : Type} `{Scalar T}.

(** A [torch.nn.Parameter]: the value, the flag that autograd consults
    and the gradient buffer ([None] until a backward pass fills it). *)
Record nn_Parameter : Type := mkParameter {
  data : tensor T;
  requires_grad : bool;
  grad : option (tensor T)
}.

Inductive nn_Module : Type :=
| Linear (weight bias : nn_Parameter)
| Conv1d (weight bias : nn_Parameter) (stride padding : nat)
| ReLU
| Sigmoid
| AdaptiveMaxPool1d (output_size : nat).

(** The random initialisation of a fresh module is a parameter of the
    embedding: [init name idx] is the value drawn for entry [idx] of
    the parameter called [name]. *)
Definition fresh_parameter (init : string -> list nat -> T)
    (name : string) (shp : list nat) : nn_Parameter :=
  {| data := {| shape := shp; elem := init name |};
     requires_grad := true;
     grad := None |}.

(** [nn.Linear(in_features, out_features)]. *)
Definition nn_Linear (init : string -> list nat -> T) (name : string)
    (in_features out_features : nat) : nn_Module :=
  Linear (fresh_parameter init (name ++ ".weight") [out_features; in_features])
         (fresh_parameter init (name ++ ".bias") [out_features]).

(** [nn.Conv1d(in_channels, out_channels, kernel_size, stride, padding)]. *)
Definition nn_Conv1d (init : string -> list nat -> T) (name : string)
    (in_channels out_channels kernel_size stride padding : nat) : nn_Module :=
  Conv1d (fresh_parameter init (name ++ ".weight")
            [out_channels; in_channels; kernel_size])
         (fresh_parameter init (name ++ ".bias") [out_channels])
         stride padding.

Definition nn_forward (m : nn_Module) (x : tensor T) : result (tensor T) :=
  match m with
  | Linear w b => F_linear x (data w) (data b)
  | Conv1d w b stride padding => conv1d x (data w) (data b) stride padding
  | ReLU => Ok (relu x)
  | Sigmoid => Ok (sigmoid x)
  | AdaptiveMaxPool1d o => adaptive_max_pool1d x o
  end.

(** [nn.Sequential]: the modules in order, each fed the previous output. *)
Fixpoint Sequential_forward (layers : list nn_Module) (x : tensor T)
    : result (tensor T) :=
  match layers with
  | [] => Ok x
  | m :: rest => y <- nn_forward m x ;; Sequential_forward rest y
  end.

(** [Module.parameters()], in registration order. *)
Definition nn_parameters (m : nn_Module) : list nn_Parameter :=
  match m with
  | Linear w b => [w; b]
  | Conv1d w b _ _ => [w; b]
  | _ => []
  end.

(** Rewrites every parameter of a module in place; [f] receives the
    position of the parameter in [parameters()] counted from [i]. *)
Definition nn_update (f : nat -> nn_Parameter -> nn_Parameter) (i : nat)
    (m : nn_Module) : nn_Module :=
  match m with
  | Linear w b => Linear (f i w) (f (S i) b)
  | Conv1d w b s p => Conv1d (f i w) (f (S i) b) s p
  | other => other
  end.

Fixpoint Sequential_update (f : nat -> nn_Parameter -> nn_Parameter) (i : nat)
    (layers : list nn_Module) : list nn_Module :=
  match layers with
  | [] => []
  | m :: rest =>
      nn_update f i m
        :: Sequential_update f (i + List.length (nn_parameters m)) rest
  end.

End Modules.

Arguments nn_Parameter T : clear implicits.
Arguments nn_Module T : clear implicits.

(** ** The notebook's [TurnEndClassifier] *)

Module TurnEndClassifier.
Section Def.
Context {T : Type} `{Scalar T}.

Record t : Type := mk {
  encoder_reduce : nn_Module T;
  decoder_reduce : nn_Module T;
  encoder_conv : list (nn_Module T);
  encoder_pool : nn_Module T;
  decoder_conv : list (nn_Module T);
  decoder_pool : nn_Module T;
  fc : list (nn_Module T);
  training : bool
}.

Definition __init__ (init : string -> list nat -> T)
    (encoder_dim decoder_dim hidden_dim : nat) : t :=
  {| encoder_reduce := nn_Linear init "encoder_reduce" encoder_dim hidden_dim;
     decoder_reduce := nn_Linear init "decoder_reduce" decoder_dim hidden_dim;
     encoder_conv :=
       [ nn_Conv1d init "encoder_conv.0" hidden_dim hidden_dim 5 3 1; ReLU;
         nn_Conv1d init "encoder_conv.2" hidden_dim hidden_dim 5 3 1; ReLU;
         nn_Conv1d init "encoder_conv.4" hidden_dim hidden_dim 5 3 1; ReLU ];
     encoder_pool := AdaptiveMaxPool1d 1;
     decoder_conv :=
       [ nn_Conv1d init "decoder_conv.0" hidden_dim hidden_dim 3 1 1; ReLU;
         nn_Conv1d init "decoder_conv.2" hidden_dim hidden_dim 3 1 1; ReLU ];
     decoder_pool := AdaptiveMaxPool1d 1;
     fc :=
       [ nn_Linear init "fc.0" (2 * hidden_dim) hidden_dim; ReLU;
         nn_Linear init "fc.2" hidden_dim 1; Sigmoid ];
     training := true |}.

Definition forward (self : t) (encoder_outputs decoder_outputs : tensor T)
    : result (tensor T) :=
  encoder_outputs <- nn_forward (encoder_reduce self) encoder_outputs ;;
  decoder_outputs <- nn_forward (decoder_reduce self) decoder_outputs ;;
  encoder_outputs <- transpose 1 2 encoder_outputs ;;
  encoder_features <- Sequential_forward (encoder_conv self) encoder_outputs ;;
  encoder_features <- nn_forward (encoder_pool self) encoder_features ;;
  let encoder_features := squeeze_last encoder_features in
  decoder_outputs <- transpose 1 2 decoder_outputs ;;
  decoder_features <- Sequential_forward (decoder_conv self) decoder_outputs ;;
  decoder_features <- nn_forward (decoder_pool self) decoder_features ;;
  let decoder_features := squeeze_last decoder_features in
  combined_features <- cat encoder_features decoder_features 1 ;;
  Sequential_forward (fc self) combined_features.

(** The three stages that [forward] applies to one stream, up to the
    pooling: reduce, transpose, convolve.  [forward] interleaves the
    two streams; [forward_streams] below relates it to these. *)
Definition convolved (reduce : nn_Module T) (conv : list (nn_Module T))
    (hidden_states : tensor T) : result (tensor T) :=
  r <- nn_forward reduce hidden_states ;;
  r <- transpose 1 2 r ;;
  Sequential_forward conv r.

(** One stream of [forward] in full: from the hidden states of the
    base model to the fixed-size vector. *)
Definition compress (reduce : nn_Module T) (conv : list (nn_Module T))
    (pool : nn_Module T) (hidden_states : tensor T) : result (tensor T) :=
  f <- convolved reduce conv hidden_states ;;
  p <- nn_forward pool f ;;
  Ok (squeeze_last p).

Definition compress_encoder (self : t) : tensor T -> result (tensor T) :=
  compress (encoder_reduce self) (encoder_conv self) (encoder_pool self).

Definition compress_decoder (self : t) : tensor T -> result (tensor T) :=
  compress (decoder_reduce self) (decoder_conv self) (decoder_pool self).

(** The classification stage of [forward]. *)
Definition classify (self : t) (encoder_features decoder_features : tensor T)
    : result (tensor T) :=
  combined_features <- cat encoder_features decoder_features 1 ;;
  Sequential_forward (fc self) combined_features.

(** [Module.parameters()] of the head. *)
Definition parameters (self : t) : list (nn_Parameter T) :=
  nn_parameters (encoder_reduce self)
  ++ nn_parameters (decoder_reduce self)
  ++ flat_map nn_parameters (encoder_conv self)
  ++ nn_parameters (encoder_pool self)
  ++ flat_map nn_parameters (decoder_conv self)
  ++ nn_parameters (decoder_pool self)
  ++ flat_map nn_parameters (fc self).

(** [Module.train(mode)]: only the mode flag changes. *)
Definition train (mode : bool) (self : t) : t :=
  {| encoder_reduce := encoder_reduce self;
     decoder_reduce := decoder_reduce self;
     encoder_conv := encoder_conv self;
     encoder_pool := encoder_pool self;
     decoder_conv := decoder_conv self;
     decoder_pool := decoder_pool self;
     fc := fc self;
     training := mode |}.

(** Rewrites every parameter of the head; [f] receives the position of
    the parameter in [parameters]. *)
Definition update_parameters (f : nat -> nn_Parameter T -> nn_Parameter T)
    (self : t) : t :=
  let n1 := List.length (nn_parameters (encoder_reduce self)) in
  let n2 := n1 + List.length (nn_parameters (decoder_reduce self)) in
  let n3 := n2 + List.length (flat_map nn_parameters (encoder_conv self)) in
  let n4 := n3 + List.length (nn_parameters (encoder_pool self)) in
  let n5 := n4 + List.length (flat_map nn_parameters (decoder_conv self)) in
  let n6 := n5 + List.length (nn_parameters (decoder_pool self)) in
  {| encoder_reduce := nn_update f 0 (encoder_reduce self);
     decoder_reduce := nn_update f n1 (decoder_reduce self);
     encoder_conv := Sequential_update f n2 (encoder_conv self);
     encoder_pool := nn_update f n3 (encoder_pool self);
     decoder_conv := Sequential_update f n4 (decoder_conv self);
     decoder_pool := nn_update f n5 (decoder_pool self);
     fc := Sequential_update f n6 (fc self);
     training := training self |}.

End Def.
Arguments t T : clear implicits.
End TurnEndClassifier.

(** ** The base model and the other external collaborators

    [transformers], [librosa] and the feature extractor are not part of
    the notebook.  Each is represented by what the notebook relies on:
    the fields it reads and one function per call it makes.

    One value of [Collaborators] gives the collaborators at one state of
    [torch]'s random number generator: what a forward pass of the base
    model draws from it (its dropout masks, when it is in training mode)
    is part of [whisper_forward].  Calls made at different states of
    the generator are calls to the members of a family of
    [Collaborators] indexed by these states. *)

Section External.
Context {T : Type} `{Scalar T}.

Record WhisperConfig : Type := {
  d_model : nat;
  decoder_start_token_id : Z
}.

(** The state of a [WhisperForConditionalGeneration]. *)
Record Whisper : Type := {
  config : WhisperConfig;
  named_parameters : list (string * nn_Parameter T);
  whisper_training : bool
}.

(** [Seq2SeqLMOutput], the fields the notebook reads. *)
Record Seq2SeqLMOutput : Type := {
  logits : tensor T;
  encoder_last_hidden_state : tensor T;
  decoder_hidden_states : list (tensor T)
}.

(** [BatchFeature] returned by the feature extractor. *)
Record BatchFeature : Type := {
  input_features : tensor T;
  attention_mask : option (tensor T)
}.

(** An audio file on disk: the rate it was recorded at, and its samples. *)
Record AudioFile : Type := {
  native_sr : Z;
  file_samples : list T
}.

Record Tokenizer : Type := { pad_token_id : Z }.

Definition state_dict (w : Whisper) : list (string * tensor T) :=
  map (fun np => (fst np, data (snd np))) (named_parameters w).

Record Collaborators : Type := {
  (** [WhisperForConditionalGeneration.forward]: reads the configuration,
      the parameter values and the mode of the model, the two inputs,
      [output_hidden_states] and the remaining keyword arguments. *)
  whisper_forward :
    WhisperConfig -> list (string * tensor T) -> bool ->
    tensor T -> list (list Z) -> bool -> list (string * tensor T) ->
    result Seq2SeqLMOutput;
  (** [WhisperForConditionalGeneration.__init__]: a model with freshly
      initialised parameters for a configuration. *)
  whisper_init : WhisperConfig -> Whisper;
  (** [WhisperForConditionalGeneration.from_pretrained]: the checkpoint
      published under a name. *)
  pretrained : string -> result Whisper;
  (** The files that [librosa.load] can open. *)
  files : string -> option AudioFile;
  (** [librosa.resample samples orig_sr target_sr]. *)
  resample : list T -> Z -> Z -> list T;
  (** [WhisperFeatureExtractor.__call__ audio sampling_rate]. *)
  feature_extractor : list T -> Z -> result BatchFeature
}.

(** [librosa.load(path, sr=sr)]: the samples converted to the rate that
    was asked for, returned together with that rate. *)
Definition librosa_load (ext : Collaborators) (path : string) (sr : Z)
    : result (list T * Z) :=
  match files ext path with
  | None => Raise (External "FileNotFoundError")
  | Some f =>
      Ok (if (native_sr f =? sr)%Z then file_samples f
          else resample ext (file_samples f) (native_sr f) sr,
          sr)
  end.

End External.

Arguments WhisperConfig : clear implicits.
Arguments Whisper T : clear implicits.
Arguments Seq2SeqLMOutput T : clear implicits.
Arguments BatchFeature T : clear implicits.
Arguments AudioFile T : clear implicits.
Arguments Collaborators T : clear implicits.

(** ** The notebook's [CustomWhisperModel] *)

Module CustomWhisperModel.
Section Def.
Context {T : Type} `{Scalar T}.
Variable ext : Collaborators T.

(** A [WhisperForConditionalGeneration] with one more attribute. *)
Record t : Type := mk {
  base : Whisper T;
  turn_end_classifier : option (TurnEndClassifier.t T)
}.

Definition __init__ (config : WhisperConfig)
    (turn_end_classifier : option (TurnEndClassifier.t T)) : t :=
  {| base := whisper_init ext config;
     turn_end_classifier := turn_end_classifier |}.

Definition from_pretrained (pretrained_model_name_or_path : string)
    (turn_end_classifier : option (TurnEndClassifier.t T)) : result t :=
  model <- pretrained ext pretrained_model_name_or_path ;;
  Ok {| base := model; turn_end_classifier := turn_end_classifier |}.

Definition forward_with_turn_end (self : t) (input_features : tensor T)
    (decoder_input_ids : list (list Z)) (kwargs : list (string * tensor T))
    : result (Seq2SeqLMOutput T * tensor T) :=
  match turn_end_classifier self with
  | None =>
      Raise (AssertionError
        "TurnEndClassifier must be set before calling forward_with_turn_end")
  | Some classifier =>
      whisper_outputs <-
        whisper_forward ext (config (base self)) (state_dict (base self))
          (whisper_training (base self))
          input_features decoder_input_ids true kwargs ;;
      let encoder_hidden_states := encoder_last_hidden_state whisper_outputs in
      decoder_hidden_states <- py_last (decoder_hidden_states whisper_outputs) ;;
      turn_end_predictions <-
        TurnEndClassifier.forward classifier
          encoder_hidden_states decoder_hidden_states ;;
      Ok (whisper_outputs, turn_end_predictions)
  end.

End Def.
Arguments t T : clear implicits.
End CustomWhisperModel.

(** ** The notebook's [TurnEndPipeline] *)

Module TurnEndPipeline.
Section Def.
Context {T : Type} `{Scalar T}.
Variable ext : Collaborators T.

(** [max_duration] is a Python [float], [sampling_rate] an [int]. *)
Record t : Type := mk {
  model : CustomWhisperModel.t T;
  max_duration : spec_float;
  sampling_rate : Z
}.

(** What a caller may pass as [audio]: a path, or samples already
    loaded. *)
Inductive audio : Type :=
| Path (path : string)
| Array (samples : list T).

Record prediction : Type := { turn_end_probability : T }.

Definition __init__ (model : CustomWhisperModel.t T) : t :=
  {| model := model;
     max_duration := Float64.scaled 30 0;
     sampling_rate := 16000 |}.

(** [int(self.max_duration * self.sampling_rate)]: the product is taken
    in floating point and rounded before it is truncated. *)
Definition max_samples (self : t) : result Z :=
  product <- Float64.mul_int (max_duration self) (sampling_rate self) ;;
  Float64.to_int product.

(** The first half of [_prepare_audio_features]: the array the window
    is cut from. *)
Definition load_audio (self : t) (a : audio) : result (list T) :=
  match a with
  | Path path =>
      loaded <- librosa_load ext path (sampling_rate self) ;;
      let (audio_array, sampling_rate) := loaded in
      if (sampling_rate =? 16000)%Z then Ok audio_array
      else Raise (AssertionError "Expected sampling rate of 16kHz")
  | Array samples => Ok samples
  end.

Definition _prepare_audio_features (self : t) (a : audio)
    : result (BatchFeature T) :=
  audio_array <- load_audio self a ;;
  max_samples <- max_samples self ;;
  let audio_array := py_slice_from (- max_samples) audio_array in
  feature_extractor ext audio_array (sampling_rate self).

Definition __call__ (self : t) (a : audio) : result prediction :=
  features <- _prepare_audio_features self a ;;
  let decoder_input_ids :=
    [[decoder_start_token_id (config (CustomWhisperModel.base (model self)))]] in
  let kwargs :=
    match attention_mask features with
    | Some m => [("attention_mask", m)]
    | None => []
    end in
  out <- CustomWhisperModel.forward_with_turn_end ext (model self)
           (input_features features) decoder_input_ids kwargs ;;
  p <- squeeze_item (snd out) ;;
  Ok {| turn_end_probability := p |}.

End Def.
Arguments t T : clear implicits.
Arguments audio T : clear implicits.
Arguments prediction T : clear implicits.
End TurnEndPipeline.

(** ** Stateful code: a state transformer that can raise

    An exception leaves the objects as they were when it was raised, so
    a computation returns the state it reached together with its
    outcome. *)

Definition M (S A : Type) : Type := S -> result A * S.

Definition ret {S A : Type} (a : A) : M S A := fun s => (Ok a, s).

Definition bindM {S A B : Type} (m : M S A) (k : A -> M S B) : M S B :=
  fun s =>
    match m s with
    | (Ok a, s') => k a s'
    | (Raise e, s') => (Raise e, s')
    end.

Definition lift {S A : Type} (r : result A) : M S A := fun s => (r, s).

Definition get {S : Type} : M S S := fun s => (Ok s, s).

Definition modify {S : Type} (f : S -> S) : M S unit := fun s => (Ok tt, f s).

Notation "x <~ m ;; k" := (bindM m (fun x => k))
  (at level 61, m at next level, right associativity).

(** [for x in l: acc = body(acc, x)]. *)
Fixpoint for_each {S A B : Type} (body : B -> A -> M S B) (l : list A) (acc : B)
    : M S B :=
  match l with
  | [] => ret acc
  | x :: rest => acc' <~ body acc x ;; for_each body rest acc'
  end.

(** [zip(xs, ys)]. *)
Definition zip {A B : Type} (xs : list A) (ys : list B) : list (A * B) :=
  combine xs ys.

(** A property of the state that a computation keeps, whether it returns
    or raises. *)
Definition preserves {S A : Type} (P : S -> Prop) (m : M S A) : Prop :=
  forall s, P s -> P (snd (m s)).

(** ** Training: autograd, the optimizer and the two training functions *)

Section TorchTraining.
Context {T : Type} `{Scalar T}.

(** What the training code uses of [torch] beyond the forward pass. *)
Record Torch : Type := {
  (** [nn.BCELoss()(input, target)]. *)
  BCELoss : tensor T -> tensor T -> result T;
  (** The gradient of that loss with respect to a parameter of the base
      model (by name) or of the head (by position in [parameters()]),
      [None] for a parameter the loss does not depend on. *)
  grad_base :
    CustomWhisperModel.t T -> tensor T -> list (list Z) -> tensor T ->
    string -> option (tensor T);
  grad_head :
    CustomWhisperModel.t T -> tensor T -> list (list Z) -> tensor T ->
    nat -> option (tensor T);
  (** The per-parameter state of [optim.Adam] and its update rule:
      learning rate, state, value and gradient give the new value and
      state. *)
  adam_slot : Type;
  adam_fresh : adam_slot;
  adam_update : T -> adam_slot -> tensor T -> tensor T -> tensor T * adam_slot;
  (** [x / n] and float literals. *)
  true_divide : T -> nat -> T;
  of_Q : Q -> T
}.

Variable ext : Collaborators T.
Variable torch : Torch.

Definition tensor_add (a b : tensor T) : tensor T :=
  {| shape := shape a; elem := fun idx => add (elem a idx) (elem b idx) |}.

(** What [loss.backward()] does to one parameter, given the gradient of
    the loss with respect to it: a parameter that requires a gradient
    adds it to its buffer. *)
Definition accumulate (g : option (tensor T)) (p : nn_Parameter T)
    : nn_Parameter T :=
  match g with
  | Some g =>
      if requires_grad p then
        {| data := data p;
           requires_grad := requires_grad p;
           grad := Some (match grad p with
                         | None => g
                         | Some g0 => tensor_add g0 g
                         end) |}
      else p
  | None => p
  end.

Definition receives_grad (g : option (tensor T)) (p : nn_Parameter T) : bool :=
  match g with Some _ => requires_grad p | None => false end.

(** [optim.Adam(params, lr)]: the parameters are those of the head, which
    the optimizer reaches through the model. *)
Record Adam : Type := {
  lr : T;
  slots : list (adam_slot torch)
}.

Definition Adam_init (params : list (nn_Parameter T)) (lr : T) : Adam :=
  {| lr := lr; slots := map (fun _ => adam_fresh torch) params |}.

Record TrainState : Type := {
  model : CustomWhisperModel.t T;
  optimizer : Adam
}.

Definition set_classifier (m : CustomWhisperModel.t T)
    (c : TurnEndClassifier.t T) : CustomWhisperModel.t T :=
  {| CustomWhisperModel.base := CustomWhisperModel.base m;
     CustomWhisperModel.turn_end_classifier := Some c |}.

(** [model.eval()]: every module of the model leaves training mode. *)
Definition model_eval (m : CustomWhisperModel.t T) : CustomWhisperModel.t T :=
  let b := CustomWhisperModel.base m in
  {| CustomWhisperModel.base :=
       {| config := config b;
          named_parameters := named_parameters b;
          whisper_training := false |};
     CustomWhisperModel.turn_end_classifier :=
       option_map (TurnEndClassifier.train false)
                  (CustomWhisperModel.turn_end_classifier m) |}.

(** [model.turn_end_classifier.train()]. *)
Definition classifier_train (m : CustomWhisperModel.t T)
    : result (CustomWhisperModel.t T) :=
  match CustomWhisperModel.turn_end_classifier m with
  | None => Raise (AttributeError "'NoneType' object has no attribute 'train'")
  | Some c => Ok (set_classifier m (TurnEndClassifier.train true c))
  end.

(** [optimizer.zero_grad()]: the buffers of the optimizer's parameters
    are reset. *)
Definition zero_grad (s : TrainState) : TrainState :=
  match CustomWhisperModel.turn_end_classifier (model s) with
  | None => s
  | Some c =>
      {| model := set_classifier (model s)
           (TurnEndClassifier.update_parameters
              (fun _ p => {| data := data p;
                             requires_grad := requires_grad p;
                             grad := None |}) c);
         optimizer := optimizer s |}
  end.

(** [loss.backward()] for the loss of one sample: every parameter the
    loss depends on and that requires a gradient accumulates it, in the
    base model as in the head; [torch] refuses when there is none. *)
Definition backward (input_features : tensor T) (decoder_input_ids : list (list Z))
    (target : tensor T) (m : CustomWhisperModel.t T)
    : result (CustomWhisperModel.t T) :=
  let gb := grad_base torch m input_features decoder_input_ids target in
  let gh := grad_head torch m input_features decoder_input_ids target in
  let b := CustomWhisperModel.base m in
  let head_params :=
    match CustomWhisperModel.turn_end_classifier m with
    | None => []
    | Some c => TurnEndClassifier.parameters c
    end in
  if existsb (fun np => receives_grad (gb (fst np)) (snd np)) (named_parameters b)
     || existsb (fun ip => receives_grad (gh (fst ip)) (snd ip))
          (combine (seq 0 (List.length head_params)) head_params)
  then
    Ok {| CustomWhisperModel.base :=
            {| config := config b;
               named_parameters :=
                 map (fun np => (fst np, accumulate (gb (fst np)) (snd np)))
                     (named_parameters b);
               whisper_training := whisper_training b |};
          CustomWhisperModel.turn_end_classifier :=
            option_map
              (TurnEndClassifier.update_parameters (fun i p => accumulate (gh i) p))
              (CustomWhisperModel.turn_end_classifier m) |}
  else Raise (RuntimeError
    "element 0 of tensors does not require grad and does not have a grad_fn").

(** [optimizer.step()]: each parameter of the optimizer that holds a
    gradient takes one Adam update. *)
Definition step_parameter (o : Adam) (i : nat) (p : nn_Parameter T)
    : nn_Parameter T :=
  match grad p with
  | None => p
  | Some g =>
      {| data := fst (adam_update torch (lr o) (nth i (slots o) (adam_fresh torch))
                        (data p) g);
         requires_grad := requires_grad p;
         grad := grad p |}
  end.

Definition step_slot (o : Adam) (ip : nat * nn_Parameter T) : adam_slot torch :=
  let slot := nth (fst ip) (slots o) (adam_fresh torch) in
  match grad (snd ip) with
  | None => slot
  | Some g => snd (adam_update torch (lr o) slot (data (snd ip)) g)
  end.

Definition step (s : TrainState) : TrainState :=
  match CustomWhisperModel.turn_end_classifier (model s) with
  | None => s
  | Some c =>
      let ps := TurnEndClassifier.parameters c in
      {| model := set_classifier (model s)
           (TurnEndClassifier.update_parameters (step_parameter (optimizer s)) c);
         optimizer :=
           {| lr := lr (optimizer s);
              slots := map (step_slot (optimizer s))
                           (combine (seq 0 (List.length ps)) ps) |} |}
  end.

(** [torch.tensor([[v]])]. *)
Definition tensor_1x1 (v : T) : tensor T :=
  {| shape := [1; 1]; elem := fun _ => v |}.

Definition set_model (f : CustomWhisperModel.t T -> CustomWhisperModel.t T)
    (s : TrainState) : TrainState :=
  {| model := f (model s); optimizer := optimizer s |}.

(** [model.forward_with_turn_end(...)] on the model of the state. *)
Definition run_forward (input_features : tensor T)
    (decoder_input_ids : list (list Z))
    : M TrainState (Seq2SeqLMOutput T * tensor T) :=
  s <~ get ;;
  lift (CustomWhisperModel.forward_with_turn_end ext (model s)
          input_features decoder_input_ids []).

(** The body of the loop of [train_single_epoch]. *)
Definition train_sample (tokenizer : Tokenizer) (epoch_loss : T)
    (sample : list T * T) : M TrainState T :=
  let (audio, label) := sample in
  _ <~ modify zero_grad ;;
  features <~ lift (feature_extractor ext audio 16000%Z) ;;
  let decoder_input_ids := [[pad_token_id tokenizer]] in
  out <~ run_forward (input_features features) decoder_input_ids ;;
  let turn_end_pred := snd out in
  let target := tensor_1x1 label in
  loss <~ lift (BCELoss torch turn_end_pred target) ;;
  _ <~ (fun s =>
          match backward (input_features features) decoder_input_ids target
                  (model s) with
          | Ok m => (Ok tt, set_model (fun _ => m) s)
          | Raise e => (Raise e, s)
          end) ;;
  _ <~ modify step ;;
  ret (add epoch_loss loss).

Definition train_single_epoch (samples : list (list T)) (labels : list T)
    (tokenizer : Tokenizer) : M TrainState T :=
  _ <~ modify (set_model model_eval) ;;
  _ <~ (fun s =>
          match classifier_train (model s) with
          | Ok m => (Ok tt, set_model (fun _ => m) s)
          | Raise e => (Raise e, s)
          end) ;;
  epoch_loss <~ for_each (train_sample tokenizer) (zip samples labels) zero ;;
  match List.length samples with
  | 0 => lift (Raise (ZeroDivisionError "division by zero"))
  | n => ret (true_divide torch epoch_loss n)
  end.

Definition create_training_samples (audio_path : string)
    : result (list T * list T) :=
  loaded <- librosa_load ext audio_path 16000%Z ;;
  let (audio, sr) := loaded in
  let full_audio := audio in
  let partial_audio := py_slice_to (py_int (4 * inject_Z sr)) audio in
  Ok (full_audio, partial_audio).

(** The predictions printed every tenth epoch, under [torch.no_grad()]:
    nothing is kept of them, but a failure propagates. *)
Definition report (samples : list (list T)) (tokenizer : Tokenizer)
    : M TrainState unit :=
  for_each
    (fun (_ : unit) audio =>
       features <~ lift (feature_extractor ext audio 16000%Z) ;;
       out <~ run_forward (input_features features) [[pad_token_id tokenizer]] ;;
       _ <~ lift (squeeze_item (snd out)) ;;
       ret tt)
    samples tt.

(** The body of the loop of [train_model]. *)
Definition train_epoch (samples : list (list T)) (labels : list T)
    (tokenizer : Tokenizer) (losses : list T) (epoch : nat)
    : M TrainState (list T) :=
  loss <~ train_single_epoch samples labels tokenizer ;;
  let losses := (losses ++ [loss])%list in
  _ <~ (if epoch mod 10 =? 0 then report samples tokenizer else ret tt) ;;
  ret losses.

Definition train_model (audio_path : string) (tokenizer : Tokenizer)
    (num_epochs : nat) : M (CustomWhisperModel.t T) (list T) :=
  fun m =>
    match create_training_samples audio_path with
    | Raise e => (Raise e, m)
    | Ok (full_audio, partial_audio) =>
        let samples := [full_audio; partial_audio] in
        let labels := [of_Q torch 1; of_Q torch 0] in
        match CustomWhisperModel.turn_end_classifier m with
        | None =>
            (Raise (AttributeError
               "'NoneType' object has no attribute 'parameters'"), m)
        | Some c =>
            let optimizer :=
              Adam_init (TurnEndClassifier.parameters c)
                        (of_Q torch (1 # 1000)) in
            let (r, s) :=
              for_each (train_epoch samples labels tokenizer)
                       (seq 0 num_epochs) []
                       {| model := m; optimizer := optimizer |} in
            (r, model s)
        end
    end.

(** The values and the configuration of the base model of a training
    state. *)
Definition frozen_at (sd : list (string * tensor T)) (cfg : WhisperConfig)
    (s : TrainState) : Prop :=
  state_dict (CustomWhisperModel.base (model s)) = sd
  /\ config (CustomWhisperModel.base (model s)) = cfg.

End TorchTraining.

Arguments Torch T : clear implicits.

(** ** The architecture of a head

    What is left of a module when every parameter is replaced by its
    shape.  A head [c] is [built_as] the head that [__init__] makes for
    given dimensions when the two have the same architecture, whatever
    the values, flags and gradient buffers of [c]. *)

Section Architecture.
Context {T : Type} `{Scalar T}.

Inductive module_arch : Type :=
| LinearA (weight_shape bias_shape : list nat)
| Conv1dA (weight_shape bias_shape : list nat) (stride padding : nat)
| ReLUA
| SigmoidA
| AdaptiveMaxPool1dA (output_size : nat).

Definition arch_of (m : nn_Module T) : module_arch :=
  match m with
  | Linear w b => LinearA (shape (data w)) (shape (data b))
  | Conv1d w b s p => Conv1dA (shape (data w)) (shape (data b)) s p
  | ReLU => ReLUA
  | Sigmoid => SigmoidA
  | AdaptiveMaxPool1d o => AdaptiveMaxPool1dA o
  end.

Record head_arch : Type := {
  encoder_reduce_arch : module_arch;
  decoder_reduce_arch : module_arch;
  encoder_conv_arch : list module_arch;
  encoder_pool_arch : module_arch;
  decoder_conv_arch : list module_arch;
  decoder_pool_arch : module_arch;
  fc_arch : list module_arch
}.

Definition architecture (c : TurnEndClassifier.t T) : head_arch :=
  {| encoder_reduce_arch := arch_of (TurnEndClassifier.encoder_reduce c);
     decoder_reduce_arch := arch_of (TurnEndClassifier.decoder_reduce c);
     encoder_conv_arch := map arch_of (TurnEndClassifier.encoder_conv c);
     encoder_pool_arch := arch_of (TurnEndClassifier.encoder_pool c);
     decoder_conv_arch := map arch_of (TurnEndClassifier.decoder_conv c);
     decoder_pool_arch := arch_of (TurnEndClassifier.decoder_pool c);
     fc_arch := map arch_of (TurnEndClassifier.fc c) |}.

Definition built_as (encoder_dim decoder_dim hidden_dim : nat)
    (c : TurnEndClassifier.t T) : Prop :=
  architecture c =
  architecture
    (TurnEndClassifier.__init__ (fun _ _ => zero) encoder_dim decoder_dim hidden_dim).






(** The length of the output of one [Conv1d] on an input of length [l]. *)
Definition conv_out_len (l kernel_size stride padding : nat) : nat :=
  (l + 2 * padding - kernel_size) / stride + 1.





End Architecture.

(** ** Scalars of [torch.float32] *)

(** The arithmetic of the tensors of this program.  [torch.sigmoid] is a
    parameter: see [Float32.sigmoid_contract]. *)
Definition Scalar_float32 (sig : spec_float -> spec_float) : Scalar spec_float :=
  {| zero := Float32.zero;
     add := Float32.add;
     mul := Float32.mul;
     maximum := Float32.maximum;
     sigmoid_fn := sig |}.

(** ** Real-valued scalars

    Exact arithmetic, without rounding, overflow or NaN: not what
    [torch] computes.  It gives the concrete tensors of [Notebook] and
    [Cases] below, on which statements that hold for every [Scalar] are
    run; no statement about the values that the code computes is made
    at it. *)

Definition R_sigmoid (x : R) : R := Rdiv 1 (Rplus 1 (exp (Ropp x))).

#[export] Instance Scalar_R : Scalar R := {|
  zero := 0%R;
  add := Rplus;
  mul := Rmult;
  maximum := Rmax;
  sigmoid_fn := R_sigmoid
|}.

(** ** The notebook's cells on a concrete world

    One concrete choice of collaborators, with the dimensions of
    [openai/whisper-tiny.en] as the notebook prints them (hidden size
    384, 1500 encoder positions for 3000 feature frames, the encoder's
    position table as the only parameter that is not trainable), on
    which the definitions above can be run. *)

Module Notebook.

Definition const_tensor (shp : list nat) (v : R) : tensor R :=
  {| shape := shp; elem := fun _ => v |}.

Definition model_id : string := "openai/whisper-tiny.en".

Definition checkpoint : Whisper R :=
  {| config := {| d_model := 384; decoder_start_token_id := 50257 |};
     named_parameters :=
       [ ("model.encoder.embed_positions.weight",
          {| data := const_tensor [1500; 384] 0;
             requires_grad := false; grad := None |});
         ("model.encoder.conv1.weight",
          {| data := const_tensor [384; 80; 3] 0;
             requires_grad := true; grad := None |}) ];
     whisper_training := false |}.

(** A forward pass with the shapes of the real one: features
    [b, 80, 3000] and [n] decoder tokens give encoder states
    [b, 1500, d_model] and decoder states [b, n, d_model]. *)
Definition forward_shapes (cfg : WhisperConfig) (sd : list (string * tensor R))
    (mode : bool) (x : tensor R) (ids : list (list Z)) (ohs : bool)
    (kw : list (string * tensor R)) : result (Seq2SeqLMOutput R) :=
  match shape x, ids with
  | [b; mels; frames], row :: _ =>
      if (mels =? 80) && (frames =? 3000) then
        let hidden := const_tensor [b; List.length row; d_model cfg] 0 in
        Ok {| logits := hidden;
              encoder_last_hidden_state := const_tensor [b; 1500; d_model cfg] 0;
              decoder_hidden_states := [hidden; hidden; hidden; hidden; hidden] |}
      else Raise (External "ValueError")
  | _, _ => Raise (External "ValueError")
  end.

Definition test_wav : string := "./test_data/test.wav".
Definition telephone_wav : string := "./test_data/telephone_8k.wav".

Definition world : Collaborators R :=
  {| whisper_forward := forward_shapes;
     whisper_init := fun cfg =>
       {| config := cfg;
          named_parameters := named_parameters checkpoint;
          whisper_training := true |};
     pretrained := fun name =>
       if String.eqb name model_id then Ok checkpoint
       else Raise (External "OSError");
     files := fun path =>
       if String.eqb path test_wav then
         Some {| native_sr := 16000; file_samples := [0; 0; 0; 0]%R |}
       else if String.eqb path telephone_wav then
         Some {| native_sr := 8000; file_samples := [0; 0]%R |}
       else None;
     resample := fun samples orig target =>
       flat_map (fun v => repeat v (Z.to_nat (target / orig))) samples;
     feature_extractor := fun audio sr =>
       if (sr =? 16000)%Z then
         Ok {| input_features := const_tensor [1; 80; 3000] 0;
               attention_mask := None |}
       else Raise (External "ValueError") |}.

Definition turn_end_classifier : TurnEndClassifier.t R :=
  TurnEndClassifier.__init__ (fun _ _ => 0%R) 384 384 64.

Definition turn_end_model : CustomWhisperModel.t R :=
  {| CustomWhisperModel.base := checkpoint;
     CustomWhisperModel.turn_end_classifier := Some turn_end_classifier |}.

Definition turn_end_pipe : TurnEndPipeline.t R :=
  TurnEndPipeline.__init__ turn_end_model.

(** A head declared for a hidden size of 512, and the model it is
    attached to. *)
Definition wide_classifier : TurnEndClassifier.t R :=
  TurnEndClassifier.__init__ (fun _ _ => 0%R) 512 512 64.

Definition wide_model : CustomWhisperModel.t R :=
  {| CustomWhisperModel.base := checkpoint;
     CustomWhisperModel.turn_end_classifier := Some wide_classifier |}.

(** Encoder states of a single time step. *)
Definition one_step : tensor R := const_tensor [1; 1; 384] 0.



(** [torch] for training, at the reals: the binary cross-entropy of a
    single prediction, plain gradient descent standing for the update
    rule, and gradients that reach every parameter. *)
Definition torch : Torch R :=
  {| BCELoss := fun input target =>
       if shape_eqb (shape input) (shape target) then
         let p := elem input [0; 0] in
         let t := elem target [0; 0] in
         Ok (- (t * ln p + (1 - t) * ln (1 - p)))%R
       else Raise (External "ValueError");
     grad_base := fun _ _ _ _ _ => Some (const_tensor [1] 1);
     grad_head := fun _ _ _ _ _ => Some (const_tensor [1] 1);
     adam_slot := nat;
     adam_fresh := 0;
     adam_update := fun lr slot value g =>
       ({| shape := shape value;
           elem := fun idx => (elem value idx - lr * elem g idx)%R |},
        S slot);
     true_divide := fun x n => (x / INR n)%R;
     of_Q := Q2R |}.

Definition tokenizer : Tokenizer := {| pad_token_id := 50256 |}.

(** The state in which [train_model] enters its first epoch. *)
Definition initial_state : TrainState torch :=
  {| model := turn_end_model;
     optimizer := Adam_init torch (TurnEndClassifier.parameters turn_end_classifier)
                    (of_Q torch (1 # 1000)) |}.

Definition has_grad (p : nn_Parameter R) : bool :=
  match grad p with Some _ => true | None => false end.

(** The state after the first sample of the first epoch. *)
Definition after_one_sample : TrainState torch :=
  snd (train_sample world tokenizer 0%R ([0; 0; 0; 0]%R, 1%R) initial_state).

End Notebook.

(** ** The notebook's [test_custom_whisper_model], and what the further
    properties are stated with *)

Section MoreDefinitions.
Context {T : Type} `{Scalar T}.

(** [torch.randn] of a shape: the values drawn are a parameter. *)
Definition torch_randn (noise : list nat -> T) (shp : list nat) : tensor T :=
  {| shape := shp; elem := noise |}.

(** [torch.randint(low, high, (rows, cols))], from the integers drawn. *)
Definition torch_randint (draw : nat -> nat -> Z) (low high : Z)
    (rows cols : nat) : list (list Z) :=
  map (fun r => map (fun c => (low + (draw r c) mod (high - low))%Z) (seq 0 cols))
      (seq 0 rows).

Definition test_custom_whisper_model (ext : Collaborators T)
    (init : string -> list nat -> T) (noise : list nat -> T)
    (draw : nat -> nat -> Z) : result unit :=
  let batch_size := 2 in
  let sequence_length := 3000 in
  let encoder_dim := 384 in
  let decoder_seq_length := 20 in
  let fake_input_features := torch_randn noise [batch_size; 80; sequence_length] in
  let fake_decoder_input_ids :=
    torch_randint draw 0 100 batch_size decoder_seq_length in
  let turn_end_classifier :=
    TurnEndClassifier.__init__ init encoder_dim encoder_dim 64 in
  model <- CustomWhisperModel.from_pretrained ext "openai/whisper-tiny.en"
             (Some turn_end_classifier) ;;
  _ <- CustomWhisperModel.forward_with_turn_end ext model
         fake_input_features fake_decoder_input_ids [] ;;
  Ok tt.

(** [f] applied to each element of [l] together with its position,
    counted from [i]. *)
Definition mapi_from (i : nat) (f : nat -> nn_Parameter T -> nn_Parameter T)
    (l : list (nn_Parameter T)) : list (nn_Parameter T) :=
  map (fun ip => f (fst ip) (snd ip)) (combine (seq i (List.length l)) l).

Definition is_attached (m : CustomWhisperModel.t T) : bool :=
  match CustomWhisperModel.turn_end_classifier m with
  | Some _ => true
  | None => false
  end.

Definition holds_grad (p : nn_Parameter T) : bool :=
  match grad p with Some _ => true | None => false end.

(** Two outcomes that raise the same exception, or return tensors of
    the same shape. *)
Definition same_outcome (r r' : result (tensor T)) : Prop :=
  match r, r' with
  | Ok y, Ok y' => shape y = shape y'
  | Raise e, Raise e' => e = e'
  | _, _ => False
  end.

(** Two tensors with the same entries in row [b] of the batch. *)
Definition same_row3 (b : nat) (x y : tensor T) : Prop :=
  shape x = shape y /\ forall i j, elem x [b; i; j] = elem y [b; i; j].

Definition same_row2 (b : nat) (x y : tensor T) : Prop :=
  shape x = shape y /\ forall i, elem x [b; i] = elem y [b; i].

(** The modes that [train_single_epoch] sets: the base model evaluates,
    the head trains. *)
Definition modes_set (m : CustomWhisperModel.t T) : Prop :=
  whisper_training (CustomWhisperModel.base m) = false
  /\ exists c, CustomWhisperModel.turn_end_classifier m = Some c
               /\ TurnEndClassifier.training c = true.

(** Which parameters require a gradient: the base model's by name, the
    head's in the order of [parameters()]. *)
Definition trainable_flags (m : CustomWhisperModel.t T)
    : list (string * bool) * option (list bool) :=
  (map (fun np => (fst np, requires_grad (snd np)))
       (named_parameters (CustomWhisperModel.base m)),
   option_map (fun c => map requires_grad (TurnEndClassifier.parameters c))
              (CustomWhisperModel.turn_end_classifier m)).

(** One base parameter before and after: the same name, and a gradient
    buffer that is still filled if it was. *)
Definition buffer_kept (np np' : string * nn_Parameter T) : Prop :=
  fst np = fst np' /\ (holds_grad (snd np) = true -> holds_grad (snd np') = true).

End MoreDefinitions.

(** Properties of the training state that the steps of one sample keep
    ([zero_grad], [backward], [step]), and that the two mode changes at
    the start of an epoch keep. *)
Section Kept.
Context {T : Type} `{Scalar T}.
Variable torch : Torch T.

Definition kept_by_steps (P : TrainState torch -> Prop) : Prop :=
  (forall s, P s -> P (zero_grad s))
  /\ (forall s x ids target m',
        backward torch x ids target (model s) = Ok m' ->
        P s -> P (set_model (fun _ => m') s))
  /\ (forall s, P s -> P (step s)).

Definition kept_by_modes (P : TrainState torch -> Prop) : Prop :=
  (forall s, P s -> P (set_model model_eval s))
  /\ (forall s m',
        classifier_train (model s) = Ok m' ->
        P s -> P (set_model (fun _ => m') s)).

End Kept.

(** Further instances in the notebook's world. *)
Module Cases.

(** A pipeline whose configured rate was changed to 8 kHz. *)
Definition pipe_8k : TurnEndPipeline.t R :=
  {| TurnEndPipeline.model := Notebook.turn_end_model;
     TurnEndPipeline.max_duration := Float64.scaled 30 0;
     TurnEndPipeline.sampling_rate := 8000 |}.

(** A pipeline with a window of no duration, [max_duration = 0.0]. *)
Definition pipe_zero_window : TurnEndPipeline.t R :=
  {| TurnEndPipeline.model := Notebook.turn_end_model;
     TurnEndPipeline.max_duration := Float64.scaled 0 0;
     TurnEndPipeline.sampling_rate := 16000 |}.

(** A pipeline with [max_duration = 1.001]: the product with 16000 is
    rounded to the float just below 16016. *)
Definition pipe_1001_ms : TurnEndPipeline.t R :=
  {| TurnEndPipeline.model := Notebook.turn_end_model;
     TurnEndPipeline.max_duration := Float64.ratio 1001 1000;
     TurnEndPipeline.sampling_rate := 16000 |}.

Definition headless_model : CustomWhisperModel.t R :=
  CustomWhisperModel.__init__ Notebook.world (config Notebook.checkpoint) None.

Definition headless_pipe : TurnEndPipeline.t R :=
  TurnEndPipeline.__init__ headless_model.

Definition features : tensor R := Notebook.const_tensor [1; 80; 3000] 0.

Definition target : tensor R := tensor_1x1 1%R.




End Cases.

(** Instances in [torch.float32]. *)
Module Float32Cases.

(** A function with the contract of [torch.sigmoid], for running the
    statements that assume one: exact at NaN and at zero, and 0 or 1 at
    every other float, by its sign. *)
Definition coarse_sigmoid (x : spec_float) : spec_float :=
  match x with
  | S754_nan => S754_nan
  | S754_zero _ => SFdiv Float32.prec Float32.emax Float32.one (Float32.of_Z 2)
  | S754_infinity s | S754_finite s _ _ => if s then Float32.zero else Float32.one
  end.

(** The parameters of a head whose first classification layer has the
    weights 2 and -2 and whose second has the weight 1; every other
    parameter is 0. *)
Definition steep_init (name : string) (idx : list nat) : spec_float :=
  if String.eqb name "fc.0.weight" then
    match idx with
    | [_; 0] => Float32.of_Z 2
    | _ => Float32.of_Z (-2)
    end
  else if String.eqb name "fc.2.weight" then Float32.one
  else Float32.zero.

Definition steep_head : TurnEndClassifier.t spec_float :=
  TurnEndClassifier.__init__ steep_init 1 1 1.


Definition states_of (length : nat) (v : spec_float) : tensor spec_float :=
  {| shape := [1; length; 1]; elem := fun _ => v |}.

(** A base model of hidden size 1 on which the head above can be run:
    27 encoder states and one decoder state per call. *)
Definition base : Whisper spec_float :=
  {| config := {| d_model := 1; decoder_start_token_id := 50257 |};
     named_parameters := [];
     whisper_training := false |}.

Definition world : Collaborators spec_float :=
  {| whisper_forward := fun cfg sd mode x ids ohs kw =>
       Ok {| logits := states_of 1 Float32.zero;
             encoder_last_hidden_state := states_of 27 Float32.one;
             decoder_hidden_states := [states_of 1 Float32.one] |};
     whisper_init := fun cfg => base;
     pretrained := fun name => Ok base;
     files := fun path => None;
     resample := fun samples orig target => samples;
     feature_extractor := fun audio sr =>
       Ok {| input_features :=
               {| shape := [1; 80; 3000]; elem := fun _ => Float32.zero |};
             attention_mask := None |} |}.

Definition pipe : TurnEndPipeline.t spec_float :=
  TurnEndPipeline.__init__
    {| CustomWhisperModel.base := base;
       CustomWhisperModel.turn_end_classifier := Some steep_head |}.

End Float32Cases.

(** * Properties *)

(** ** Shapes and failures of the tensor operations *)

Section OperationFacts.
Context {T : Type} `{Scalar T}.

Lemma shape_eqb_refl (s : list nat) : shape_eqb s s = true.
Proof. unfold shape_eqb. destruct (list_eq_dec Nat.eq_dec s s); congruence. Qed.

Lemma F_linear_ok (x w b : tensor T) (lead : list nat) (i o : nat) :
  shape w = [o; i] -> shape x = (lead ++ [i])%list ->
  exists y, F_linear x w b = Ok y /\ shape y = (lead ++ [o])%list.
Proof.
  intros Hw Hx. unfold F_linear.
  rewrite Hw, Hx, rev_app_distr. cbn [rev app].
  rewrite Nat.eqb_refl. eexists. split; [reflexivity|].
  cbn [shape]. now rewrite rev_involutive.
Qed.

Lemma F_linear_mismatch (x w b : tensor T) (lead : list nat) (d i o : nat) :
  shape w = [o; i] -> shape x = (lead ++ [d])%list -> d <> i ->
  F_linear x w b = Raise (RuntimeError "mat1 and mat2 shapes cannot be multiplied").
Proof.
  intros Hw Hx Hd. unfold F_linear.
  rewrite Hw, Hx, rev_app_distr. cbn [rev app].
  apply Nat.eqb_neq in Hd. now rewrite Hd.
Qed.

Lemma transpose_1_2_ok (x : tensor T) (a b c : nat) :
  shape x = [a; b; c] ->
  exists y, transpose 1 2 x = Ok y /\ shape y = [a; c; b].
Proof.
  intros Hx. unfold transpose. rewrite Hx. cbn.
  eexists. split; reflexivity.
Qed.

Lemma conv1d_ok (x w b : tensor T) (s p n c l co k : nat) :
  shape x = [n; c; l] -> shape w = [co; c; k] -> k <= l + 2 * p ->
  exists y, conv1d x w b s p = Ok y /\ shape y = [n; co; conv_out_len l k s p].
Proof.
  intros Hx Hw Hk. unfold conv1d. rewrite Hx, Hw, Nat.eqb_refl. cbn [negb].
  destruct (Nat.ltb_spec (l + 2 * p) k) as [Hlt|_]; [lia|].
  eexists. split; reflexivity.
Qed.

Lemma conv1d_short (x w b : tensor T) (s p n c l co k : nat) :
  shape x = [n; c; l] -> shape w = [co; c; k] -> l + 2 * p < k ->
  conv1d x w b s p = Raise kernel_error.
Proof.
  intros Hx Hw Hk. unfold conv1d. rewrite Hx, Hw, Nat.eqb_refl. cbn [negb].
  destruct (Nat.ltb_spec (l + 2 * p) k) as [_|Hge]; [reflexivity|lia].
Qed.

Lemma adaptive_max_pool1d_ok (x : tensor T) (n c l o : nat) :
  shape x = [n; c; l] -> 1 <= c -> 1 <= l ->
  exists y, adaptive_max_pool1d x o = Ok y /\ shape y = [n; c; o].
Proof.
  intros Hx Hc Hl. unfold adaptive_max_pool1d. rewrite Hx.
  destruct c as [|c]; [lia|]. destruct l as [|l]; [lia|]. cbn [Nat.eqb orb].
  eexists. split; reflexivity.
Qed.

Lemma squeeze_last_shape (x : tensor T) (lead : list nat) :
  shape x = (lead ++ [1])%list -> shape (squeeze_last x) = lead.
Proof.
  intros Hx. unfold squeeze_last. rewrite Hx, rev_app_distr. cbn [rev app shape].
  apply rev_involutive.
Qed.

Lemma cat_1_ok (a b : tensor T) (n ca cb : nat) :
  shape a = [n; ca] -> shape b = [n; cb] ->
  exists y, cat a b 1 = Ok y /\ shape y = [n; ca + cb].
Proof.
  intros Ha Hb. unfold cat. rewrite Ha, Hb. cbn.
  rewrite shape_eqb_refl. cbn.
  eexists. split; reflexivity.
Qed.

Lemma squeeze_item_ok (x : tensor T) :
  shape x = [1; 1] -> exists v, squeeze_item x = Ok v.
Proof.
  intros Hx. unfold squeeze_item, numel. rewrite Hx. cbn. eexists. reflexivity.
Qed.

End OperationFacts.

(** ** Reading a head's modules off its architecture *)

Section ArchitectureFacts.
Context {T : Type} `{Scalar T}.

Lemma arch_of_Linear (m : nn_Module T) (ws bs : list nat) :
  arch_of m = LinearA ws bs ->
  exists w b, m = Linear w b /\ shape (data w) = ws /\ shape (data b) = bs.
Proof.
  destruct m; cbn; intros E; try discriminate E.
  injection E as E1 E2. eauto.
Qed.

Lemma arch_of_Conv1d (m : nn_Module T) (ws bs : list nat) (s p : nat) :
  arch_of m = Conv1dA ws bs s p ->
  exists w b, m = Conv1d w b s p /\ shape (data w) = ws /\ shape (data b) = bs.
Proof.
  destruct m; cbn; intros E; try discriminate E.
  injection E as E1 E2 E3 E4. subst. eauto.
Qed.

Lemma arch_of_ReLU (m : nn_Module T) : arch_of m = ReLUA -> m = ReLU.
Proof. destruct m; cbn; intros E; try discriminate E. reflexivity. Qed.

Lemma arch_of_Sigmoid (m : nn_Module T) : arch_of m = SigmoidA -> m = Sigmoid.
Proof. destruct m; cbn; intros E; try discriminate E. reflexivity. Qed.

Lemma arch_of_Pool (m : nn_Module T) (o : nat) :
  arch_of m = AdaptiveMaxPool1dA o -> m = AdaptiveMaxPool1d o.
Proof. destruct m; cbn; intros E; try discriminate E. now injection E as ->. Qed.

Lemma map_arch_cons (l : list (nn_Module T)) (a : module_arch)
    (r : list module_arch) :
  map arch_of l = a :: r ->
  exists m l', l = m :: l' /\ arch_of m = a /\ map arch_of l' = r.
Proof.
  destruct l as [|m l']; cbn; intros E; [discriminate E|].
  injection E as E1 E2. eauto.
Qed.

Lemma map_arch_nil (l : list (nn_Module T)) : map arch_of l = [] -> l = [].
Proof. destruct l; cbn; intros E; [reflexivity|discriminate E]. Qed.

(** Splits an equation between architectures of [Sequential]s into its
    modules. *)
Ltac split_arch E :=
  repeat match type of E with
  | map arch_of _ = _ :: _ =>
      let m := fresh "m" in let l := fresh "l" in
      let Em := fresh "Em" in let El := fresh "El" in
      apply map_arch_cons in E; destruct E as (m & l & El & Em & E); subst
  end;
  apply map_arch_nil in E; subst.

Ltac read_module :=
  repeat match goal with
  | E : arch_of _ = LinearA _ _ |- _ =>
      let w := fresh "w" in let b := fresh "b" in
      apply arch_of_Linear in E; destruct E as (w & b & -> & ? & ?)
  | E : arch_of _ = Conv1dA _ _ _ _ |- _ =>
      let w := fresh "w" in let b := fresh "b" in
      apply arch_of_Conv1d in E; destruct E as (w & b & -> & ? & ?)
  | E : arch_of _ = ReLUA |- _ => apply arch_of_ReLU in E; subst
  | E : arch_of _ = SigmoidA |- _ => apply arch_of_Sigmoid in E; subst
  | E : arch_of _ = AdaptiveMaxPool1dA _ |- _ => apply arch_of_Pool in E; subst
  end.

Variables encoder_dim decoder_dim hidden_dim : nat.
Variable c : TurnEndClassifier.t T.
Hypothesis Hc : built_as encoder_dim decoder_dim hidden_dim c.

Lemma built_encoder_reduce :
  exists w b, TurnEndClassifier.encoder_reduce c = Linear w b
    /\ shape (data w) = [hidden_dim; encoder_dim].
Proof.
  pose proof (f_equal encoder_reduce_arch Hc) as E. cbn in E.
  read_module. eauto.
Qed.

Lemma built_decoder_reduce :
  exists w b, TurnEndClassifier.decoder_reduce c = Linear w b
    /\ shape (data w) = [hidden_dim; decoder_dim].
Proof.
  pose proof (f_equal decoder_reduce_arch Hc) as E. cbn in E.
  read_module. eauto.
Qed.

Lemma built_encoder_conv :
  exists w1 b1 w2 b2 w3 b3,
    TurnEndClassifier.encoder_conv c =
      [Conv1d w1 b1 3 1; ReLU; Conv1d w2 b2 3 1; ReLU; Conv1d w3 b3 3 1; ReLU]
    /\ shape (data w1) = [hidden_dim; hidden_dim; 5]
    /\ shape (data w2) = [hidden_dim; hidden_dim; 5]
    /\ shape (data w3) = [hidden_dim; hidden_dim; 5].
Proof.
  pose proof (f_equal encoder_conv_arch Hc) as E. cbn in E.
  remember (TurnEndClassifier.encoder_conv c) as l eqn:El. clear El.
  split_arch E. read_module. do 6 eexists. eauto.
Qed.

Lemma built_decoder_conv :
  exists w1 b1 w2 b2,
    TurnEndClassifier.decoder_conv c =
      [Conv1d w1 b1 1 1; ReLU; Conv1d w2 b2 1 1; ReLU]
    /\ shape (data w1) = [hidden_dim; hidden_dim; 3]
    /\ shape (data w2) = [hidden_dim; hidden_dim; 3].
Proof.
  pose proof (f_equal decoder_conv_arch Hc) as E. cbn in E.
  remember (TurnEndClassifier.decoder_conv c) as l eqn:El. clear El.
  split_arch E. read_module. do 4 eexists. eauto.
Qed.

Lemma built_pools :
  TurnEndClassifier.encoder_pool c = AdaptiveMaxPool1d 1
  /\ TurnEndClassifier.decoder_pool c = AdaptiveMaxPool1d 1.
Proof.
  pose proof (f_equal encoder_pool_arch Hc) as E1.
  pose proof (f_equal decoder_pool_arch Hc) as E2. cbn in E1, E2.
  read_module. auto.
Qed.

Lemma built_fc :
  exists w1 b1 w2 b2,
    TurnEndClassifier.fc c = [Linear w1 b1; ReLU; Linear w2 b2; Sigmoid]
    /\ shape (data w1) = [hidden_dim; 2 * hidden_dim]
    /\ shape (data w2) = [1; hidden_dim].
Proof.
  pose proof (f_equal fc_arch Hc) as E. cbn in E.
  remember (TurnEndClassifier.fc c) as l eqn:El. clear El.
  split_arch E. read_module. do 4 eexists. eauto.
Qed.

End ArchitectureFacts.

(** ** The two convolution stacks *)

Section StackFacts.
Context {T : Type} `{Scalar T}.

Lemma conv_out_len_decoder (l : nat) : 1 <= l -> conv_out_len l 3 1 1 = l.
Proof. intros Hl. unfold conv_out_len. rewrite Nat.div_1_r. lia. Qed.

Lemma conv_out_len_encoder (l : nat) : 3 <= l -> conv_out_len l 5 3 1 = l / 3.
Proof.
  intros Hl. unfold conv_out_len.
  replace (l + 2 * 1 - 5) with (l - 3) by lia.
  replace l with ((l - 3) + 1 * 3) at 2 by lia.
  rewrite Nat.div_add by lia. reflexivity.
Qed.

Lemma conv_relu_ok (w b : nn_Parameter T) (s p : nat) (x : tensor T)
    (n ci l co k : nat) :
  shape x = [n; ci; l] -> shape (data w) = [co; ci; k] -> k <= l + 2 * p ->
  exists y, shape y = [n; co; conv_out_len l k s p]
    /\ forall rest, Sequential_forward (Conv1d w b s p :: ReLU :: rest) x
                    = Sequential_forward rest y.
Proof.
  intros Hx Hw Hk.
  destruct (conv1d_ok x (data w) (data b) s p Hx Hw Hk) as (y & Ey & Sy).
  exists (relu y). split; [exact Sy|].
  intros rest. cbn [Sequential_forward nn_forward]. rewrite Ey. reflexivity.
Qed.

Lemma conv_relu_short (w b : nn_Parameter T) (s p : nat) (x : tensor T)
    (n ci l co k : nat) (rest : list (nn_Module T)) :
  shape x = [n; ci; l] -> shape (data w) = [co; ci; k] -> l + 2 * p < k ->
  Sequential_forward (Conv1d w b s p :: ReLU :: rest) x = Raise kernel_error.
Proof.
  intros Hx Hw Hk. cbn [Sequential_forward nn_forward].
  rewrite (conv1d_short x (data w) (data b) s p Hx Hw Hk). reflexivity.
Qed.

Lemma decoder_stack_ok (w1 b1 w2 b2 : nn_Parameter T) (x : tensor T)
    (n h l : nat) :
  shape (data w1) = [h; h; 3] -> shape (data w2) = [h; h; 3] ->
  shape x = [n; h; l] -> 1 <= l ->
  exists y,
    Sequential_forward [Conv1d w1 b1 1 1; ReLU; Conv1d w2 b2 1 1; ReLU] x = Ok y
    /\ shape y = [n; h; l].
Proof.
  intros H1 H2 Hx Hl.
  destruct (conv_relu_ok w1 b1 1 1 x Hx H1) as (y1 & S1 & E1); [lia|].
  rewrite conv_out_len_decoder in S1 by exact Hl.
  destruct (conv_relu_ok w2 b2 1 1 y1 S1 H2) as (y2 & S2 & E2); [lia|].
  rewrite conv_out_len_decoder in S2 by exact Hl.
  exists y2. rewrite E1, E2. split; [reflexivity|exact S2].
Qed.

Lemma encoder_stack_ok (w1 b1 w2 b2 w3 b3 : nn_Parameter T) (x : tensor T)
    (n h l : nat) :
  shape (data w1) = [h; h; 5] -> shape (data w2) = [h; h; 5] ->
  shape (data w3) = [h; h; 5] ->
  shape x = [n; h; l] -> 27 <= l ->
  exists y,
    Sequential_forward
      [Conv1d w1 b1 3 1; ReLU; Conv1d w2 b2 3 1; ReLU; Conv1d w3 b3 3 1; ReLU] x
    = Ok y
    /\ shape y = [n; h; l / 3 / 3 / 3] /\ 1 <= l / 3 / 3 / 3.
Proof.
  intros H1 H2 H3 Hx Hl.
  assert (L1 : 9 <= l / 3) by (apply Nat.div_le_lower_bound; lia).
  assert (L2 : 3 <= l / 3 / 3) by (apply Nat.div_le_lower_bound; lia).
  assert (L3 : 1 <= l / 3 / 3 / 3) by (apply Nat.div_le_lower_bound; lia).
  destruct (conv_relu_ok w1 b1 3 1 x Hx H1) as (y1 & S1 & E1); [lia|].
  rewrite conv_out_len_encoder in S1 by lia.
  destruct (conv_relu_ok w2 b2 3 1 y1 S1 H2) as (y2 & S2 & E2); [lia|].
  rewrite conv_out_len_encoder in S2 by lia.
  destruct (conv_relu_ok w3 b3 3 1 y2 S2 H3) as (y3 & S3 & E3); [lia|].
  rewrite conv_out_len_encoder in S3 by lia.
  exists y3. rewrite E1, E2, E3. auto.
Qed.

Lemma encoder_stack_short (w1 b1 w2 b2 w3 b3 : nn_Parameter T) (x : tensor T)
    (n h l : nat) :
  shape (data w1) = [h; h; 5] -> shape (data w2) = [h; h; 5] ->
  shape (data w3) = [h; h; 5] ->
  shape x = [n; h; l] -> l < 27 ->
  Sequential_forward
    [Conv1d w1 b1 3 1; ReLU; Conv1d w2 b2 3 1; ReLU; Conv1d w3 b3 3 1; ReLU] x
  = Raise kernel_error.
Proof.
  intros H1 H2 H3 Hx Hl.
  destruct (Nat.lt_ge_cases l 3) as [Hs|Hs].
  { eapply conv_relu_short; [exact Hx|exact H1|lia]. }
  destruct (conv_relu_ok w1 b1 3 1 x Hx H1) as (y1 & S1 & E1); [lia|].
  rewrite conv_out_len_encoder in S1 by lia. rewrite E1.
  destruct (Nat.lt_ge_cases (l / 3) 3) as [Hs1|Hs1].
  { eapply conv_relu_short; [exact S1|exact H2|lia]. }
  destruct (conv_relu_ok w2 b2 3 1 y1 S1 H2) as (y2 & S2 & E2); [lia|].
  rewrite conv_out_len_encoder in S2 by lia. rewrite E2.
  assert (l / 3 < 9) by (apply Nat.Div0.div_lt_upper_bound; lia).
  assert (l / 3 / 3 < 3) by (apply Nat.Div0.div_lt_upper_bound; lia).
  eapply conv_relu_short; [exact S2|exact H3|lia].
Qed.

End StackFacts.

(** ** The two streams of the head *)

Section StreamFacts.
Context {T : Type} `{Scalar T}.

(** [forward] succeeds exactly when both streams and the classification
    do, and then returns what they give. *)
Lemma forward_streams (c : TurnEndClassifier.t T) (e d y : tensor T) :
  TurnEndClassifier.forward c e d = Ok y <->
  exists ev dv,
    TurnEndClassifier.compress_encoder c e = Ok ev
    /\ TurnEndClassifier.compress_decoder c d = Ok dv
    /\ TurnEndClassifier.classify c ev dv = Ok y.
Proof.
  unfold TurnEndClassifier.forward, TurnEndClassifier.compress_encoder,
    TurnEndClassifier.compress_decoder, TurnEndClassifier.compress,
    TurnEndClassifier.convolved, TurnEndClassifier.classify.
  destruct (nn_forward (TurnEndClassifier.encoder_reduce c) e) as [e1|]; cbn [bind];
    [|split; [discriminate|intros (? & ? & E & _); discriminate E]].
  destruct (nn_forward (TurnEndClassifier.decoder_reduce c) d) as [d1|]; cbn [bind];
    [|split; [discriminate|intros (? & ? & _ & E & _); discriminate E]].
  destruct (transpose 1 2 e1) as [e2|]; cbn [bind];
    [|split; [discriminate|intros (? & ? & E & _); discriminate E]].
  destruct (Sequential_forward (TurnEndClassifier.encoder_conv c) e2) as [e3|];
    cbn [bind];
    [|split; [discriminate|intros (? & ? & E & _); discriminate E]].
  destruct (nn_forward (TurnEndClassifier.encoder_pool c) e3) as [e4|]; cbn [bind];
    [|split; [discriminate|intros (? & ? & E & _); discriminate E]].
  destruct (transpose 1 2 d1) as [d2|]; cbn [bind];
    [|split; [discriminate|intros (? & ? & _ & E & _); discriminate E]].
  destruct (Sequential_forward (TurnEndClassifier.decoder_conv c) d2) as [d3|];
    cbn [bind];
    [|split; [discriminate|intros (? & ? & _ & E & _); discriminate E]].
  destruct (nn_forward (TurnEndClassifier.decoder_pool c) d3) as [d4|]; cbn [bind];
    [|split; [discriminate|intros (? & ? & _ & E & _); discriminate E]].
  split.
  - intros E. do 2 eexists. repeat split; [reflexivity..|exact E].
  - intros (ev & dv & Ee & Ed & E).
    injection Ee as <-. injection Ed as <-. exact E.
Qed.

Variables encoder_dim decoder_dim hidden_dim : nat.
Variable c : TurnEndClassifier.t T.
Hypothesis Hc : built_as encoder_dim decoder_dim hidden_dim c.
Hypothesis Hh : 1 <= hidden_dim.

Lemma decoder_stream_ok (x : tensor T) (batch length : nat) :
  shape x = [batch; length; decoder_dim] -> 1 <= length ->
  exists f v,
    TurnEndClassifier.convolved (TurnEndClassifier.decoder_reduce c)
      (TurnEndClassifier.decoder_conv c) x = Ok f
    /\ shape f = [batch; hidden_dim; length]
    /\ TurnEndClassifier.compress_decoder c x = Ok v
    /\ shape v = [batch; hidden_dim].
Proof.
  intros Hx Hl.
  destruct (built_decoder_reduce Hc) as (w & b & Er & Sw).
  destruct (built_decoder_conv Hc) as (w1 & b1 & w2 & b2 & Ec & S1 & S2).
  destruct (built_pools Hc) as (_ & Ep).
  unfold TurnEndClassifier.compress_decoder, TurnEndClassifier.compress,
    TurnEndClassifier.convolved.
  rewrite Er, Ec, Ep. cbn [nn_forward].
  destruct (F_linear_ok x (data w) (data b) [batch; length] Sw Hx)
    as (r & -> & Sr). cbn [bind app] in *.
  destruct (transpose_1_2_ok r Sr) as (t & -> & St). cbn [bind].
  destruct (decoder_stack_ok w1 b1 w2 b2 t S1 S2 St Hl) as (f & -> & Sf).
  cbn [bind nn_forward].
  destruct (adaptive_max_pool1d_ok f 1 Sf Hh Hl) as (p & -> & Sp). cbn [bind].
  exists f, (squeeze_last p). repeat split; try reflexivity; try exact Sf.
  apply squeeze_last_shape with (lead := [batch; hidden_dim]). exact Sp.
Qed.

Lemma encoder_stream_ok (x : tensor T) (batch length : nat) :
  shape x = [batch; length; encoder_dim] -> 27 <= length ->
  exists f v,
    TurnEndClassifier.convolved (TurnEndClassifier.encoder_reduce c)
      (TurnEndClassifier.encoder_conv c) x = Ok f
    /\ shape f = [batch; hidden_dim; length / 3 / 3 / 3]
    /\ 1 <= length / 3 / 3 / 3
    /\ TurnEndClassifier.compress_encoder c x = Ok v
    /\ shape v = [batch; hidden_dim].
Proof.
  intros Hx Hl.
  destruct (built_encoder_reduce Hc) as (w & b & Er & Sw).
  destruct (built_encoder_conv Hc)
    as (w1 & b1 & w2 & b2 & w3 & b3 & Ec & S1 & S2 & S3).
  destruct (built_pools Hc) as (Ep & _).
  unfold TurnEndClassifier.compress_encoder, TurnEndClassifier.compress,
    TurnEndClassifier.convolved.
  rewrite Er, Ec, Ep. cbn [nn_forward].
  destruct (F_linear_ok x (data w) (data b) [batch; length] Sw Hx)
    as (r & -> & Sr). cbn [bind app] in *.
  destruct (transpose_1_2_ok r Sr) as (t & -> & St). cbn [bind].
  destruct (encoder_stack_ok w1 b1 w2 b2 w3 b3 t S1 S2 S3 St Hl)
    as (f & -> & Sf & Hf).
  cbn [bind nn_forward].
  destruct (adaptive_max_pool1d_ok f 1 Sf Hh Hf) as (p & -> & Sp). cbn [bind].
  exists f, (squeeze_last p). repeat split; try reflexivity; try assumption.
  apply squeeze_last_shape with (lead := [batch; hidden_dim]). exact Sp.
Qed.

Lemma encoder_stream_short (x : tensor T) (batch length : nat) :
  shape x = [batch; length; encoder_dim] -> length < 27 ->
  TurnEndClassifier.convolved (TurnEndClassifier.encoder_reduce c)
    (TurnEndClassifier.encoder_conv c) x = Raise kernel_error
  /\ TurnEndClassifier.compress_encoder c x = Raise kernel_error.
Proof.
  intros Hx Hl.
  destruct (built_encoder_reduce Hc) as (w & b & Er & Sw).
  destruct (built_encoder_conv Hc)
    as (w1 & b1 & w2 & b2 & w3 & b3 & Ec & S1 & S2 & S3).
  unfold TurnEndClassifier.compress_encoder, TurnEndClassifier.compress,
    TurnEndClassifier.convolved.
  rewrite Er, Ec. cbn [nn_forward].
  destruct (F_linear_ok x (data w) (data b) [batch; length] Sw Hx)
    as (r & -> & Sr). cbn [bind app] in *.
  destruct (transpose_1_2_ok r Sr) as (t & -> & St). cbn [bind].
  rewrite (encoder_stack_short w1 b1 w2 b2 w3 b3 t S1 S2 S3 St Hl).
  split; reflexivity.
Qed.

Lemma classify_ok (ev dv : tensor T) (batch : nat) :
  shape ev = [batch; hidden_dim] -> shape dv = [batch; hidden_dim] ->
  exists z, TurnEndClassifier.classify c ev dv = Ok (sigmoid z)
    /\ shape z = [batch; 1].
Proof.
  intros He Hd.
  destruct (built_fc Hc) as (w1 & b1 & w2 & b2 & Ef & S1 & S2).
  unfold TurnEndClassifier.classify. rewrite Ef.
  destruct (cat_1_ok ev dv He Hd) as (x & -> & Sx). cbn [bind].
  replace (hidden_dim + hidden_dim) with (2 * hidden_dim) in Sx
    by (clear; lia).
  cbn [Sequential_forward nn_forward].
  destruct (F_linear_ok x (data w1) (data b1) [batch] S1 Sx) as (y1 & -> & Sy1).
  cbn [bind app] in *.
  assert (Sr : shape (relu y1) = [batch; hidden_dim]) by exact Sy1.
  destruct (F_linear_ok (relu y1) (data w2) (data b2) [batch] S2 Sr)
    as (y2 & -> & Sy2).
  cbn [bind app] in *. exists y2. split; [reflexivity|exact Sy2].
Qed.

Lemma forward_ok (e d : tensor T) (batch le ld : nat) :
  shape e = [batch; le; encoder_dim] -> 27 <= le ->
  shape d = [batch; ld; decoder_dim] -> 1 <= ld ->
  exists z, TurnEndClassifier.forward c e d = Ok (sigmoid z)
    /\ shape z = [batch; 1].
Proof.
  intros He Hle Hd Hld.
  destruct (encoder_stream_ok e He Hle) as (_ & ev & _ & _ & _ & Ee & Sev).
  destruct (decoder_stream_ok d Hd Hld) as (_ & dv & _ & _ & Ed & Sdv).
  destruct (classify_ok ev dv Sev Sdv) as (z & Ez & Sz).
  exists z. split; [|exact Sz].
  apply forward_streams. eauto.
Qed.

Lemma forward_mismatch (e d : tensor T) (batch le ld de dd : nat) :
  shape e = [batch; le; de] -> shape d = [batch; ld; dd] ->
  de <> encoder_dim \/ dd <> decoder_dim ->
  TurnEndClassifier.forward c e d =
  Raise (RuntimeError "mat1 and mat2 shapes cannot be multiplied").
Proof.
  intros He Hd Hne.
  destruct (built_encoder_reduce Hc) as (w & b & Er & Sw).
  destruct (built_decoder_reduce Hc) as (w' & b' & Er' & Sw').
  unfold TurnEndClassifier.forward. rewrite Er, Er'. cbn [nn_forward].
  destruct (Nat.eq_dec de encoder_dim) as [->|Hde].
  - destruct (F_linear_ok e (data w) (data b) [batch; le] Sw He) as (r & -> & _).
    cbn [bind]. destruct Hne as [Hne|Hne]; [congruence|].
    now rewrite (F_linear_mismatch d (data w') (data b') [batch; ld] Sw' Hd Hne).
  - now rewrite (F_linear_mismatch e (data w) (data b) [batch; le] Sw He Hde).
Qed.

End StreamFacts.

(** ** Which exceptions the head can raise *)

Section NoAssertion.
Context {T : Type} `{Scalar T}.

Lemma no_assertion_bind {A B : Type} (m : result A) (k : A -> result B) :
  no_assertion m -> (forall a, no_assertion (k a)) -> no_assertion (bind m k).
Proof.
  intros Hm Hk msg. destruct m as [a|e]; cbn.
  - apply Hk.
  - intros E. apply (Hm msg). congruence.
Qed.

Ltac case_split :=
  repeat match goal with
  | |- context [match ?x with _ => _ end] => destruct x
  end;
  intros msg E; discriminate E.

Lemma nn_forward_no_assertion (m : nn_Module T) (x : tensor T) :
  no_assertion (nn_forward m x).
Proof.
  destruct m; cbn [nn_forward];
    unfold no_assertion, F_linear, conv1d, adaptive_max_pool1d; case_split.
Qed.

Lemma Sequential_no_assertion (layers : list (nn_Module T)) (x : tensor T) :
  no_assertion (Sequential_forward layers x).
Proof.
  revert x. induction layers as [|m rest IH]; intros x; cbn [Sequential_forward].
  - intros msg E. discriminate E.
  - apply no_assertion_bind; [apply nn_forward_no_assertion|exact IH].
Qed.

Lemma transpose_no_assertion (d0 d1 : nat) (x : tensor T) :
  no_assertion (transpose d0 d1 x).
Proof. unfold no_assertion, transpose. case_split. Qed.

Lemma cat_no_assertion (a b : tensor T) (dim : nat) : no_assertion (cat a b dim).
Proof. unfold no_assertion, cat. case_split. Qed.

Lemma py_last_no_assertion (l : list (tensor T)) : no_assertion (py_last l).
Proof. unfold no_assertion, py_last. case_split. Qed.

Lemma forward_no_assertion (c : TurnEndClassifier.t T) (e d : tensor T) :
  no_assertion (TurnEndClassifier.forward c e d).
Proof.
  unfold TurnEndClassifier.forward.
  repeat first
    [ apply no_assertion_bind; [|intros ?]
    | apply nn_forward_no_assertion
    | apply Sequential_no_assertion
    | apply transpose_no_assertion
    | apply cat_no_assertion ].
Qed.

End NoAssertion.

(** ** The head: compression, classification, dimensions *)

Section HeadClaims.
Context {T : Type} `{Scalar T}.

Lemma decoder_stream_empty (e d h : nat) (c : TurnEndClassifier.t T)
    (x : tensor T) (batch : nat) :
  built_as e d h c -> shape x = [batch; 0; d] ->
  TurnEndClassifier.convolved (TurnEndClassifier.decoder_reduce c)
    (TurnEndClassifier.decoder_conv c) x = Raise kernel_error.
Proof.
  intros Hc Hx.
  destruct (built_decoder_reduce Hc) as (w & b & Er & Sw).
  destruct (built_decoder_conv Hc) as (w1 & b1 & w2 & b2 & Ec & S1 & S2).
  unfold TurnEndClassifier.convolved. rewrite Er, Ec. cbn [nn_forward].
  destruct (F_linear_ok x (data w) (data b) [batch; 0] Sw Hx) as (r & -> & Sr).
  cbn [bind app] in *.
  destruct (transpose_1_2_ok r Sr) as (t & -> & St). cbn [bind].
  eapply conv_relu_short; [exact St|exact S1|lia].
Qed.

(** C5, as amended.  On hidden states of shape [batch, length, dim] and a
    head with the architecture of [__init__]: the decoder stream returns
    a [batch, hidden_dim] vector for every length of at least 1; the
    encoder stream returns one for every length of at least 27, and for
    every shorter input its convolutions raise [torch]'s kernel-size
    error, no padding being added beyond the fixed padding of 1 of each
    convolution; and whenever a convolution stack returns, the length it
    hands to the pooling stage is at least 1. *)
Theorem compress_from_receptive_length
    (e d h : nat) (c : TurnEndClassifier.t T) (x : tensor T) (batch length : nat) :
  built_as e d h c -> 1 <= h ->
  (shape x = [batch; length; d] -> 1 <= length ->
     exists v, TurnEndClassifier.compress_decoder c x = Ok v
               /\ shape v = [batch; h])
  /\ (shape x = [batch; length; e] -> 27 <= length ->
     exists v, TurnEndClassifier.compress_encoder c x = Ok v
               /\ shape v = [batch; h])
  /\ (shape x = [batch; length; e] -> length < 27 ->
     TurnEndClassifier.compress_encoder c x = Raise kernel_error)
  /\ (forall f, shape x = [batch; length; e] ->
     TurnEndClassifier.convolved (TurnEndClassifier.encoder_reduce c)
       (TurnEndClassifier.encoder_conv c) x = Ok f ->
     exists l, shape f = [batch; h; l] /\ 1 <= l)
  /\ (forall f, shape x = [batch; length; d] ->
     TurnEndClassifier.convolved (TurnEndClassifier.decoder_reduce c)
       (TurnEndClassifier.decoder_conv c) x = Ok f ->
     exists l, shape f = [batch; h; l] /\ 1 <= l).
Proof.
  intros Hc Hh. repeat split.
  - intros Hx Hl.
    destruct (decoder_stream_ok Hc Hh x Hx Hl) as (_ & v & _ & _ & Ev & Sv). eauto.
  - intros Hx Hl.
    destruct (encoder_stream_ok Hc Hh x Hx Hl) as (_ & v & _ & _ & _ & Ev & Sv).
    eauto.
  - intros Hx Hl. apply (encoder_stream_short Hc x Hx Hl).
  - intros f Hx Ef.
    destruct (Nat.lt_ge_cases length 27) as [Hl|Hl].
    + destruct (encoder_stream_short Hc x Hx Hl) as (E & _). congruence.
    + destruct (encoder_stream_ok Hc Hh x Hx Hl) as (f' & _ & E & Sf & Hf & _).
      assert (f = f') by congruence. subst f'. eauto.
  - intros f Hx Ef.
    destruct length as [|n].
    + erewrite decoder_stream_empty in Ef; [discriminate Ef|exact Hc|exact Hx].
    + destruct (decoder_stream_ok Hc Hh x Hx) as (f' & _ & E & Sf & _); [lia|].
      assert (f = f') by congruence. subst f'. exists (S n). split; [exact Sf|lia].
Qed.


(** C9, as amended.  Nothing is compared when the head is built or
    attached: [from_pretrained] succeeds whenever the checkpoint loads,
    whatever the dimensions of the head.  A head whose declared encoder
    or decoder dimension differs from the hidden size of the states the
    base model returns makes the first [forward_with_turn_end] raise
    [torch]'s shape error. *)
Theorem dimensions_checked_by_first_forward
    (ext : Collaborators T) (self : CustomWhisperModel.t T)
    (e d h : nat) (c : TurnEndClassifier.t T)
    (x : tensor T) (ids : list (list Z)) (kw : list (string * tensor T))
    (out : Seq2SeqLMOutput T) (dh : tensor T) (batch le ld hidden_size : nat) :
  built_as e d h c ->
  CustomWhisperModel.turn_end_classifier self = Some c ->
  whisper_forward ext (config (CustomWhisperModel.base self))
    (state_dict (CustomWhisperModel.base self))
    (whisper_training (CustomWhisperModel.base self)) x ids true kw = Ok out ->
  shape (encoder_last_hidden_state out) = [batch; le; hidden_size] ->
  py_last (decoder_hidden_states out) = Ok dh ->
  shape dh = [batch; ld; hidden_size] ->
  hidden_size <> e \/ hidden_size <> d ->
  (forall name,
     is_ok (CustomWhisperModel.from_pretrained ext name (Some c))
     = is_ok (pretrained ext name))
  /\ CustomWhisperModel.forward_with_turn_end ext self x ids kw
     = Raise (RuntimeError "mat1 and mat2 shapes cannot be multiplied").
Proof.
  intros Hc Hs Ew Se Ed Sd Hne. split.
  - intros name. unfold CustomWhisperModel.from_pretrained.
    destruct (pretrained ext name); reflexivity.
  - unfold CustomWhisperModel.forward_with_turn_end.
    rewrite Hs, Ew. cbn [bind]. rewrite Ed. cbn [bind].
    now rewrite (forward_mismatch Hc _ _ Se Sd Hne).
Qed.

(** C6.  Without a head, [forward_with_turn_end] raises its assertion
    error, whatever the inputs and before the base model is run.  With
    a head attached that branch is not taken: an assertion error can
    then only be one that the base model's own forward pass raised. *)
Theorem forward_with_turn_end_requires_head
    (ext : Collaborators T) (self : CustomWhisperModel.t T)
    (x : tensor T) (ids : list (list Z)) (kw : list (string * tensor T)) :
  match CustomWhisperModel.turn_end_classifier self with
  | None =>
      CustomWhisperModel.forward_with_turn_end ext self x ids kw
      = Raise (AssertionError
          "TurnEndClassifier must be set before calling forward_with_turn_end")
  | Some _ =>
      forall msg,
        CustomWhisperModel.forward_with_turn_end ext self x ids kw
        = Raise (AssertionError msg) ->
        whisper_forward ext (config (CustomWhisperModel.base self))
          (state_dict (CustomWhisperModel.base self))
          (whisper_training (CustomWhisperModel.base self)) x ids true kw
        = Raise (AssertionError msg)
  end.
Proof.
  unfold CustomWhisperModel.forward_with_turn_end.
  destruct (CustomWhisperModel.turn_end_classifier self) as [c|]; [|reflexivity].
  intros msg.
  destruct (whisper_forward ext _ _ _ x ids true kw) as [out|err]; cbn [bind].
  - intros E. exfalso. revert E.
    apply no_assertion_bind; [apply py_last_no_assertion|]. intros dh.
    apply no_assertion_bind; [apply forward_no_assertion|].
    intros y msg' E. discriminate E.
  - intros E. congruence.
Qed.

End HeadClaims.

(** ** The range of the classifier, in [torch.float32] *)


Lemma sigmoid_nan_or_unit (sig : spec_float -> spec_float) (x : spec_float) :
  Float32.sigmoid_contract sig ->
  (Float32.is_nan x = true /\ sig x = S754_nan)
  \/ (Float32.is_nan x = false /\ Float32.in_unit (sig x) = true).
Proof.
  intros (Hn & Hu). destruct (Float32.is_nan x) eqn:E.
  - left. split; [reflexivity|]. destruct x; try discriminate E. exact Hn.
  - right. split; [reflexivity|]. apply Hu. exact E.
Qed.


(** ** The head of the notebook: instances *)

Lemma notebook_head_built : built_as 384 384 64 Notebook.turn_end_classifier.
Proof. reflexivity. Qed.

Lemma compress_from_receptive_length_witness :
  built_as 384 384 64 Notebook.turn_end_classifier /\ 1 <= 64
  /\ (exists v, TurnEndClassifier.compress_decoder Notebook.turn_end_classifier
                  Notebook.one_step = Ok v /\ shape v = [1; 64])
  /\ TurnEndClassifier.compress_encoder Notebook.turn_end_classifier
       Notebook.one_step = Raise kernel_error.
Proof.
  assert (Hc : built_as 384 384 64 Notebook.turn_end_classifier) by reflexivity.
  assert (Hh : 1 <= 64) by lia.
  pose proof (compress_from_receptive_length Notebook.one_step 1 1 Hc Hh)
    as (Hd & _ & He & _).
  split; [exact Hc|]. split; [exact Hh|]. split.
  - apply Hd; [reflexivity|lia].
  - apply He; [reflexivity|lia].
Defined.

(** C5, as stated, fails on encoder states of a single time step: the
    first convolution of the encoder stream refuses them. *)
Lemma compress_single_step_raises :
  shape Notebook.one_step = [1; 1; 384] /\ 1 <= 1
  /\ TurnEndClassifier.compress_encoder Notebook.turn_end_classifier
       Notebook.one_step = Raise kernel_error
  /\ ~ (exists v, TurnEndClassifier.compress_encoder Notebook.turn_end_classifier
                    Notebook.one_step = Ok v /\ shape v = [1; 64]).
Proof.
  assert (E : TurnEndClassifier.compress_encoder Notebook.turn_end_classifier
                Notebook.one_step = Raise kernel_error) by (vm_compute; reflexivity).
  repeat split; try reflexivity; try exact E.
  intros (v & Ev & _). rewrite E in Ev. discriminate Ev.
Qed.

Lemma coarse_sigmoid_contract :
  Float32.sigmoid_contract Float32Cases.coarse_sigmoid.
Proof.
  split; [reflexivity|].
  intros x Hx. destruct x as [s|s| |s m e]; try discriminate Hx;
    try destruct s; reflexivity.
Qed.




(** C9, as stated, fails: a head declared for a hidden size of 512 is
    attached to a base model of hidden size 384 without any error. *)
Lemma wide_head_attached_without_error :
  built_as 512 512 64 Notebook.wide_classifier
  /\ d_model (config Notebook.checkpoint) = 384
  /\ pretrained Notebook.world Notebook.model_id = Ok Notebook.checkpoint
  /\ CustomWhisperModel.from_pretrained Notebook.world Notebook.model_id
       (Some Notebook.wide_classifier) = Ok Notebook.wide_model.
Proof. repeat split. Qed.

Lemma dimensions_checked_by_first_forward_witness :
  built_as 512 512 64 Notebook.wide_classifier
  /\ (384 <> 512 \/ 384 <> 512)
  /\ CustomWhisperModel.forward_with_turn_end Notebook.world Notebook.wide_model
       (Notebook.const_tensor [1; 80; 3000] 0) [[50257%Z]] []
     = Raise (RuntimeError "mat1 and mat2 shapes cannot be multiplied").
Proof.
  assert (Hc : built_as 512 512 64 Notebook.wide_classifier) by reflexivity.
  assert (Hne : 384 <> 512 \/ 384 <> 512) by (left; lia).
  split; [exact Hc|]. split; [exact Hne|].
  refine (proj2 (dimensions_checked_by_first_forward
                   Notebook.world Notebook.wide_model
                   (Notebook.const_tensor [1; 80; 3000] 0) [[50257%Z]] []
                   (batch := 1) (le := 1500) (ld := 1) (hidden_size := 384)
                   Hc _ _ _ _ _ Hne)); reflexivity.
Defined.

(** ** The pipeline: loading and windowing *)

Section PipelineFacts.
Context {T : Type} `{Scalar T}.
Variable ext : Collaborators T.
Variable m : CustomWhisperModel.t T.

Lemma max_samples_init :
  TurnEndPipeline.max_samples (TurnEndPipeline.__init__ m) = Ok 480000%Z.
Proof. reflexivity. Qed.

Lemma py_slice_from_short {A : Type} (k : Z) (l : list A) :
  (0 < k)%Z -> (Z.of_nat (List.length l) <= k)%Z -> py_slice_from (- k) l = l.
Proof.
  intros Hk Hl. unfold py_slice_from.
  destruct (Z.ltb_spec (- k) 0) as [_|Hn]; [|lia].
  rewrite Z.max_r by lia. reflexivity.
Qed.

Lemma py_slice_from_long {A : Type} (k : Z) (l : list A) :
  (0 < k)%Z -> (k <= Z.of_nat (List.length l))%Z ->
  py_slice_from (- k) l = skipn (Z.to_nat (Z.of_nat (List.length l) - k)) l
  /\ Z.of_nat (List.length (py_slice_from (- k) l)) = k.
Proof.
  intros Hk Hl. unfold py_slice_from.
  destruct (Z.ltb_spec (- k) 0) as [_|Hn]; [|lia].
  rewrite Z.max_l by lia.
  replace (Z.of_nat (List.length l) + - k)%Z
    with (Z.of_nat (List.length l) - k)%Z by lia.
  split; [reflexivity|]. rewrite length_skipn. lia.
Qed.

Lemma py_slice_from_app {A : Type} (k : Z) (prefix l : list A) :
  (0 < k)%Z -> (k <= Z.of_nat (List.length l))%Z ->
  py_slice_from (- k) (prefix ++ l) = py_slice_from (- k) l.
Proof.
  intros Hk Hl.
  destruct (py_slice_from_long l Hk Hl) as (-> & _).
  destruct (py_slice_from_long (prefix ++ l)%list Hk) as (-> & _).
  { rewrite length_app. lia. }
  rewrite length_app, skipn_app.
  rewrite skipn_all2 by lia. cbn [app]. f_equal. lia.
Qed.

Lemma load_audio_outcome (a : TurnEndPipeline.audio T) :
  match a with
  | TurnEndPipeline.Array samples =>
      TurnEndPipeline.load_audio ext (TurnEndPipeline.__init__ m) a = Ok samples
  | TurnEndPipeline.Path path =>
      match files ext path with
      | Some f =>
          TurnEndPipeline.load_audio ext (TurnEndPipeline.__init__ m) a
          = Ok (if (native_sr f =? 16000)%Z then file_samples f
                else resample ext (file_samples f) (native_sr f) 16000%Z)
      | None =>
          TurnEndPipeline.load_audio ext (TurnEndPipeline.__init__ m) a
          = Raise (External "FileNotFoundError")
      end
  end.
Proof.
  destruct a as [path|samples]; [|reflexivity].
  unfold TurnEndPipeline.load_audio, librosa_load.
  cbn [TurnEndPipeline.sampling_rate TurnEndPipeline.__init__].
  destruct (files ext path) as [f|]; reflexivity.
Qed.

End PipelineFacts.

(** C3, as amended.  In a pipeline built by [__init__] no input is
    refused for its sampling rate.  Samples passed as an array are taken
    as they are, without any check; a file is converted to 16 kHz while
    it is loaded, whatever rate it was recorded at; the assertion on the
    sampling rate never fails, so loading fails only when the file
    cannot be opened; and what was loaded goes to the feature extractor
    under the constant rate 16000. *)
Theorem sampling_rate_never_refused {T : Type} `{Scalar T}
    (ext : Collaborators T) (m : CustomWhisperModel.t T) :
  (forall samples,
     TurnEndPipeline.load_audio ext (TurnEndPipeline.__init__ m)
       (TurnEndPipeline.Array samples) = Ok samples)
  /\ (forall path f, files ext path = Some f ->
        TurnEndPipeline.load_audio ext (TurnEndPipeline.__init__ m)
          (TurnEndPipeline.Path path)
        = Ok (if (native_sr f =? 16000)%Z then file_samples f
              else resample ext (file_samples f) (native_sr f) 16000%Z))
  /\ (forall a e,
        TurnEndPipeline.load_audio ext (TurnEndPipeline.__init__ m) a = Raise e ->
        e = External "FileNotFoundError"
        /\ exists path, a = TurnEndPipeline.Path path /\ files ext path = None)
  /\ (forall a arr,
        TurnEndPipeline.load_audio ext (TurnEndPipeline.__init__ m) a = Ok arr ->
        TurnEndPipeline._prepare_audio_features ext (TurnEndPipeline.__init__ m) a
        = feature_extractor ext (py_slice_from (- 480000) arr) 16000%Z).
Proof.
  split; [reflexivity|]. split; [|split; [split|]].
  - intros path f Hf.
    pose proof (load_audio_outcome ext m (TurnEndPipeline.Path path)) as L.
    cbn in L. rewrite Hf in L. exact L.
  - pose proof (load_audio_outcome ext m a) as L.
    destruct a as [path|samples]; [|congruence].
    destruct (files ext path); congruence.
  - pose proof (load_audio_outcome ext m a) as L.
    destruct a as [path|samples]; [|congruence].
    exists path. split; [reflexivity|].
    destruct (files ext path); [congruence|reflexivity].
  - intros a arr La. unfold TurnEndPipeline._prepare_audio_features.
    rewrite La. reflexivity.
Qed.

(** C4.  In a pipeline built by [__init__], audio of at most 480000
    samples (30 s at 16 kHz) reaches the feature extractor in full;
    longer audio reaches it as its last 480000 samples; and audio that
    extends audio of at least 480000 samples by a prefix gives the same
    outcome of [__call__] as the audio without the prefix. *)
Theorem window_is_trailing_30s {T : Type} `{Scalar T}
    (ext : Collaborators T) (m : CustomWhisperModel.t T)
    (a : TurnEndPipeline.audio T) (arr : list T) :
  TurnEndPipeline.load_audio ext (TurnEndPipeline.__init__ m) a = Ok arr ->
  ((Z.of_nat (List.length arr) <= 480000)%Z ->
     TurnEndPipeline._prepare_audio_features ext (TurnEndPipeline.__init__ m) a
     = feature_extractor ext arr 16000%Z)
  /\ ((480000 < Z.of_nat (List.length arr))%Z ->
     let kept := skipn (Z.to_nat (Z.of_nat (List.length arr) - 480000)) arr in
     TurnEndPipeline._prepare_audio_features ext (TurnEndPipeline.__init__ m) a
     = feature_extractor ext kept 16000%Z
     /\ Z.of_nat (List.length kept) = 480000%Z)
  /\ (forall a' prefix,
     TurnEndPipeline.load_audio ext (TurnEndPipeline.__init__ m) a'
       = Ok (prefix ++ arr)%list ->
     (480000 <= Z.of_nat (List.length arr))%Z ->
     TurnEndPipeline.__call__ ext (TurnEndPipeline.__init__ m) a'
     = TurnEndPipeline.__call__ ext (TurnEndPipeline.__init__ m) a).
Proof.
  intros La. repeat split.
  - intros Hl. unfold TurnEndPipeline._prepare_audio_features.
    rewrite La, max_samples_init. cbn [bind].
    rewrite py_slice_from_short by lia. reflexivity.
  - unfold TurnEndPipeline._prepare_audio_features.
    rewrite La, max_samples_init. cbn [bind].
    destruct (@py_slice_from_long T 480000 arr) as (-> & _); [lia|lia|].
    reflexivity.
  - destruct (@py_slice_from_long T 480000 arr) as (E & L); [lia|lia|].
    rewrite <- E. exact L.
  - intros a' prefix La' Hl.
    unfold TurnEndPipeline.__call__, TurnEndPipeline._prepare_audio_features.
    rewrite La, La', max_samples_init. cbn [bind].
    rewrite py_slice_from_app by lia. reflexivity.
Qed.

(** ** The pipeline of the notebook: instances *)

Lemma call_returns {T : Type} `{Scalar T} (ext : Collaborators T)
    (self : TurnEndPipeline.t T) (a : TurnEndPipeline.audio T)
    (features : BatchFeature T) (c : TurnEndClassifier.t T)
    (out : Seq2SeqLMOutput T) (dh y : tensor T) :
  let base := CustomWhisperModel.base (TurnEndPipeline.model self) in
  TurnEndPipeline._prepare_audio_features ext self a = Ok features ->
  attention_mask features = None ->
  CustomWhisperModel.turn_end_classifier (TurnEndPipeline.model self) = Some c ->
  whisper_forward ext (config base) (state_dict base) (whisper_training base)
    (input_features features) [[decoder_start_token_id (config base)]] true []
    = Ok out ->
  py_last (decoder_hidden_states out) = Ok dh ->
  TurnEndClassifier.forward c (encoder_last_hidden_state out) dh = Ok y ->
  shape y = [1; 1] ->
  exists p, TurnEndPipeline.__call__ ext self a = Ok p.
Proof.
  intros base Ef Em Ec Ew Ed Ey Sy.
  unfold TurnEndPipeline.__call__, CustomWhisperModel.forward_with_turn_end.
  rewrite Ef. cbn [bind]. rewrite Em, Ec. fold base. rewrite Ew. cbn [bind].
  rewrite Ed. cbn [bind]. rewrite Ey. cbn [bind snd].
  destruct (squeeze_item_ok y Sy) as (v & ->). cbn [bind]. eauto.
Qed.

Lemma notebook_call_returns (a : TurnEndPipeline.audio R) (arr : list R) :
  TurnEndPipeline.load_audio Notebook.world Notebook.turn_end_pipe a = Ok arr ->
  exists p, TurnEndPipeline.__call__ Notebook.world Notebook.turn_end_pipe a = Ok p.
Proof.
  intros La.
  destruct (forward_ok notebook_head_built (le_n_S _ _ (Nat.le_0_l 63))
              (Notebook.const_tensor [1; 1500; 384] 0)
              (Notebook.const_tensor [1; 1; 384] 0)
              (batch := 1) (le := 1500) (ld := 1))
    as (z & Ez & Sz); [reflexivity|lia|reflexivity|lia|].
  eapply call_returns with (c := Notebook.turn_end_classifier).
  - unfold TurnEndPipeline._prepare_audio_features. rewrite La. reflexivity.
  - reflexivity.
  - reflexivity.
  - reflexivity.
  - reflexivity.
  - exact Ez.
  - exact Sz.
Qed.



(** C3, as stated, fails: a recording made at 8 kHz is evaluated and a
    probability returned, whether it is passed as a file or as the array
    of its samples. *)
Lemma telephone_audio_is_evaluated :
  files Notebook.world Notebook.telephone_wav
    = Some {| native_sr := 8000; file_samples := [0; 0]%R |}
  /\ 8000%Z <> 16000%Z
  /\ (exists p, TurnEndPipeline.__call__ Notebook.world Notebook.turn_end_pipe
                  (TurnEndPipeline.Path Notebook.telephone_wav) = Ok p)
  /\ (exists p, TurnEndPipeline.__call__ Notebook.world Notebook.turn_end_pipe
                  (TurnEndPipeline.Array [0; 0]%R) = Ok p).
Proof.
  split; [reflexivity|]. split; [discriminate|]. split.
  - eapply notebook_call_returns. reflexivity.
  - eapply notebook_call_returns. reflexivity.
Qed.

Lemma window_is_trailing_30s_witness :
  let self := TurnEndPipeline.__init__ Notebook.turn_end_model in
  let last_30s := repeat 0%R (Z.to_nat 480000) in
  let earlier := [1; 1; 1]%R in
  TurnEndPipeline.load_audio Notebook.world self
    (TurnEndPipeline.Array last_30s) = Ok last_30s
  /\ TurnEndPipeline._prepare_audio_features Notebook.world self
       (TurnEndPipeline.Array last_30s)
     = feature_extractor Notebook.world last_30s 16000%Z
  /\ TurnEndPipeline.__call__ Notebook.world self
       (TurnEndPipeline.Array (earlier ++ last_30s))
     = TurnEndPipeline.__call__ Notebook.world self
         (TurnEndPipeline.Array last_30s).
Proof.
  intros self last_30s earlier.
  assert (La : TurnEndPipeline.load_audio Notebook.world self
                 (TurnEndPipeline.Array last_30s) = Ok last_30s) by reflexivity.
  assert (Hl : Z.of_nat (List.length last_30s) = 480000%Z).
  { unfold last_30s. rewrite repeat_length. apply Z2Nat.id. discriminate. }
  destruct (window_is_trailing_30s Notebook.world Notebook.turn_end_model
              (TurnEndPipeline.Array last_30s) La) as (Hfull & _ & Hinv).
  split; [exact La|]. split.
  - apply Hfull. rewrite Hl. discriminate.
  - apply (Hinv (TurnEndPipeline.Array (earlier ++ last_30s)) earlier).
    + reflexivity.
    + rewrite Hl. discriminate.
Defined.

(** ** The forward pass reads parameter values only *)

Section ValuesFacts.
Context {T : Type} `{Scalar T}.






End ValuesFacts.





(** ** Training leaves the base model's values alone *)

Section MonadFacts.
Context {S : Type} (P : S -> Prop).

Lemma preserves_ret {A : Type} (a : A) : preserves P (ret a).
Proof. intros s Hs. exact Hs. Qed.

Lemma preserves_lift {A : Type} (r : result A) : preserves P (lift r).
Proof. intros s Hs. exact Hs. Qed.

Lemma preserves_get : preserves P get.
Proof. intros s Hs. exact Hs. Qed.

Lemma preserves_modify (f : S -> S) :
  (forall s, P s -> P (f s)) -> preserves P (modify f).
Proof. intros Hf s Hs. apply Hf. exact Hs. Qed.

Lemma preserves_bind {A B : Type} (m : M S A) (k : A -> M S B) :
  preserves P m -> (forall a, preserves P (k a)) -> preserves P (bindM m k).
Proof.
  intros Hm Hk s Hs. unfold bindM. specialize (Hm s Hs).
  destruct (m s) as [[a|e] s']; cbn [snd] in *.
  - apply Hk. exact Hm.
  - exact Hm.
Qed.

Lemma preserves_for_each {A B : Type} (body : B -> A -> M S B) (l : list A) :
  (forall acc x, preserves P (body acc x)) ->
  forall acc, preserves P (for_each body l acc).
Proof.
  intros Hb. induction l as [|x rest IH]; intros acc; cbn [for_each].
  - apply preserves_ret.
  - apply preserves_bind; [apply Hb|exact IH].
Qed.

End MonadFacts.

Section TrainingFacts.
Context {T : Type} `{Scalar T}.
Variable ext : Collaborators T.
Variable torch : Torch T.

Lemma zero_grad_base (s : TrainState torch) :
  CustomWhisperModel.base (model (zero_grad s)) = CustomWhisperModel.base (model s).
Proof.
  unfold zero_grad.
  destruct (CustomWhisperModel.turn_end_classifier (model s)); reflexivity.
Qed.

Lemma step_base (s : TrainState torch) :
  CustomWhisperModel.base (model (step s)) = CustomWhisperModel.base (model s).
Proof.
  unfold step.
  destruct (CustomWhisperModel.turn_end_classifier (model s)); reflexivity.
Qed.

Lemma classifier_train_base (m m' : CustomWhisperModel.t T) :
  classifier_train m = Ok m' ->
  CustomWhisperModel.base m' = CustomWhisperModel.base m.
Proof.
  unfold classifier_train.
  destruct (CustomWhisperModel.turn_end_classifier m); intros E;
    [injection E as <-; reflexivity|discriminate E].
Qed.

Lemma accumulate_data (g : option (tensor T)) (p : nn_Parameter T) :
  data (accumulate g p) = data p.
Proof. unfold accumulate. destruct g, (requires_grad p); reflexivity. Qed.

Lemma backward_base (x : tensor T) (ids : list (list Z)) (target : tensor T)
    (m m' : CustomWhisperModel.t T) :
  backward torch x ids target m = Ok m' ->
  state_dict (CustomWhisperModel.base m') = state_dict (CustomWhisperModel.base m)
  /\ config (CustomWhisperModel.base m') = config (CustomWhisperModel.base m).
Proof.
  unfold backward.
  destruct (_ || _); intros E; [injection E as <-|discriminate E].
  split; [|reflexivity]. unfold state_dict. cbn. rewrite map_map.
  apply map_ext. intros [name p]. cbn. now rewrite accumulate_data.
Qed.

Variables (sd : list (string * tensor T)) (cfg : WhisperConfig).

Lemma run_forward_frozen (x : tensor T) (ids : list (list Z)) :
  preserves (frozen_at (torch := torch) sd cfg) (run_forward ext (torch := torch) x ids).
Proof.
  unfold run_forward. apply preserves_bind; [apply preserves_get|].
  intros s. apply preserves_lift.
Qed.

Lemma train_sample_frozen (tokenizer : Tokenizer) (epoch_loss : T)
    (sample : list T * T) :
  preserves (frozen_at (torch := torch) sd cfg) (train_sample ext tokenizer epoch_loss sample).
Proof.
  unfold train_sample. destruct sample as [audio label].
  apply preserves_bind.
  { apply preserves_modify. intros s Hs. unfold frozen_at.
    rewrite zero_grad_base. exact Hs. }
  intros _. apply preserves_bind; [apply preserves_lift|]. intros features.
  apply preserves_bind; [apply run_forward_frozen|]. intros out.
  apply preserves_bind; [apply preserves_lift|]. intros loss.
  apply preserves_bind.
  { intros s Hs.
    destruct (backward torch (input_features features)
                [[pad_token_id tokenizer]] (tensor_1x1 label) (model s))
      as [m'|e] eqn:E; cbn [snd]; [|exact Hs].
    destruct (backward_base _ _ _ _ E) as (E1 & E2).
    unfold frozen_at, set_model. cbn [model]. rewrite E1, E2. exact Hs. }
  intros _. apply preserves_bind.
  { apply preserves_modify. intros s Hs. unfold frozen_at.
    rewrite step_base. exact Hs. }
  intros _. apply preserves_ret.
Qed.

Lemma train_single_epoch_frozen (samples : list (list T)) (labels : list T)
    (tokenizer : Tokenizer) :
  preserves (frozen_at (torch := torch) sd cfg) (train_single_epoch ext samples labels tokenizer).
Proof.
  unfold train_single_epoch.
  apply preserves_bind.
  { apply preserves_modify. intros s Hs. exact Hs. }
  intros _. apply preserves_bind.
  { intros s Hs.
    destruct (classifier_train (model s)) as [m'|e] eqn:E; cbn [snd]; [|exact Hs].
    unfold frozen_at, set_model. cbn [model].
    rewrite (classifier_train_base _ E). exact Hs. }
  intros _. apply preserves_bind.
  { apply preserves_for_each. intros acc x. apply train_sample_frozen. }
  intros epoch_loss. destruct (List.length samples);
    [apply preserves_lift|apply preserves_ret].
Qed.

Lemma report_frozen (samples : list (list T)) (tokenizer : Tokenizer) :
  preserves (frozen_at (torch := torch) sd cfg) (report ext (torch := torch) samples tokenizer).
Proof.
  unfold report. apply preserves_for_each. intros [] audio.
  apply preserves_bind; [apply preserves_lift|]. intros features.
  apply preserves_bind; [apply run_forward_frozen|]. intros out.
  apply preserves_bind; [apply preserves_lift|]. intros _.
  apply preserves_ret.
Qed.

Lemma train_epoch_frozen (samples : list (list T)) (labels : list T)
    (tokenizer : Tokenizer) (losses : list T) (epoch : nat) :
  preserves (frozen_at (torch := torch) sd cfg)
    (train_epoch ext samples labels tokenizer losses epoch).
Proof.
  unfold train_epoch.
  apply preserves_bind; [apply train_single_epoch_frozen|]. intros loss.
  apply preserves_bind.
  { destruct (epoch mod 10 =? 0); [apply report_frozen|apply preserves_ret]. }
  intros _. apply preserves_ret.
Qed.

End TrainingFacts.

(** C1.  Whatever the collaborators, the recording, the number of
    epochs, and whether training returns or raises: after [train_model]
    every parameter of the base model has the value and the name it had
    before, and so after [train_single_epoch] with any optimizer state.
    What training rewrites is the head, the gradient buffers and the
    mode flags. *)
Theorem base_model_frozen {T : Type} `{Scalar T}
    (ext : Collaborators T) (torch : Torch T) (tokenizer : Tokenizer) :
  (forall audio_path num_epochs (m : CustomWhisperModel.t T),
     let m' := snd (train_model ext torch audio_path tokenizer num_epochs m) in
     state_dict (CustomWhisperModel.base m') = state_dict (CustomWhisperModel.base m)
     /\ config (CustomWhisperModel.base m') = config (CustomWhisperModel.base m))
  /\ (forall samples labels (s : TrainState torch),
     let s' := snd (train_single_epoch ext samples labels tokenizer s) in
     state_dict (CustomWhisperModel.base (model s'))
       = state_dict (CustomWhisperModel.base (model s))
     /\ config (CustomWhisperModel.base (model s'))
       = config (CustomWhisperModel.base (model s))).
Proof.
  split.
  - intros audio_path num_epochs m. cbn zeta. unfold train_model.
    destruct (create_training_samples ext audio_path) as [[full partial]|e];
      [|split; reflexivity].
    destruct (CustomWhisperModel.turn_end_classifier m) as [c|] eqn:Ec;
      [|split; reflexivity].
    match goal with
    | |- context [for_each ?body ?l ?acc0 ?s0] =>
        assert (Hp : preserves
                  (frozen_at (torch := torch)
                     (state_dict (CustomWhisperModel.base m))
                     (config (CustomWhisperModel.base m)))
                  (for_each body l acc0))
          by (apply preserves_for_each; intros; apply train_epoch_frozen);
        specialize (Hp s0);
        destruct (for_each body l acc0 s0) as [r s']
    end.
    cbn [snd] in *. apply Hp. split; reflexivity.
  - intros samples labels s. cbn zeta.
    apply (@train_single_epoch_frozen T _ ext torch
             (state_dict (CustomWhisperModel.base (model s)))
             (config (CustomWhisperModel.base (model s)))
             samples labels tokenizer s).
    split; reflexivity.
Qed.

(** ** Attaching the head *)

(** C2, as stated, fails: the model that [from_pretrained] returns for
    the notebook's checkpoint and head still has a base parameter that
    requires a gradient. *)
Lemma base_parameters_stay_trainable :
  exists m p,
    CustomWhisperModel.from_pretrained Notebook.world Notebook.model_id
      (Some Notebook.turn_end_classifier) = Ok m
    /\ In ("model.encoder.conv1.weight", p)
          (named_parameters (CustomWhisperModel.base m))
    /\ requires_grad p = true.
Proof.
  eexists. eexists. split; [reflexivity|]. split; [right; left; reflexivity|].
  reflexivity.
Qed.

(** C2, as amended.  Attaching the head stores it on the loaded model and
    leaves the base model exactly as the checkpoint gave it, the
    [requires_grad] flag of every parameter included.  The optimizer is
    the one built over the head's parameters: neither its [step] nor its
    [zero_grad] touches the base model, so no gradient is ever applied
    to a base parameter. *)
Theorem head_attached_base_untouched {T : Type} `{Scalar T}
    (ext : Collaborators T) (torch : Torch T) (name : string)
    (head : option (TurnEndClassifier.t T)) :
  (forall m, CustomWhisperModel.from_pretrained ext name head = Ok m <->
     exists w, pretrained ext name = Ok w
       /\ m = {| CustomWhisperModel.base := w;
                 CustomWhisperModel.turn_end_classifier := head |})
  /\ (forall s : TrainState torch,
        CustomWhisperModel.base (model (step s))
        = CustomWhisperModel.base (model s))
  /\ (forall s : TrainState torch,
        CustomWhisperModel.base (model (zero_grad s))
        = CustomWhisperModel.base (model s)).
Proof.
  split; [|split; [apply step_base|apply zero_grad_base]].
  intros m. unfold CustomWhisperModel.from_pretrained.
  destruct (pretrained ext name) as [w|e]; cbn [bind]; split.
  - intros E. injection E as <-. eauto.
  - intros (w' & E & ->). injection E as <-. reflexivity.
  - discriminate.
  - intros (w' & E & _). discriminate E.
Qed.

(** ** Worked examples *)

Example slice_keeps_short_audio :
  py_slice_from (- 3) [10; 20]%Z = [10; 20]%Z.
Proof. reflexivity. Qed.

Example slice_keeps_the_end :
  py_slice_from (- 3) [10; 20; 30; 40; 50]%Z = [30; 40; 50]%Z.
Proof. reflexivity. Qed.

Example encoder_lengths :
  conv_out_len 1500 5 3 1 = 500 /\ conv_out_len 500 5 3 1 = 166
  /\ conv_out_len 166 5 3 1 = 55 /\ conv_out_len 27 5 3 1 = 9
  /\ conv_out_len 9 5 3 1 = 3 /\ conv_out_len 3 5 3 1 = 1.
Proof. repeat split. Qed.

Example decoder_lengths :
  conv_out_len 1 3 1 1 = 1 /\ conv_out_len 20 3 1 1 = 20.
Proof. repeat split. Qed.

(** A model made by [__init__] without a head refuses the call. *)
Example headless_model_refuses (x : tensor R) :
  CustomWhisperModel.forward_with_turn_end Notebook.world
    (CustomWhisperModel.__init__ Notebook.world (config Notebook.checkpoint) None)
    x [[50257%Z]] []
  = Raise (AssertionError
      "TurnEndClassifier must be set before calling forward_with_turn_end").
Proof. reflexivity. Qed.

(** One sample of training in the notebook's world: the trainable base
    parameter now holds a gradient and the frozen position table does
    not; every one of the 18 parameters of the head holds one; and the
    first weight of the head has moved while the base values have not. *)
Example one_sample_base_buffers :
  map (fun np => (fst np, Notebook.has_grad (snd np)))
      (named_parameters (CustomWhisperModel.base (model Notebook.after_one_sample)))
  = [("model.encoder.embed_positions.weight", false);
     ("model.encoder.conv1.weight", true)].
Proof. reflexivity. Qed.

Example one_sample_head_buffers :
  option_map (fun c => map Notebook.has_grad (TurnEndClassifier.parameters c))
    (CustomWhisperModel.turn_end_classifier (model Notebook.after_one_sample))
  = Some (repeat true 18).
Proof. reflexivity. Qed.

Example one_sample_moves_the_head :
  option_map
    (fun c => match TurnEndClassifier.parameters c with
              | w :: _ => elem (data w) [0; 0]
              | [] => 0%R
              end)
    (CustomWhisperModel.turn_end_classifier (model Notebook.after_one_sample))
  = Some (0 - Q2R (1 # 1000) * 1)%R
  /\ (0 - Q2R (1 # 1000) * 1 <> 0)%R.
Proof.
  split; [reflexivity|]. unfold Q2R. cbn. lra.
Qed.

Example one_sample_keeps_the_base :
  state_dict (CustomWhisperModel.base (model Notebook.after_one_sample))
  = state_dict Notebook.checkpoint.
Proof. reflexivity. Qed.

(** * Further properties of the notebook's code *)

(** ** Rewriting the parameters of the head *)

Section TraversalFacts.
Context {T : Type} `{Scalar T}.

Lemma mapi_from_app (f : nat -> nn_Parameter T -> nn_Parameter T)
    (l1 l2 : list (nn_Parameter T)) :
  forall i,
    mapi_from i f (l1 ++ l2)
    = (mapi_from i f l1 ++ mapi_from (i + List.length l1) f l2)%list.
Proof.
  unfold mapi_from. induction l1 as [|p l1 IH]; intros i; cbn.
  - now rewrite Nat.add_0_r.
  - f_equal. rewrite IH. do 4 f_equal. lia.
Qed.

Lemma mapi_from_length (f : nat -> nn_Parameter T -> nn_Parameter T)
    (i : nat) (l : list (nn_Parameter T)) :
  List.length (mapi_from i f l) = List.length l.
Proof.
  unfold mapi_from.
  rewrite length_map, length_combine, length_seq. apply Nat.min_id.
Qed.

Lemma map_mapi_from {A : Type} (g : nn_Parameter T -> A)
    (f : nat -> nn_Parameter T -> nn_Parameter T) (l : list (nn_Parameter T)) :
  (forall i p, g (f i p) = g p) ->
  forall i, map g (mapi_from i f l) = map g l.
Proof.
  intros Hg. unfold mapi_from. induction l as [|p l IH]; intros i; cbn.
  - reflexivity.
  - rewrite Hg. f_equal. apply IH.
Qed.

Lemma Forall_mapi_from (P : nn_Parameter T -> Prop)
    (f : nat -> nn_Parameter T -> nn_Parameter T) (l : list (nn_Parameter T)) :
  (forall i p, P (f i p)) -> forall i, Forall P (mapi_from i f l).
Proof.
  intros Hf. unfold mapi_from. induction l as [|p l IH]; intros i; cbn.
  - constructor.
  - constructor; [apply Hf|apply IH].
Qed.

Lemma nn_parameters_update (f : nat -> nn_Parameter T -> nn_Parameter T)
    (i : nat) (m : nn_Module T) :
  nn_parameters (nn_update f i m) = mapi_from i f (nn_parameters m).
Proof. destruct m; reflexivity. Qed.

Lemma Sequential_parameters_update (f : nat -> nn_Parameter T -> nn_Parameter T)
    (layers : list (nn_Module T)) :
  forall i,
    flat_map nn_parameters (Sequential_update f i layers)
    = mapi_from i f (flat_map nn_parameters layers).
Proof.
  induction layers as [|m rest IH]; intros i; cbn [Sequential_update flat_map].
  - reflexivity.
  - rewrite mapi_from_app, nn_parameters_update, IH. reflexivity.
Qed.

(** [update_parameters f] rewrites exactly the parameters that
    [parameters] lists, each with its position. *)
Lemma parameters_update (f : nat -> nn_Parameter T -> nn_Parameter T)
    (c : TurnEndClassifier.t T) :
  TurnEndClassifier.parameters (TurnEndClassifier.update_parameters f c)
  = mapi_from 0 f (TurnEndClassifier.parameters c).
Proof.
  unfold TurnEndClassifier.parameters, TurnEndClassifier.update_parameters.
  cbn [TurnEndClassifier.encoder_reduce TurnEndClassifier.decoder_reduce
       TurnEndClassifier.encoder_conv TurnEndClassifier.encoder_pool
       TurnEndClassifier.decoder_conv TurnEndClassifier.decoder_pool
       TurnEndClassifier.fc].
  rewrite !mapi_from_app, !nn_parameters_update, !Sequential_parameters_update.
  cbn [Nat.add]. reflexivity.
Qed.

Lemma nn_update_length (g : nat -> nn_Parameter T -> nn_Parameter T)
    (i : nat) (m : nn_Module T) :
  List.length (nn_parameters (nn_update g i m)) = List.length (nn_parameters m).
Proof. destruct m; reflexivity. Qed.

Lemma Sequential_update_length (g : nat -> nn_Parameter T -> nn_Parameter T)
    (layers : list (nn_Module T)) (i : nat) :
  List.length (flat_map nn_parameters (Sequential_update g i layers))
  = List.length (flat_map nn_parameters layers).
Proof. now rewrite Sequential_parameters_update, mapi_from_length. Qed.

Lemma nn_update_compose (f g : nat -> nn_Parameter T -> nn_Parameter T)
    (i : nat) (m : nn_Module T) :
  nn_update f i (nn_update g i m) = nn_update (fun j p => f j (g j p)) i m.
Proof. destruct m; reflexivity. Qed.

Lemma Sequential_update_compose (f g : nat -> nn_Parameter T -> nn_Parameter T)
    (layers : list (nn_Module T)) :
  forall i,
    Sequential_update f i (Sequential_update g i layers)
    = Sequential_update (fun j p => f j (g j p)) i layers.
Proof.
  induction layers as [|m rest IH]; intros i; cbn [Sequential_update].
  - reflexivity.
  - rewrite nn_update_compose, nn_update_length, IH. reflexivity.
Qed.

Lemma update_parameters_compose (f g : nat -> nn_Parameter T -> nn_Parameter T)
    (c : TurnEndClassifier.t T) :
  TurnEndClassifier.update_parameters f (TurnEndClassifier.update_parameters g c)
  = TurnEndClassifier.update_parameters (fun j p => f j (g j p)) c.
Proof.
  unfold TurnEndClassifier.update_parameters.
  cbn [TurnEndClassifier.encoder_reduce TurnEndClassifier.decoder_reduce
       TurnEndClassifier.encoder_conv TurnEndClassifier.encoder_pool
       TurnEndClassifier.decoder_conv TurnEndClassifier.decoder_pool
       TurnEndClassifier.fc TurnEndClassifier.training].
  rewrite !nn_update_length, !Sequential_update_length.
  rewrite !nn_update_compose, !Sequential_update_compose. reflexivity.
Qed.

Lemma nn_update_ext (f g : nat -> nn_Parameter T -> nn_Parameter T)
    (i : nat) (m : nn_Module T) :
  (forall j p, f j p = g j p) -> nn_update f i m = nn_update g i m.
Proof. intros E. destruct m; cbn; now rewrite ?E. Qed.

Lemma Sequential_update_ext (f g : nat -> nn_Parameter T -> nn_Parameter T)
    (layers : list (nn_Module T)) :
  (forall j p, f j p = g j p) ->
  forall i, Sequential_update f i layers = Sequential_update g i layers.
Proof.
  intros E. induction layers as [|m rest IH]; intros i; cbn [Sequential_update].
  - reflexivity.
  - now rewrite (@nn_update_ext f g i m E), IH.
Qed.

Lemma update_parameters_ext (f g : nat -> nn_Parameter T -> nn_Parameter T)
    (c : TurnEndClassifier.t T) :
  (forall j p, f j p = g j p) ->
  TurnEndClassifier.update_parameters f c = TurnEndClassifier.update_parameters g c.
Proof.
  intros E. unfold TurnEndClassifier.update_parameters.
  now rewrite !(fun i m => @nn_update_ext f g i m E),
    !(fun l i => @Sequential_update_ext f g l E i).
Qed.

End TraversalFacts.

(** ** What the steps of training keep *)

Section KeptFacts.
Context {T : Type} `{Scalar T}.
Variable ext : Collaborators T.
Variable torch : Torch T.
Variable P : TrainState torch -> Prop.

Lemma train_sample_keeps (tokenizer : Tokenizer) (epoch_loss : T)
    (sample : list T * T) :
  kept_by_steps P -> preserves P (train_sample ext tokenizer epoch_loss sample).
Proof.
  intros (Hz & Hb & Hs). unfold train_sample. destruct sample as [audio label].
  apply preserves_bind; [apply preserves_modify; exact Hz|]. intros _.
  apply preserves_bind; [apply preserves_lift|]. intros features.
  apply preserves_bind.
  { unfold run_forward. apply preserves_bind; [apply preserves_get|].
    intros s. apply preserves_lift. }
  intros out. apply preserves_bind; [apply preserves_lift|]. intros loss.
  apply preserves_bind.
  { intros s Hp.
    destruct (backward torch (input_features features)
                [[pad_token_id tokenizer]] (tensor_1x1 label) (model s))
      as [m'|e] eqn:E; cbn [snd]; [|exact Hp].
    exact (Hb _ _ _ _ _ E Hp). }
  intros _. apply preserves_bind; [apply preserves_modify; exact Hs|].
  intros _. apply preserves_ret.
Qed.

Lemma report_keeps (samples : list (list T)) (tokenizer : Tokenizer) :
  preserves P (report ext (torch := torch) samples tokenizer).
Proof.
  unfold report. apply preserves_for_each. intros [] audio.
  apply preserves_bind; [apply preserves_lift|]. intros features.
  apply preserves_bind.
  { unfold run_forward. apply preserves_bind; [apply preserves_get|].
    intros s. apply preserves_lift. }
  intros out. apply preserves_bind; [apply preserves_lift|]. intros _.
  apply preserves_ret.
Qed.

Lemma train_single_epoch_keeps (samples : list (list T)) (labels : list T)
    (tokenizer : Tokenizer) :
  kept_by_modes P -> kept_by_steps P ->
  preserves P (train_single_epoch ext samples labels tokenizer).
Proof.
  intros (He & Ht) Hk. unfold train_single_epoch.
  apply preserves_bind; [apply preserves_modify; exact He|]. intros _.
  apply preserves_bind.
  { intros s Hp.
    destruct (classifier_train (model s)) as [m'|e] eqn:E; cbn [snd]; [|exact Hp].
    exact (Ht _ _ E Hp). }
  intros _. apply preserves_bind.
  { apply preserves_for_each. intros acc x. apply train_sample_keeps. exact Hk. }
  intros epoch_loss. destruct (List.length samples);
    [apply preserves_lift|apply preserves_ret].
Qed.

Lemma train_epoch_keeps (samples : list (list T)) (labels : list T)
    (tokenizer : Tokenizer) (losses : list T) (epoch : nat) :
  kept_by_modes P -> kept_by_steps P ->
  preserves P (train_epoch ext samples labels tokenizer losses epoch).
Proof.
  intros Hm Hk. unfold train_epoch.
  apply preserves_bind; [apply train_single_epoch_keeps; assumption|].
  intros loss. apply preserves_bind.
  { destruct (epoch mod 10 =? 0); [apply report_keeps|apply preserves_ret]. }
  intros _. apply preserves_ret.
Qed.

End KeptFacts.

Lemma train_model_keeps {T : Type} `{Scalar T} (ext : Collaborators T)
    (torch : Torch T) (Q : CustomWhisperModel.t T -> Prop)
    (audio_path : string) (tokenizer : Tokenizer) (num_epochs : nat)
    (m : CustomWhisperModel.t T) :
  kept_by_modes (fun s : TrainState torch => Q (model s)) ->
  kept_by_steps (fun s : TrainState torch => Q (model s)) ->
  Q m -> Q (snd (train_model ext torch audio_path tokenizer num_epochs m)).
Proof.
  intros Hm Hk Hq. unfold train_model.
  destruct (create_training_samples ext audio_path) as [[full partial]|e];
    [|exact Hq].
  destruct (CustomWhisperModel.turn_end_classifier m) as [c|]; [|exact Hq].
  match goal with
  | |- context [for_each ?body ?l ?acc0 ?s0] =>
      assert (Hp : preserves (fun s : TrainState torch => Q (model s))
                     (for_each body l acc0))
        by (apply preserves_for_each; intros; apply train_epoch_keeps; assumption);
      specialize (Hp s0);
      destruct (for_each body l acc0 s0) as [r s']
  end.
  cbn [snd] in *. apply Hp. exact Hq.
Qed.

Section StepFacts.
Context {T : Type} `{Scalar T}.
Variable torch : Torch T.

Lemma backward_parts (x : tensor T) (ids : list (list Z)) (target : tensor T)
    (m m' : CustomWhisperModel.t T) :
  backward torch x ids target m = Ok m' ->
  named_parameters (CustomWhisperModel.base m')
    = map (fun np => (fst np,
                      accumulate (grad_base torch m x ids target (fst np)) (snd np)))
          (named_parameters (CustomWhisperModel.base m))
  /\ whisper_training (CustomWhisperModel.base m')
     = whisper_training (CustomWhisperModel.base m)
  /\ CustomWhisperModel.turn_end_classifier m'
     = option_map
         (TurnEndClassifier.update_parameters
            (fun i p => accumulate (grad_head torch m x ids target i) p))
         (CustomWhisperModel.turn_end_classifier m).
Proof.
  unfold backward.
  destruct (_ || _); intros E; [injection E as <-|discriminate E].
  repeat split.
Qed.

Lemma accumulate_requires_grad (g : option (tensor T)) (p : nn_Parameter T) :
  requires_grad (accumulate g p) = requires_grad p.
Proof. unfold accumulate. destruct g, (requires_grad p) eqn:E; cbn; congruence. Qed.

Lemma accumulate_holds_grad (g : option (tensor T)) (p : nn_Parameter T) :
  holds_grad p = true -> holds_grad (accumulate g p) = true.
Proof.
  unfold accumulate, holds_grad.
  destruct g, (requires_grad p), (grad p); cbn; congruence.
Qed.

Lemma step_parameter_requires_grad (o : Adam torch) (i : nat) (p : nn_Parameter T) :
  requires_grad (step_parameter o i p) = requires_grad p.
Proof. unfold step_parameter. destruct (grad p); reflexivity. Qed.

End StepFacts.

(** ** Training: edge cases and invariants *)

(** X8.  [train_model] on a model without a head, or on a recording that
    cannot be opened, raises, and leaves the model exactly as it was. *)
Theorem train_model_fails_untouched {T : Type} `{Scalar T}
    (ext : Collaborators T) (torch : Torch T) (audio_path : string)
    (tokenizer : Tokenizer) (num_epochs : nat) (m : CustomWhisperModel.t T) :
  CustomWhisperModel.turn_end_classifier m = None \/ files ext audio_path = None ->
  exists e,
    train_model ext torch audio_path tokenizer num_epochs m = (Raise e, m).
Proof.
  intros [Hn|Hf]; unfold train_model.
  - destruct (create_training_samples ext audio_path) as [[full partial]|e].
    + rewrite Hn. eexists. reflexivity.
    + eexists. reflexivity.
  - unfold create_training_samples, librosa_load. rewrite Hf. cbn [bind].
    eexists. reflexivity.
Qed.

Lemma train_model_fails_untouched_witness :
  CustomWhisperModel.turn_end_classifier Cases.headless_model = None
  /\ exists e,
       train_model Notebook.world Notebook.torch Notebook.test_wav
         Notebook.tokenizer 51 Cases.headless_model
       = (Raise e, Cases.headless_model).
Proof.
  assert (Hn : CustomWhisperModel.turn_end_classifier Cases.headless_model = None)
    by reflexivity.
  split; [exact Hn|].
  exact (train_model_fails_untouched Notebook.world Notebook.torch
           Notebook.test_wav Notebook.tokenizer 51 Cases.headless_model
           (or_introl Hn)).
Defined.

Section LossFacts.
Context {T : Type} `{Scalar T}.
Variable ext : Collaborators T.
Variable torch : Torch T.

Lemma train_epoch_appends (samples : list (list T)) (labels : list T)
    (tokenizer : Tokenizer) (losses : list T) (epoch : nat)
    (s s' : TrainState torch) (r : list T) :
  train_epoch ext samples labels tokenizer losses epoch s = (Ok r, s') ->
  exists loss, r = (losses ++ [loss])%list.
Proof.
  unfold train_epoch, bindM.
  destruct (train_single_epoch ext samples labels tokenizer s) as [[loss|e] s1];
    [|discriminate].
  destruct ((if epoch mod 10 =? 0 then report ext samples tokenizer else ret tt) s1)
    as [[[]|e] s2]; [|discriminate].
  unfold ret. intros E. injection E as <- _. eauto.
Qed.

Lemma for_each_epochs_length (samples : list (list T)) (labels : list T)
    (tokenizer : Tokenizer) (epochs : list nat) :
  forall (acc : list T) (s s' : TrainState torch) (r : list T),
    for_each (train_epoch ext samples labels tokenizer) epochs acc s = (Ok r, s') ->
    List.length r = List.length acc + List.length epochs.
Proof.
  induction epochs as [|epoch rest IH]; intros acc s s' r; cbn [for_each].
  - unfold ret. intros E. injection E as <- _. cbn. lia.
  - unfold bindM.
    destruct (train_epoch ext samples labels tokenizer acc epoch s)
      as [[acc'|e] s1] eqn:E1; [|discriminate].
    intros E. apply IH in E. apply train_epoch_appends in E1.
    destruct E1 as (loss & ->). rewrite length_app in E. cbn in *. lia.
Qed.

End LossFacts.

(** X9.  When [train_model] returns, the list of losses it returns has
    exactly one entry per epoch. *)
Theorem train_model_returns_one_loss_per_epoch {T : Type} `{Scalar T}
    (ext : Collaborators T) (torch : Torch T) (audio_path : string)
    (tokenizer : Tokenizer) (num_epochs : nat)
    (m m' : CustomWhisperModel.t T) (losses : list T) :
  train_model ext torch audio_path tokenizer num_epochs m = (Ok losses, m') ->
  List.length losses = num_epochs.
Proof.
  unfold train_model.
  destruct (create_training_samples ext audio_path) as [[full partial]|e];
    [|discriminate].
  destruct (CustomWhisperModel.turn_end_classifier m) as [c|]; [|discriminate].
  match goal with
  | |- context [for_each ?body ?l ?acc0 ?s0] =>
      destruct (for_each body l acc0 s0) as [r s'] eqn:E
  end.
  intros E'. injection E' as -> _.
  apply for_each_epochs_length in E. rewrite length_seq in E. exact E.
Qed.

Lemma train_model_returns_one_loss_per_epoch_witness :
  exists losses m',
    train_model Notebook.world Notebook.torch Notebook.test_wav
      Notebook.tokenizer 2 Notebook.turn_end_model = (Ok losses, m')
    /\ List.length losses = 2.
Proof.
  destruct (train_model Notebook.world Notebook.torch Notebook.test_wav
              Notebook.tokenizer 2 Notebook.turn_end_model) as [r m'] eqn:E.
  assert (Hr : is_ok r = true).
  { replace r with
      (fst (train_model Notebook.world Notebook.torch Notebook.test_wav
              Notebook.tokenizer 2 Notebook.turn_end_model))
      by (rewrite E; reflexivity).
    lazy. reflexivity. }
  destruct r as [losses|e]; [|discriminate Hr].
  exists losses, m'. split; [reflexivity|].
  exact (train_model_returns_one_loss_per_epoch _ _ _ _ _ _ E).
Defined.

Section InvariantFacts.
Context {T : Type} `{Scalar T}.
Variable torch : Torch T.

Lemma attached_kept (b : bool) :
  kept_by_modes (fun s : TrainState torch => is_attached (model s) = b)
  /\ kept_by_steps (fun s : TrainState torch => is_attached (model s) = b).
Proof.
  unfold kept_by_modes, kept_by_steps, is_attached. repeat split.
  - intros s. unfold set_model, model_eval. cbn.
    destruct (CustomWhisperModel.turn_end_classifier (model s)); exact (fun E => E).
  - intros s m'. unfold classifier_train.
    destruct (CustomWhisperModel.turn_end_classifier (model s)); intros E;
      [injection E as <-; exact (fun E => E)|discriminate E].
  - intros s. unfold zero_grad.
    destruct (CustomWhisperModel.turn_end_classifier (model s)) eqn:E; cbn;
      [exact (fun E => E)|now rewrite E].
  - intros s x ids target m' E. apply backward_parts in E.
    destruct E as (_ & _ & E). cbn. rewrite E.
    destruct (CustomWhisperModel.turn_end_classifier (model s)); exact (fun E => E).
  - intros s. unfold step.
    destruct (CustomWhisperModel.turn_end_classifier (model s)) eqn:E; cbn;
      [exact (fun E => E)|now rewrite E].
Qed.

Lemma modes_kept :
  kept_by_steps (fun s : TrainState torch => modes_set (model s)).
Proof.
  unfold kept_by_steps, modes_set. split; [|split].
  - intros s (Hw & c & Ec & Et). split; [now rewrite zero_grad_base|].
    unfold zero_grad. rewrite Ec. cbn.
    eexists. split; [reflexivity|exact Et].
  - intros s x ids target m' E (Hw & c & Ec & Et).
    apply backward_parts in E. destruct E as (_ & Ew & Eh).
    cbn [model set_model]. split; [congruence|]. rewrite Eh, Ec. cbn.
    eexists. split; [reflexivity|exact Et].
  - intros s (Hw & c & Ec & Et). split; [now rewrite step_base|].
    unfold step. rewrite Ec. cbn.
    eexists. split; [reflexivity|exact Et].
Qed.

Lemma flags_kept (F : list (string * bool) * option (list bool)) :
  kept_by_modes (fun s : TrainState torch => trainable_flags (model s) = F)
  /\ kept_by_steps (fun s : TrainState torch => trainable_flags (model s) = F).
Proof.
  unfold kept_by_modes, kept_by_steps, trainable_flags. repeat split.
  - intros s <-. unfold set_model, model_eval. cbn.
    destruct (CustomWhisperModel.turn_end_classifier (model s)); reflexivity.
  - intros s m'. unfold classifier_train.
    destruct (CustomWhisperModel.turn_end_classifier (model s)); intros E;
      [injection E as <-|discriminate E].
    intros <-. reflexivity.
  - intros s <-. rewrite zero_grad_base. f_equal. unfold zero_grad.
    destruct (CustomWhisperModel.turn_end_classifier (model s)) eqn:E; cbn;
      [|now rewrite E].
    rewrite parameters_update, map_mapi_from; reflexivity.
  - intros s x ids target m' E <-. apply backward_parts in E.
    destruct E as (Eb & _ & Eh). cbn. rewrite Eb, Eh. f_equal.
    + rewrite map_map. apply map_ext. intros [name p]. cbn.
      now rewrite accumulate_requires_grad.
    + destruct (CustomWhisperModel.turn_end_classifier (model s)); cbn;
        [|reflexivity].
      rewrite parameters_update, map_mapi_from; [reflexivity|].
      intros i p. apply accumulate_requires_grad.
  - intros s <-. rewrite step_base. f_equal. unfold step.
    destruct (CustomWhisperModel.turn_end_classifier (model s)) eqn:E; cbn;
      [|now rewrite E].
    rewrite parameters_update, map_mapi_from; [reflexivity|].
    intros i p. apply step_parameter_requires_grad.
Qed.

Lemma Forall2_buffer_kept_refl (l : list (string * nn_Parameter T)) :
  Forall2 buffer_kept l l.
Proof. induction l; constructor; [split; auto|assumption]. Qed.

Lemma Forall2_buffer_kept_map (h : string * nn_Parameter T -> string * nn_Parameter T)
    (l0 l : list (string * nn_Parameter T)) :
  (forall np, buffer_kept np (h np)) ->
  Forall2 buffer_kept l0 l -> Forall2 buffer_kept l0 (map h l).
Proof.
  intros Hh F. induction F as [|a b l0 l Hab F IH]; cbn; constructor; [|exact IH].
  destruct Hab as (E1 & E2), (Hh b) as (E3 & E4). split; [congruence|auto].
Qed.

Lemma buffers_kept (l0 : list (string * nn_Parameter T)) :
  kept_by_modes (fun s : TrainState torch =>
    Forall2 buffer_kept l0 (named_parameters (CustomWhisperModel.base (model s))))
  /\ kept_by_steps (fun s : TrainState torch =>
    Forall2 buffer_kept l0 (named_parameters (CustomWhisperModel.base (model s)))).
Proof.
  unfold kept_by_modes, kept_by_steps. repeat split.
  - intros s. exact (fun E => E).
  - intros s m' E. apply classifier_train_base in E. cbn. now rewrite E.
  - intros s. now rewrite zero_grad_base.
  - intros s x ids target m' E F. apply backward_parts in E.
    cbn [model set_model]. destruct E as (-> & _).
    apply Forall2_buffer_kept_map; [|exact F].
    intros [name p]. split; [reflexivity|]. cbn. apply accumulate_holds_grad.
  - intros s. now rewrite step_base.
Qed.

End InvariantFacts.

Section EpochFacts.
Context {T : Type} `{Scalar T}.
Variable ext : Collaborators T.
Variable torch : Torch T.

(** With a head attached, an epoch is the loop over the samples run
    from the state in which the two modes have been set. *)
Lemma train_single_epoch_attached (samples : list (list T)) (labels : list T)
    (tokenizer : Tokenizer) (s : TrainState torch) (c : TurnEndClassifier.t T) :
  CustomWhisperModel.turn_end_classifier (model s) = Some c ->
  train_single_epoch ext samples labels tokenizer s
  = (epoch_loss <~ for_each (train_sample ext tokenizer) (zip samples labels) zero ;;
     match List.length samples with
     | 0 => lift (Raise (ZeroDivisionError "division by zero"))
     | n => ret (true_divide torch epoch_loss n)
     end)
      {| model := set_classifier (model_eval (model s))
                    (TurnEndClassifier.train true (TurnEndClassifier.train false c));
         optimizer := optimizer s |}.
Proof.
  intros Ec. unfold train_single_epoch.
  unfold bindM at 1. unfold modify at 1. unfold bindM at 1.
  unfold classifier_train, set_model, model_eval. cbn [model optimizer].
  cbn [CustomWhisperModel.turn_end_classifier]. rewrite Ec. reflexivity.
Qed.

Lemma combine_longer_right {A B : Type} (l : list A) (l' extra : list B) :
  List.length l = List.length l' -> combine l (l' ++ extra) = combine l l'.
Proof.
  revert l'. induction l as [|a l IH]; intros [|b l'] E; cbn in *;
    try discriminate E; try reflexivity.
  f_equal. apply IH. congruence.
Qed.

Lemma combine_longer_left {A B : Type} (l extra : list A) (l' : list B) :
  List.length l = List.length l' -> combine (l ++ extra) l' = combine l l'.
Proof.
  revert l'. induction l as [|a l IH]; intros [|b l'] E; cbn in *;
    try discriminate E; try reflexivity.
  - destruct extra; reflexivity.
  - f_equal. apply IH. congruence.
Qed.

End EpochFacts.

(** X10.  An epoch of training neither attaches nor detaches the head,
    and nor does [train_model]; and when a head is attached, the epoch
    leaves the base model in evaluation mode and the head in training
    mode, whether it returns or raises. *)
Theorem training_keeps_head_and_sets_modes {T : Type} `{Scalar T}
    (ext : Collaborators T) (torch : Torch T)
    (samples : list (list T)) (labels : list T) (tokenizer : Tokenizer)
    (audio_path : string) (num_epochs : nat) (s : TrainState torch) :
  let s' := snd (train_single_epoch ext samples labels tokenizer s) in
  is_attached (model s') = is_attached (model s)
  /\ (is_attached (model s) = true -> modes_set (model s'))
  /\ is_attached
       (snd (train_model ext torch audio_path tokenizer num_epochs (model s)))
     = is_attached (model s).
Proof.
  cbn zeta. split; [|split].
  - destruct (attached_kept torch (is_attached (model s))) as (Hm & Hk).
    apply (train_single_epoch_keeps ext samples labels tokenizer Hm Hk s).
    reflexivity.
  - unfold is_attached.
    destruct (CustomWhisperModel.turn_end_classifier (model s)) as [c|] eqn:Ec;
      [intros _|discriminate].
    rewrite (train_single_epoch_attached ext samples labels tokenizer s Ec).
    match goal with
    | |- modes_set (model (snd (bindM ?m ?k ?s0))) =>
        apply (@preserves_bind _ (fun s1 : TrainState torch => modes_set (model s1))
                 _ _ m k)
    end.
    + apply preserves_for_each. intros acc x.
      apply train_sample_keeps. apply modes_kept.
    + intros epoch_loss. destruct (List.length samples);
        [apply preserves_lift|apply preserves_ret].
    + split; [reflexivity|]. eexists. split; reflexivity.
  - destruct (attached_kept torch (is_attached (model s))) as (Hm & Hk).
    apply (@train_model_keeps T _ ext torch
             (fun m => is_attached m = is_attached (model s))
             audio_path tokenizer num_epochs (model s) Hm Hk).
    reflexivity.
Qed.

(** X11.  Training never changes which parameters require a gradient:
    after an epoch, and after [train_model], every parameter of the base
    model and of the head has the [requires_grad] flag it had before. *)
Theorem training_keeps_trainable_flags {T : Type} `{Scalar T}
    (ext : Collaborators T) (torch : Torch T)
    (samples : list (list T)) (labels : list T) (tokenizer : Tokenizer)
    (audio_path : string) (num_epochs : nat) (s : TrainState torch) :
  trainable_flags (model (snd (train_single_epoch ext samples labels tokenizer s)))
  = trainable_flags (model s)
  /\ trainable_flags
       (snd (train_model ext torch audio_path tokenizer num_epochs (model s)))
     = trainable_flags (model s).
Proof.
  destruct (flags_kept torch (trainable_flags (model s))) as (Hm & Hk). split.
  - apply (train_single_epoch_keeps ext samples labels tokenizer Hm Hk s).
    reflexivity.
  - apply (@train_model_keeps T _ ext torch
             (fun m => trainable_flags m = trainable_flags (model s))
             audio_path tokenizer num_epochs (model s) Hm Hk).
    reflexivity.
Qed.

(** X14.  Training never clears a gradient buffer of the base model:
    name by name, a base parameter that holds a gradient before an epoch
    still holds one after it, and likewise across [train_model]. *)
Theorem base_gradient_buffers_never_cleared {T : Type} `{Scalar T}
    (ext : Collaborators T) (torch : Torch T)
    (samples : list (list T)) (labels : list T) (tokenizer : Tokenizer)
    (audio_path : string) (num_epochs : nat) (s : TrainState torch) :
  Forall2 buffer_kept
    (named_parameters (CustomWhisperModel.base (model s)))
    (named_parameters (CustomWhisperModel.base
       (model (snd (train_single_epoch ext samples labels tokenizer s)))))
  /\ Forall2 buffer_kept
       (named_parameters (CustomWhisperModel.base (model s)))
       (named_parameters (CustomWhisperModel.base
          (snd (train_model ext torch audio_path tokenizer num_epochs (model s))))).
Proof.
  destruct (buffers_kept torch
              (named_parameters (CustomWhisperModel.base (model s))))
    as (Hm & Hk).
  split.
  - apply (train_single_epoch_keeps ext samples labels tokenizer Hm Hk s).
    apply Forall2_buffer_kept_refl.
  - apply (@train_model_keeps T _ ext torch
             (fun m => Forall2 buffer_kept
                         (named_parameters (CustomWhisperModel.base (model s)))
                         (named_parameters (CustomWhisperModel.base m)))
             audio_path tokenizer num_epochs (model s) Hm Hk).
    apply Forall2_buffer_kept_refl.
Qed.



(** X19.  An epoch over an empty list of samples raises
    [ZeroDivisionError]: with a head attached the modes are set, no
    sample is processed, and the mean over no sample is a division by
    zero.  The optimizer and every parameter are as before. *)
Theorem empty_epoch_divides_by_zero {T : Type} `{Scalar T}
    (ext : Collaborators T) (torch : Torch T) (labels : list T)
    (tokenizer : Tokenizer) (s : TrainState torch) (c : TurnEndClassifier.t T) :
  CustomWhisperModel.turn_end_classifier (model s) = Some c ->
  let r := train_single_epoch ext [] labels tokenizer s in
  fst r = Raise (ZeroDivisionError "division by zero")
  /\ optimizer (snd r) = optimizer s
  /\ named_parameters (CustomWhisperModel.base (model (snd r)))
     = named_parameters (CustomWhisperModel.base (model s))
  /\ option_map TurnEndClassifier.parameters
       (CustomWhisperModel.turn_end_classifier (model (snd r)))
     = Some (TurnEndClassifier.parameters c)
  /\ modes_set (model (snd r)).
Proof.
  intros Ec. cbn zeta.
  rewrite (train_single_epoch_attached ext [] labels tokenizer s Ec).
  split; [reflexivity|]. split; [reflexivity|]. split; [reflexivity|].
  split; [reflexivity|]. split; [reflexivity|].
  eexists. split; reflexivity.
Qed.

Lemma empty_epoch_divides_by_zero_witness :
  CustomWhisperModel.turn_end_classifier (model Notebook.initial_state)
    = Some Notebook.turn_end_classifier
  /\ fst (train_single_epoch Notebook.world [] [1%R; 0%R] Notebook.tokenizer
            Notebook.initial_state)
     = Raise (ZeroDivisionError "division by zero").
Proof.
  assert (Ec : CustomWhisperModel.turn_end_classifier (model Notebook.initial_state)
               = Some Notebook.turn_end_classifier) by reflexivity.
  split; [exact Ec|].
  exact (proj1 (empty_epoch_divides_by_zero Notebook.world [1%R; 0%R]
                  Notebook.tokenizer Notebook.initial_state Ec)).
Defined.

(** X20.  [zip(samples, labels)] pairs as many as both lists have: labels
    beyond the last sample change nothing at all, and samples beyond the
    last label are never trained on (the state after the epoch is the
    same as without them; only the divisor of the mean counts them). *)
Theorem unpaired_samples_and_labels_are_ignored {T : Type} `{Scalar T}
    (ext : Collaborators T) (torch : Torch T)
    (samples extra_samples : list (list T)) (labels extra_labels : list T)
    (tokenizer : Tokenizer) (s : TrainState torch) :
  List.length samples = List.length labels ->
  train_single_epoch ext samples (labels ++ extra_labels) tokenizer s
  = train_single_epoch ext samples labels tokenizer s
  /\ snd (train_single_epoch ext (samples ++ extra_samples) labels tokenizer s)
     = snd (train_single_epoch ext samples labels tokenizer s).
Proof.
  intros El. unfold train_single_epoch, zip.
  rewrite combine_longer_right by exact El.
  rewrite combine_longer_left by exact El.
  split; [reflexivity|].
  unfold bindM, modify.
  destruct (classifier_train (model (set_model model_eval s))) as [m1|e];
    [|reflexivity].
  match goal with
  | |- context [for_each ?body ?l ?acc0 ?s0] =>
      destruct (for_each body l acc0 s0) as [[loss|e] s1]
  end; [|reflexivity].
  destruct (List.length (samples ++ extra_samples)), (List.length samples);
    reflexivity.
Qed.

Lemma unpaired_samples_and_labels_are_ignored_witness :
  List.length [[0; 0]%R] = List.length [1%R]
  /\ train_single_epoch Notebook.world [[0; 0]%R] ([1%R] ++ [0%R; 0%R])
       Notebook.tokenizer Notebook.initial_state
     = train_single_epoch Notebook.world [[0; 0]%R] [1%R]
         Notebook.tokenizer Notebook.initial_state.
Proof.
  assert (El : List.length [[0; 0]%R] = List.length [1%R]) by reflexivity.
  split; [exact El|].
  exact (proj1 (unpaired_samples_and_labels_are_ignored Notebook.world
                  [[0; 0]%R] [] [1%R] [0%R; 0%R] Notebook.tokenizer
                  Notebook.initial_state El)).
Defined.

(** ** The model and the pipeline: outcomes and edge cases *)

(** X1.  With a head of the architecture of [__init__] attached, on a
    base model whose forward pass returns encoder states
    [batch, length >= 27, encoder_dim] and decoder states
    [batch, tokens >= 1, decoder_dim], [forward_with_turn_end] returns
    the base model's outputs unchanged together with a prediction of
    shape [batch, 1], whatever the two lengths. *)
Theorem forward_with_turn_end_returns_both {T : Type} `{Scalar T}
    (ext : Collaborators T) (self : CustomWhisperModel.t T)
    (e d h : nat) (c : TurnEndClassifier.t T)
    (x : tensor T) (ids : list (list Z)) (kw : list (string * tensor T))
    (out : Seq2SeqLMOutput T) (dh : tensor T) (batch le ld : nat) :
  built_as e d h c -> 1 <= h ->
  CustomWhisperModel.turn_end_classifier self = Some c ->
  whisper_forward ext (config (CustomWhisperModel.base self))
    (state_dict (CustomWhisperModel.base self))
    (whisper_training (CustomWhisperModel.base self)) x ids true kw = Ok out ->
  shape (encoder_last_hidden_state out) = [batch; le; e] -> 27 <= le ->
  py_last (decoder_hidden_states out) = Ok dh ->
  shape dh = [batch; ld; d] -> 1 <= ld ->
  exists pred,
    CustomWhisperModel.forward_with_turn_end ext self x ids kw = Ok (out, pred)
    /\ shape pred = [batch; 1].
Proof.
  intros Hc Hh Hs Ew Se Hle Ed Sd Hld.
  destruct (forward_ok Hc Hh _ _ Se Hle Sd Hld) as (z & Ez & Sz).
  exists (sigmoid z). split; [|exact Sz].
  unfold CustomWhisperModel.forward_with_turn_end.
  rewrite Hs, Ew. cbn [bind]. rewrite Ed. cbn [bind]. rewrite Ez. reflexivity.
Qed.

Lemma forward_with_turn_end_returns_both_witness :
  built_as 384 384 64 Notebook.turn_end_classifier /\ 1 <= 64
  /\ exists out pred,
       CustomWhisperModel.forward_with_turn_end Notebook.world
         Notebook.turn_end_model Cases.features [[50257%Z]] []
       = Ok (out, pred)
       /\ shape pred = [1; 1].
Proof.
  assert (Hc : built_as 384 384 64 Notebook.turn_end_classifier) by reflexivity.
  assert (Hh : 1 <= 64) by lia.
  split; [exact Hc|]. split; [exact Hh|].
  eexists.
  refine (forward_with_turn_end_returns_both Notebook.world Notebook.turn_end_model
            Cases.features [[50257%Z]] []
            (batch := 1) (le := 1500) (ld := 1)
            Hc Hh _ _ _ _ _ _ _); try reflexivity; lia.
Defined.

Lemma forward_sigmoid {T : Type} `{Scalar T} (e d h : nat)
    (c : TurnEndClassifier.t T) (eh dh y : tensor T) :
  built_as e d h c -> TurnEndClassifier.forward c eh dh = Ok y ->
  exists z, y = sigmoid z.
Proof.
  intros Hc Ey. apply forward_streams in Ey.
  destruct Ey as (ev & dv & _ & _ & Ey).
  destruct (built_fc Hc) as (w1 & b1 & w2 & b2 & Ef & _).
  unfold TurnEndClassifier.classify in Ey. rewrite Ef in Ey.
  destruct (cat ev dv 1) as [x|]; cbn [bind] in Ey; [|discriminate Ey].
  cbn [Sequential_forward nn_forward] in Ey.
  destruct (F_linear x (data w1) (data b1)) as [y1|]; cbn [bind] in Ey;
    [|discriminate Ey].
  destruct (F_linear (relu y1) (data w2) (data b2)) as [y2|]; cbn [bind] in Ey;
    [|discriminate Ey].
  injection Ey as <-. eauto.
Qed.

(** X2.  In [torch.float32], with a head of the architecture of
    [__init__] attached, every probability that [__call__] returns is
    either NaN or a float between 0 and 1, the two bounds included.
    ([torch.sigmoid] is taken to map NaN to NaN and every other float
    into [0, 1].) *)
Theorem call_probability_is_nan_or_in_unit
    (sig : spec_float -> spec_float)
    (ext : Collaborators spec_float) (self : TurnEndPipeline.t spec_float)
    (a : TurnEndPipeline.audio spec_float) (e d h : nat)
    (c : TurnEndClassifier.t spec_float)
    (p : TurnEndPipeline.prediction spec_float) :
  Float32.sigmoid_contract sig ->
  CustomWhisperModel.turn_end_classifier (TurnEndPipeline.model self) = Some c ->
  @built_as _ (Scalar_float32 sig) e d h c ->
  @TurnEndPipeline.__call__ _ (Scalar_float32 sig) ext self a = Ok p ->
  TurnEndPipeline.turn_end_probability p = S754_nan
  \/ Float32.in_unit (TurnEndPipeline.turn_end_probability p) = true.
Proof.
  intros Hsig Hs Hc. unfold TurnEndPipeline.__call__.
  destruct (TurnEndPipeline._prepare_audio_features ext self a) as [features|];
    cbn [bind]; [|discriminate].
  unfold CustomWhisperModel.forward_with_turn_end. rewrite Hs.
  destruct (whisper_forward ext _ _ _ _ _ true _) as [out|]; cbn [bind];
    [|discriminate].
  destruct (py_last (decoder_hidden_states out)) as [dh|]; cbn [bind];
    [|discriminate].
  destruct (@TurnEndClassifier.forward _ (Scalar_float32 sig) c
              (encoder_last_hidden_state out) dh)
    as [y|] eqn:Ey; cbn [bind snd]; [|discriminate].
  destruct (@forward_sigmoid _ (Scalar_float32 sig) e d h c _ _ y Hc Ey)
    as (z & ->).
  unfold squeeze_item. destruct (numel (sigmoid z) =? 1); cbn [bind];
    [|discriminate].
  intros E. injection E as <-. cbn [TurnEndPipeline.turn_end_probability].
  destruct (sigmoid_nan_or_unit
              (elem z (map (fun _ => 0)
                         (shape (@sigmoid _ (Scalar_float32 sig) z)))) Hsig)
    as [(_ & En)|(_ & Eu)]; [left; exact En|right; exact Eu].
Qed.

Lemma call_probability_is_nan_or_in_unit_witness :
  Float32.sigmoid_contract Float32Cases.coarse_sigmoid
  /\ exists p,
       @TurnEndPipeline.__call__ _ (Scalar_float32 Float32Cases.coarse_sigmoid)
         Float32Cases.world Float32Cases.pipe
         (TurnEndPipeline.Array [Float32.zero; Float32.one]) = Ok p
       /\ (TurnEndPipeline.turn_end_probability p = S754_nan
           \/ Float32.in_unit (TurnEndPipeline.turn_end_probability p) = true).
Proof.
  assert (Hc : @built_as _ (Scalar_float32 Float32Cases.coarse_sigmoid) 1 1 1
                 Float32Cases.steep_head) by reflexivity.
  split; [exact coarse_sigmoid_contract|].
  destruct (@forward_ok _ (Scalar_float32 Float32Cases.coarse_sigmoid) 1 1 1
              Float32Cases.steep_head Hc (le_n 1)
              (Float32Cases.states_of 27 Float32.one)
              (Float32Cases.states_of 1 Float32.one) 1 27 1)
    as (z & Ez & Sz); [reflexivity|lia|reflexivity|lia|].
  destruct (@call_returns _ (Scalar_float32 Float32Cases.coarse_sigmoid)
              Float32Cases.world Float32Cases.pipe
              (TurnEndPipeline.Array [Float32.zero; Float32.one])
              _ Float32Cases.steep_head _ _ _
              eq_refl eq_refl eq_refl eq_refl eq_refl Ez Sz) as (p & Ep).
  exists p. split; [exact Ep|].
  exact (call_probability_is_nan_or_in_unit Float32Cases.world Float32Cases.pipe
           (TurnEndPipeline.Array [Float32.zero; Float32.one])
           (c := Float32Cases.steep_head)
           coarse_sigmoid_contract eq_refl Hc Ep).
Defined.

(** X3.  A pipeline whose model has no head never returns a probability:
    whenever the audio can be prepared, [__call__] raises the assertion
    error of [forward_with_turn_end]; otherwise it raises what the
    preparation raised. *)
Theorem call_without_head_never_returns {T : Type} `{Scalar T}
    (ext : Collaborators T) (self : TurnEndPipeline.t T)
    (a : TurnEndPipeline.audio T) :
  CustomWhisperModel.turn_end_classifier (TurnEndPipeline.model self) = None ->
  (forall p, TurnEndPipeline.__call__ ext self a <> Ok p)
  /\ (forall features,
        TurnEndPipeline._prepare_audio_features ext self a = Ok features ->
        TurnEndPipeline.__call__ ext self a
        = Raise (AssertionError
            "TurnEndClassifier must be set before calling forward_with_turn_end"))
  /\ (forall err,
        TurnEndPipeline._prepare_audio_features ext self a = Raise err ->
        TurnEndPipeline.__call__ ext self a = Raise err).
Proof.
  intros Hn. unfold TurnEndPipeline.__call__,
    CustomWhisperModel.forward_with_turn_end. rewrite Hn.
  destruct (TurnEndPipeline._prepare_audio_features ext self a) as [features|err];
    cbn [bind]; repeat split; try discriminate; congruence.
Qed.

Lemma call_without_head_never_returns_witness :
  CustomWhisperModel.turn_end_classifier (TurnEndPipeline.model Cases.headless_pipe)
    = None
  /\ TurnEndPipeline.__call__ Notebook.world Cases.headless_pipe
       (TurnEndPipeline.Array [0; 0]%R)
     = Raise (AssertionError
         "TurnEndClassifier must be set before calling forward_with_turn_end").
Proof.
  assert (Hn : CustomWhisperModel.turn_end_classifier
                 (TurnEndPipeline.model Cases.headless_pipe) = None)
    by reflexivity.
  split; [exact Hn|].
  refine (proj1 (proj2 (call_without_head_never_returns Notebook.world
                          Cases.headless_pipe (TurnEndPipeline.Array [0; 0]%R) Hn))
            _ _).
  reflexivity.
Defined.

(** X4.  The assertion of [_prepare_audio_features] guards the rate the
    pipeline is configured with, not the recording: in a pipeline whose
    [sampling_rate] is not 16000, every file that can be opened is
    refused with an [AssertionError], whatever rate it was recorded
    at. *)
Theorem path_refused_when_rate_reconfigured {T : Type} `{Scalar T}
    (ext : Collaborators T) (self : TurnEndPipeline.t T)
    (path : string) (f : AudioFile T) :
  TurnEndPipeline.sampling_rate self <> 16000%Z ->
  files ext path = Some f ->
  exists msg,
    TurnEndPipeline._prepare_audio_features ext self (TurnEndPipeline.Path path)
      = Raise (AssertionError msg)
    /\ TurnEndPipeline.__call__ ext self (TurnEndPipeline.Path path)
       = Raise (AssertionError msg).
Proof.
  intros Hr Hf. eexists.
  unfold TurnEndPipeline.__call__, TurnEndPipeline._prepare_audio_features,
    TurnEndPipeline.load_audio, librosa_load.
  rewrite Hf. cbn [bind]. apply Z.eqb_neq in Hr. rewrite Hr. cbn [bind].
  split; reflexivity.
Qed.

Lemma path_refused_when_rate_reconfigured_witness :
  TurnEndPipeline.sampling_rate Cases.pipe_8k <> 16000%Z
  /\ exists msg,
       TurnEndPipeline.__call__ Notebook.world Cases.pipe_8k
         (TurnEndPipeline.Path Notebook.telephone_wav)
       = Raise (AssertionError msg).
Proof.
  assert (Hr : TurnEndPipeline.sampling_rate Cases.pipe_8k <> 16000%Z)
    by discriminate.
  split; [exact Hr|].
  destruct (path_refused_when_rate_reconfigured Notebook.world Cases.pipe_8k
              Notebook.telephone_wav Hr eq_refl) as (msg & _ & E).
  exists msg. exact E.
Defined.

(** X5.  Passing a path gives the same outcome as passing the array that
    loading the path gives: for a file recorded at the configured rate
    its own samples, for any other file its resampled samples. *)
Theorem path_is_its_loaded_samples {T : Type} `{Scalar T}
    (ext : Collaborators T) (m : CustomWhisperModel.t T)
    (path : string) (f : AudioFile T) :
  files ext path = Some f ->
  TurnEndPipeline.__call__ ext (TurnEndPipeline.__init__ m)
    (TurnEndPipeline.Path path)
  = TurnEndPipeline.__call__ ext (TurnEndPipeline.__init__ m)
      (TurnEndPipeline.Array
         (if (native_sr f =? 16000)%Z then file_samples f
          else resample ext (file_samples f) (native_sr f) 16000%Z)).
Proof.
  intros Hf.
  unfold TurnEndPipeline.__call__, TurnEndPipeline._prepare_audio_features.
  pose proof (load_audio_outcome ext m (TurnEndPipeline.Path path)) as L.
  cbv beta iota in L. rewrite Hf in L. rewrite L. reflexivity.
Qed.

Lemma path_is_its_loaded_samples_witness :
  files Notebook.world Notebook.telephone_wav
    = Some {| native_sr := 8000; file_samples := [0; 0]%R |}
  /\ TurnEndPipeline.__call__ Notebook.world Notebook.turn_end_pipe
       (TurnEndPipeline.Path Notebook.telephone_wav)
     = TurnEndPipeline.__call__ Notebook.world Notebook.turn_end_pipe
         (TurnEndPipeline.Array [0; 0; 0; 0]%R).
Proof.
  assert (Hf : files Notebook.world Notebook.telephone_wav
               = Some {| native_sr := 8000; file_samples := [0; 0]%R |})
    by reflexivity.
  split; [exact Hf|].
  exact (path_is_its_loaded_samples Notebook.world Notebook.turn_end_model
           Notebook.telephone_wav Hf).
Defined.

Lemma py_slice_from_split {A : Type} (i : Z) (l : list A) :
  exists dropped,
    l = (dropped ++ py_slice_from i l)%list
    /\ Z.of_nat (List.length dropped)
       = (if (i <? 0)%Z then Z.max (Z.of_nat (List.length l) + i) 0
          else Z.min i (Z.of_nat (List.length l))).
Proof.
  unfold py_slice_from.
  set (start := if (i <? 0)%Z then Z.max (Z.of_nat (List.length l) + i) 0
                else Z.min i (Z.of_nat (List.length l))).
  exists (firstn (Z.to_nat start) l). split.
  - symmetry. apply firstn_skipn.
  - rewrite length_firstn. subst start.
    destruct (Z.ltb_spec i 0); lia.
Qed.

(** X6.  Whatever duration and rate a pipeline is configured with, the
    window is [int(max_duration * sampling_rate)] with the product taken
    and rounded in floating point.  When that is an integer [k], the
    feature extractor receives a suffix of the loaded audio: for
    [k > 0] the last [min k n] of the [n] samples; for [k = 0] the whole
    audio, not an empty one ([audio_array[-0:]]); for [k < 0] the audio
    without its first [min (-k) n] samples.  When the product is
    infinite or NaN, or the rate too large for a float, the preparation
    raises what the conversion raises. *)
Theorem window_for_any_configuration {T : Type} `{Scalar T}
    (ext : Collaborators T) (self : TurnEndPipeline.t T)
    (a : TurnEndPipeline.audio T) (arr : list T) :
  TurnEndPipeline.load_audio ext self a = Ok arr ->
  match TurnEndPipeline.max_samples self with
  | Ok k =>
      exists dropped kept,
        arr = (dropped ++ kept)%list
        /\ TurnEndPipeline._prepare_audio_features ext self a
           = feature_extractor ext kept (TurnEndPipeline.sampling_rate self)
        /\ ((0 < k)%Z ->
            Z.of_nat (List.length kept) = Z.min k (Z.of_nat (List.length arr)))
        /\ (k = 0%Z -> kept = arr)
        /\ ((k < 0)%Z ->
            Z.of_nat (List.length dropped)
            = Z.min (- k) (Z.of_nat (List.length arr)))
  | Raise err =>
      TurnEndPipeline._prepare_audio_features ext self a = Raise err
  end.
Proof.
  intros La. unfold TurnEndPipeline._prepare_audio_features. rewrite La.
  cbn [bind].
  destruct (TurnEndPipeline.max_samples self) as [k|err]; cbn [bind];
    [|reflexivity].
  destruct (py_slice_from_split (- k) arr) as (dropped & Es & El).
  exists dropped, (py_slice_from (- k) arr).
  split; [exact Es|]. split; [reflexivity|].
  assert (En : Z.of_nat (List.length arr)
               = (Z.of_nat (List.length dropped)
                  + Z.of_nat (List.length (py_slice_from (- k) arr)))%Z).
  { rewrite Es at 1. rewrite length_app. lia. }
  destruct (Z.ltb_spec (- k) 0) as [Hn|Hn].
  - split; [intros _; lia|]. split; intros Hk; lia.
  - split; [intros Hk; lia|]. split; intros Hk.
    + assert (Hd : List.length dropped = 0) by lia.
      destruct dropped; [|discriminate Hd]. symmetry. exact Es.
    + lia.
Qed.

Lemma window_for_any_configuration_witness :
  TurnEndPipeline.load_audio Notebook.world Cases.pipe_zero_window
    (TurnEndPipeline.Array [1; 2; 3]%R) = Ok [1; 2; 3]%R
  /\ TurnEndPipeline.max_samples Cases.pipe_zero_window = Ok 0%Z
  /\ TurnEndPipeline._prepare_audio_features Notebook.world Cases.pipe_zero_window
       (TurnEndPipeline.Array [1; 2; 3]%R)
     = feature_extractor Notebook.world [1; 2; 3]%R 16000%Z.
Proof.
  assert (La : TurnEndPipeline.load_audio Notebook.world Cases.pipe_zero_window
                 (TurnEndPipeline.Array [1; 2; 3]%R) = Ok [1; 2; 3]%R)
    by reflexivity.
  split; [exact La|]. split; [reflexivity|].
  destruct (window_for_any_configuration Notebook.world Cases.pipe_zero_window
              (TurnEndPipeline.Array [1; 2; 3]%R) La)
    as (dropped & kept & _ & Ep & _ & H0 & _).
  rewrite (H0 eq_refl) in Ep. exact Ep.
Defined.

(** The product is rounded before it is truncated: a duration of 1.001 s
    at 16 kHz gives a window of 16015 samples, where the exact product
    is 16016. *)
Example window_of_1001_ms :
  TurnEndPipeline.max_samples Cases.pipe_1001_ms = Ok 16015%Z
  /\ py_int ((1001 # 1000) * inject_Z 16000) = 16016%Z.
Proof. split; reflexivity. Qed.

(** X7.  For a recording that can be opened, [create_training_samples]
    returns the recording at 16 kHz and its first 64000 samples (4 s):
    the second sample is a prefix of the first, of [min 64000 n]
    samples, and for a recording of at most 4 s the two samples are the
    same audio. *)
Theorem training_samples_are_recording_and_prefix {T : Type} `{Scalar T}
    (ext : Collaborators T) (audio_path : string) (f : AudioFile T) :
  files ext audio_path = Some f ->
  exists full partial rest,
    create_training_samples ext audio_path = Ok (full, partial)
    /\ full = (if (native_sr f =? 16000)%Z then file_samples f
               else resample ext (file_samples f) (native_sr f) 16000%Z)
    /\ full = (partial ++ rest)%list
    /\ Z.of_nat (List.length partial) = Z.min 64000 (Z.of_nat (List.length full))
    /\ ((Z.of_nat (List.length full) <= 64000)%Z -> partial = full).
Proof.
  intros Hf. unfold create_training_samples, librosa_load. rewrite Hf. cbn [bind].
  set (full := if (native_sr f =? 16000)%Z then file_samples f
               else resample ext (file_samples f) (native_sr f) 16000%Z).
  change (py_int (4 * inject_Z 16000)) with 64000%Z.
  exists full, (py_slice_to 64000 full), (skipn (Z.to_nat (Z.min 64000
                  (Z.of_nat (List.length full)))) full).
  unfold py_slice_to.
  destruct (Z.ltb_spec 64000 0) as [Hn|_]; [lia|].
  split; [reflexivity|]. split; [reflexivity|]. split; [|split].
  - symmetry. apply firstn_skipn.
  - rewrite length_firstn. lia.
  - intros Hl. rewrite Z.min_r by exact Hl. rewrite Nat2Z.id. apply firstn_all.
Qed.

Lemma training_samples_are_recording_and_prefix_witness :
  files Notebook.world Notebook.test_wav
    = Some {| native_sr := 16000; file_samples := [0; 0; 0; 0]%R |}
  /\ exists full partial rest,
       create_training_samples Notebook.world Notebook.test_wav = Ok (full, partial)
       /\ full = (partial ++ rest)%list
       /\ Z.of_nat (List.length partial) = Z.min 64000 (Z.of_nat (List.length full)).
Proof.
  assert (Hf : files Notebook.world Notebook.test_wav
               = Some {| native_sr := 16000; file_samples := [0; 0; 0; 0]%R |})
    by reflexivity.
  split; [exact Hf|].
  destruct (training_samples_are_recording_and_prefix Notebook.world
              Notebook.test_wav Hf) as (full & partial & rest & E & _ & Ea & El & _).
  exists full, partial, rest. auto.
Defined.

(** X21.  The notebook's [test_custom_whisper_model] passes whenever the
    checkpoint loads and the base model, on the test's features
    [2, 80, 3000] and 2 x 20 token ids, returns encoder states
    [2, 1500, 384] and decoder states [2, 20, 384]: the head is built
    for these dimensions, whatever values are drawn. *)
Theorem test_custom_whisper_model_passes {T : Type} `{Scalar T}
    (ext : Collaborators T) (init : string -> list nat -> T)
    (noise : list nat -> T) (draw : nat -> nat -> Z)
    (w : Whisper T) (out : Seq2SeqLMOutput T) (dh : tensor T) :
  pretrained ext "openai/whisper-tiny.en" = Ok w ->
  whisper_forward ext (config w) (state_dict w) (whisper_training w)
    (torch_randn noise [2; 80; 3000]) (torch_randint draw 0 100 2 20) true []
    = Ok out ->
  shape (encoder_last_hidden_state out) = [2; 1500; 384] ->
  py_last (decoder_hidden_states out) = Ok dh ->
  shape dh = [2; 20; 384] ->
  test_custom_whisper_model ext init noise draw = Ok tt.
Proof.
  intros Ep Ew Se Ed Sd.
  unfold test_custom_whisper_model, CustomWhisperModel.from_pretrained.
  cbv zeta. rewrite Ep. cbn [bind].
  unfold CustomWhisperModel.forward_with_turn_end.
  cbn [CustomWhisperModel.turn_end_classifier CustomWhisperModel.base].
  rewrite Ew. cbn [bind]. rewrite Ed. cbn [bind].
  assert (Hc : built_as 384 384 64 (TurnEndClassifier.__init__ init 384 384 64))
    by reflexivity.
  destruct (forward_ok Hc (le_n_S _ _ (Nat.le_0_l 63)) _ _
              (batch := 2) (le := 1500) (ld := 20) Se ltac:(lia) Sd ltac:(lia))
    as (z & -> & _).
  reflexivity.
Qed.

Lemma test_custom_whisper_model_passes_witness :
  pretrained Notebook.world "openai/whisper-tiny.en" = Ok Notebook.checkpoint
  /\ test_custom_whisper_model Notebook.world (fun _ _ => 0%R) (fun _ => 1%R)
       (fun r c => Z.of_nat (r + c)) = Ok tt.
Proof.
  assert (Ep : pretrained Notebook.world "openai/whisper-tiny.en"
               = Ok Notebook.checkpoint) by reflexivity.
  split; [exact Ep|].
  eapply (test_custom_whisper_model_passes Notebook.world (fun _ _ => 0%R)
            (fun _ => 1%R) (fun r c => Z.of_nat (r + c)) Ep);
    reflexivity.
Defined.

(** ** The compressed features are not negative *)

Lemma SFltb_SFleb (x y : spec_float) : SFltb x y = true -> SFleb x y = true.
Proof.
  unfold SFltb, SFleb. destruct (SFcompare x y) as [[| |]|]; congruence.
Qed.

Lemma maximum_zero_nonnegative (x : spec_float) :
  Float32.maximum Float32.zero x = S754_nan
  \/ Float32.nonnegative (Float32.maximum Float32.zero x) = true.
Proof.
  unfold Float32.maximum. change (Float32.is_nan Float32.zero) with false.
  cbn [orb]. destruct (Float32.is_nan x); [left; reflexivity|]. right.
  destruct (SFltb Float32.zero x) eqn:E.
  - apply SFltb_SFleb. exact E.
  - reflexivity.
Qed.

Lemma maximum_nonnegative (x y : spec_float) :
  x = S754_nan \/ Float32.nonnegative x = true ->
  y = S754_nan \/ Float32.nonnegative y = true ->
  Float32.maximum x y = S754_nan
  \/ Float32.nonnegative (Float32.maximum x y) = true.
Proof.
  intros Hx Hy. unfold Float32.maximum.
  destruct (Float32.is_nan x || Float32.is_nan y); [left; reflexivity|].
  destruct (SFltb x y); assumption.
Qed.

Lemma Sequential_ends_with_ReLU {T : Type} `{Scalar T}
    (layers : list (nn_Module T)) :
  forall x f,
    Sequential_forward (layers ++ [ReLU]) x = Ok f -> exists y, f = relu y.
Proof.
  induction layers as [|m rest IH]; intros x f; cbn [app Sequential_forward].
  - cbn. intros E. injection E as <-. eauto.
  - destruct (nn_forward m x) as [y|]; cbn [bind]; [apply IH|discriminate].
Qed.

Section Float32Features.
Variable sig : spec_float -> spec_float.

Lemma fold_maximum_nonnegative (g : nat -> spec_float) (l : list nat) :
  (forall i, g i = S754_nan \/ Float32.nonnegative (g i) = true) ->
  forall a, a = S754_nan \/ Float32.nonnegative a = true ->
  let m := fold_left (fun acc i => Float32.maximum acc (g i)) l a in
  m = S754_nan \/ Float32.nonnegative m = true.
Proof.
  intros Hg. induction l as [|i l IH]; intros a Ha; cbn [fold_left].
  - exact Ha.
  - apply IH. apply maximum_nonnegative; [exact Ha|apply Hg].
Qed.

Lemma pooled_nonnegative (y p : tensor spec_float) (o : nat) :
  @adaptive_max_pool1d _ (Scalar_float32 sig)
    (@relu _ (Scalar_float32 sig) y) o = Ok p ->
  forall idx, elem p idx = S754_nan \/ Float32.nonnegative (elem p idx) = true.
Proof.
  unfold adaptive_max_pool1d.
  destruct (shape (relu y)) as [|n [|ch [|l [|]]]]; try discriminate.
  destruct ((ch =? 0) || (l =? 0)); [discriminate|].
  intros E idx. injection E as <-. cbn [elem].
  destruct idx as [|i [|j [|k [|]]]]; try (right; reflexivity).
  unfold max_over.
  apply (fold_maximum_nonnegative
           (fun t => Float32.maximum Float32.zero (elem y [i; j; t]))).
  - intros t. apply maximum_zero_nonnegative.
  - apply maximum_zero_nonnegative.
Qed.

Lemma squeezed_nonnegative (p : tensor spec_float) :
  (forall idx, elem p idx = S754_nan \/ Float32.nonnegative (elem p idx) = true) ->
  forall idx,
    elem (squeeze_last p) idx = S754_nan
    \/ Float32.nonnegative (elem (squeeze_last p) idx) = true.
Proof.
  intros Hp idx. unfold squeeze_last.
  destruct (rev (shape p)) as [|[|[|n]] lead]; cbn [elem]; apply Hp.
Qed.

Lemma compress_nonnegative (reduce : nn_Module spec_float)
    (conv : list (nn_Module spec_float)) (o : nat) (x v : tensor spec_float) :
  @TurnEndClassifier.compress _ (Scalar_float32 sig) reduce (conv ++ [ReLU])
    (AdaptiveMaxPool1d o) x = Ok v ->
  forall idx, elem v idx = S754_nan \/ Float32.nonnegative (elem v idx) = true.
Proof.
  unfold TurnEndClassifier.compress, TurnEndClassifier.convolved.
  destruct (nn_forward reduce x) as [r|]; cbn [bind]; [|discriminate].
  destruct (transpose 1 2 r) as [t|]; cbn [bind]; [|discriminate].
  destruct (Sequential_forward (conv ++ [ReLU]) t) as [f|] eqn:Ef; cbn [bind];
    [|discriminate].
  destruct (@Sequential_ends_with_ReLU _ (Scalar_float32 sig) _ _ _ Ef)
    as (y & ->).
  cbn [nn_forward].
  destruct (adaptive_max_pool1d (relu y) o) as [p|] eqn:Ep; cbn [bind];
    [|discriminate].
  intros E. injection E as <-.
  apply squeezed_nonnegative. exact (pooled_nonnegative _ _ Ep).
Qed.

End Float32Features.

(** X16.  In [torch.float32], every entry of the fixed-size vector that
    either stream of a head of the architecture of [__init__] returns
    is either NaN or at least 0: each convolution stack ends in [ReLU]
    and the pooling takes a maximum. *)
Theorem compressed_features_are_nonnegative_or_nan
    (sig : spec_float -> spec_float) (e d h : nat)
    (c : TurnEndClassifier.t spec_float) (x v : tensor spec_float) :
  @built_as _ (Scalar_float32 sig) e d h c ->
  @TurnEndClassifier.compress_encoder _ (Scalar_float32 sig) c x = Ok v
  \/ @TurnEndClassifier.compress_decoder _ (Scalar_float32 sig) c x = Ok v ->
  forall idx, elem v idx = S754_nan \/ Float32.nonnegative (elem v idx) = true.
Proof.
  intros Hc.
  destruct (built_encoder_conv Hc) as (w1 & b1 & w2 & b2 & w3 & b3 & Ee & _).
  destruct (built_decoder_conv Hc) as (u1 & a1 & u2 & a2 & Ed & _).
  destruct (built_pools Hc) as (Ep & Ep').
  unfold TurnEndClassifier.compress_encoder, TurnEndClassifier.compress_decoder.
  rewrite Ee, Ed, Ep, Ep'. intros [E|E].
  - exact (compress_nonnegative sig _
             [Conv1d w1 b1 3 1; ReLU; Conv1d w2 b2 3 1; ReLU; Conv1d w3 b3 3 1]
             1 x E).
  - exact (compress_nonnegative sig _
             [Conv1d u1 a1 1 1; ReLU; Conv1d u2 a2 1 1] 1 x E).
Qed.

Lemma compressed_features_are_nonnegative_or_nan_witness :
  @built_as _ (Scalar_float32 Float32Cases.coarse_sigmoid) 1 1 1
    Float32Cases.steep_head
  /\ exists v,
       @TurnEndClassifier.compress_decoder _
         (Scalar_float32 Float32Cases.coarse_sigmoid) Float32Cases.steep_head
         (Float32Cases.states_of 1 Float32.one) = Ok v
       /\ forall idx,
            elem v idx = S754_nan \/ Float32.nonnegative (elem v idx) = true.
Proof.
  assert (Hc : @built_as _ (Scalar_float32 Float32Cases.coarse_sigmoid) 1 1 1
                 Float32Cases.steep_head) by reflexivity.
  split; [exact Hc|].
  destruct (@decoder_stream_ok _ (Scalar_float32 Float32Cases.coarse_sigmoid)
              1 1 1 Float32Cases.steep_head Hc (le_n 1)
              (Float32Cases.states_of 1 Float32.one) 1 1 eq_refl (le_n 1))
    as (_ & v & _ & _ & Ev & _).
  exists v. split; [exact Ev|].
  exact (compressed_features_are_nonnegative_or_nan
           (Float32Cases.states_of 1 Float32.one) Hc (or_intror Ev)).
Defined.

(** ** Whether the head raises is decided by shapes *)

Section OutcomeFacts.
Context {T : Type} `{Scalar T}.

Lemma same_outcome_bind (r r' : result (tensor T))
    (k k' : tensor T -> result (tensor T)) :
  same_outcome r r' ->
  (forall y y', shape y = shape y' -> same_outcome (k y) (k' y')) ->
  same_outcome (bind r k) (bind r' k').
Proof.
  intros Hr Hk. destruct r as [y|e], r' as [y'|e']; cbn in *;
    try contradiction; [apply Hk; exact Hr|exact Hr].
Qed.

Lemma F_linear_outcome (x x' w w' b b' : tensor T) :
  shape x = shape x' -> shape w = shape w' ->
  same_outcome (F_linear x w b) (F_linear x' w' b').
Proof.
  intros Ex Ew. unfold F_linear. rewrite Ex, Ew.
  destruct (shape w') as [|o [|i [|]]]; try reflexivity.
  destruct (rev (shape x')) as [|dd lead]; try reflexivity.
  destruct (dd =? i); reflexivity.
Qed.

Lemma conv1d_outcome (x x' w w' b b' : tensor T) (s p : nat) :
  shape x = shape x' -> shape w = shape w' ->
  same_outcome (conv1d x w b s p) (conv1d x' w' b' s p).
Proof.
  intros Ex Ew. unfold conv1d. rewrite Ex, Ew.
  destruct (shape x') as [|n [|ci [|l [|]]]]; try reflexivity;
    destruct (shape w') as [|co [|ci' [|k [|]]]]; try reflexivity.
  destruct (negb (ci =? ci')); [reflexivity|].
  destruct (l + 2 * p <? k); reflexivity.
Qed.

Lemma adaptive_max_pool1d_outcome (x x' : tensor T) (o : nat) :
  shape x = shape x' ->
  same_outcome (adaptive_max_pool1d x o) (adaptive_max_pool1d x' o).
Proof.
  intros Ex. unfold adaptive_max_pool1d. rewrite Ex.
  destruct (shape x') as [|n [|ch [|l [|]]]]; try reflexivity.
  destruct ((ch =? 0) || (l =? 0)); reflexivity.
Qed.

Lemma nn_forward_outcome (m m' : nn_Module T) (x x' : tensor T) :
  arch_of m = arch_of m' -> shape x = shape x' ->
  same_outcome (nn_forward m x) (nn_forward m' x').
Proof.
  intros Ea Ex.
  destruct m, m'; cbn [arch_of] in Ea; try discriminate Ea; cbn [nn_forward].
  - injection Ea as Ew _. now apply F_linear_outcome.
  - injection Ea as Ew _ -> ->. now apply conv1d_outcome.
  - exact Ex.
  - exact Ex.
  - injection Ea as ->. now apply adaptive_max_pool1d_outcome.
Qed.

Lemma Sequential_outcome (layers : list (nn_Module T)) :
  forall (layers' : list (nn_Module T)) (x x' : tensor T),
    map arch_of layers = map arch_of layers' -> shape x = shape x' ->
    same_outcome (Sequential_forward layers x) (Sequential_forward layers' x').
Proof.
  induction layers as [|m rest IH]; intros [|m' rest'] x x' Ea Ex;
    cbn in Ea; try discriminate Ea; cbn [Sequential_forward].
  - exact Ex.
  - injection Ea as Em Er. apply same_outcome_bind.
    + now apply nn_forward_outcome.
    + intros y y' Ey. now apply IH.
Qed.

Lemma transpose_outcome (d0 d1 : nat) (x x' : tensor T) :
  shape x = shape x' ->
  same_outcome (transpose d0 d1 x) (transpose d0 d1 x').
Proof.
  intros Ex. unfold transpose. rewrite Ex.
  destruct ((d0 <? List.length (shape x')) && (d1 <? List.length (shape x')));
    cbn; reflexivity.
Qed.

Lemma squeeze_last_shape_eq (x x' : tensor T) :
  shape x = shape x' -> shape (squeeze_last x) = shape (squeeze_last x').
Proof.
  intros Ex. unfold squeeze_last. rewrite Ex.
  destruct (rev (shape x')) as [|[|[|n]] lead]; cbn; congruence.
Qed.

Lemma cat_outcome (a a' b b' : tensor T) (dim : nat) :
  shape a = shape a' -> shape b = shape b' ->
  same_outcome (cat a b dim) (cat a' b' dim).
Proof.
  intros Ea Eb. unfold cat. rewrite Ea, Eb.
  destruct (negb _); [reflexivity|]. destruct (negb _); [reflexivity|].
  cbn. reflexivity.
Qed.

End OutcomeFacts.

(** X17.  Whether [TurnEndClassifier.forward] raises, what it raises and
    the shape of what it returns depend only on the architecture of the
    head and on the shapes of the two inputs, never on a value: two
    heads of one architecture, on inputs of the same shapes, either
    raise the same exception or return tensors of the same shape. *)
Theorem forward_outcome_depends_on_shapes {T : Type} `{Scalar T}
    (c c' : TurnEndClassifier.t T) (e e' d d' : tensor T) :
  architecture c = architecture c' ->
  shape e = shape e' -> shape d = shape d' ->
  same_outcome (TurnEndClassifier.forward c e d)
               (TurnEndClassifier.forward c' e' d').
Proof.
  intros Ea Ee Ed.
  pose proof (f_equal encoder_reduce_arch Ea) as A1.
  pose proof (f_equal decoder_reduce_arch Ea) as A2.
  pose proof (f_equal encoder_conv_arch Ea) as A3.
  pose proof (f_equal encoder_pool_arch Ea) as A4.
  pose proof (f_equal decoder_conv_arch Ea) as A5.
  pose proof (f_equal decoder_pool_arch Ea) as A6.
  pose proof (f_equal fc_arch Ea) as A7.
  cbn in A1, A2, A3, A4, A5, A6, A7.
  unfold TurnEndClassifier.forward.
  apply same_outcome_bind; [now apply nn_forward_outcome|]. intros e1 e1' E1.
  apply same_outcome_bind; [now apply nn_forward_outcome|]. intros d1 d1' D1.
  apply same_outcome_bind; [now apply transpose_outcome|]. intros e2 e2' E2.
  apply same_outcome_bind; [now apply Sequential_outcome|]. intros e3 e3' E3.
  apply same_outcome_bind; [now apply nn_forward_outcome|]. intros e4 e4' E4.
  apply same_outcome_bind; [now apply transpose_outcome|]. intros d2 d2' D2.
  apply same_outcome_bind; [now apply Sequential_outcome|]. intros d3 d3' D3.
  apply same_outcome_bind; [now apply nn_forward_outcome|]. intros d4 d4' D4.
  apply same_outcome_bind.
  - apply cat_outcome; now apply squeeze_last_shape_eq.
  - intros y y' Ey. now apply Sequential_outcome.
Qed.

Lemma forward_outcome_depends_on_shapes_witness :
  architecture Notebook.turn_end_classifier
    = architecture (TurnEndClassifier.__init__ (fun _ _ => 1%R) 384 384 64)
  /\ same_outcome
       (TurnEndClassifier.forward Notebook.turn_end_classifier
          Notebook.one_step Notebook.one_step)
       (TurnEndClassifier.forward
          (TurnEndClassifier.__init__ (fun _ _ => 1%R) 384 384 64)
          (Notebook.const_tensor [1; 1; 384] 1) (Notebook.const_tensor [1; 1; 384] 2)).
Proof.
  assert (Ea : architecture Notebook.turn_end_classifier
               = architecture (TurnEndClassifier.__init__ (fun _ _ => 1%R) 384 384 64))
    by reflexivity.
  split; [exact Ea|].
  apply forward_outcome_depends_on_shapes; [exact Ea|reflexivity|reflexivity].
Defined.

(** ** The rows of a batch do not mix *)

Section RowFacts.
Context {T : Type} `{Scalar T}.

Lemma sum_upto_ext (n : nat) (f g : nat -> T) :
  (forall i, f i = g i) -> sum_upto n f = sum_upto n g.
Proof.
  intros E. unfold sum_upto. generalize zero. generalize (seq 0 n).
  induction l as [|i l IH]; intros a; cbn; [reflexivity|]. now rewrite E, IH.
Qed.

Lemma max_over_ext (lo hi : nat) (f g : nat -> T) :
  (forall i, f i = g i) -> max_over lo hi f = max_over lo hi g.
Proof.
  intros E. unfold max_over. rewrite (E lo). generalize (g lo).
  generalize (seq (S lo) (hi - S lo)).
  induction l as [|i l IH]; intros a; cbn; [reflexivity|]. now rewrite E, IH.
Qed.

Variable b : nat.

Lemma F_linear_row3 (x x' w bias y y' : tensor T) :
  same_row3 b x x' -> F_linear x w bias = Ok y -> F_linear x' w bias = Ok y' ->
  same_row3 b y y'.
Proof.
  intros (Es & Er). unfold F_linear. rewrite Es.
  destruct (shape w) as [|o [|i [|]]]; try discriminate.
  destruct (rev (shape x')) as [|dd lead]; try discriminate.
  destruct (dd =? i); [|discriminate].
  intros E E'. injection E as <-. injection E' as <-. split; [reflexivity|].
  intros r k. cbn. f_equal. apply sum_upto_ext. intros j. f_equal. apply Er.
Qed.

Lemma F_linear_row2 (x x' w bias y y' : tensor T) :
  same_row2 b x x' -> F_linear x w bias = Ok y -> F_linear x' w bias = Ok y' ->
  same_row2 b y y'.
Proof.
  intros (Es & Er). unfold F_linear. rewrite Es.
  destruct (shape w) as [|o [|i [|]]]; try discriminate.
  destruct (rev (shape x')) as [|dd lead]; try discriminate.
  destruct (dd =? i); [|discriminate].
  intros E E'. injection E as <-. injection E' as <-. split; [reflexivity|].
  intros k. cbn. f_equal. apply sum_upto_ext. intros j. f_equal. apply Er.
Qed.

Lemma conv1d_row3 (x x' w bias y y' : tensor T) (s p : nat) :
  same_row3 b x x' -> conv1d x w bias s p = Ok y -> conv1d x' w bias s p = Ok y' ->
  same_row3 b y y'.
Proof.
  intros (Es & Er). unfold conv1d. rewrite Es.
  destruct (shape x') as [|n [|ci [|l [|]]]]; try discriminate;
    destruct (shape w) as [|co [|ci' [|k [|]]]]; try discriminate.
  destruct (negb (ci =? ci')); [discriminate|].
  destruct (l + 2 * p <? k); [discriminate|].
  intros E E'. injection E as <-. injection E' as <-. split; [reflexivity|].
  intros r j. cbn. f_equal. apply sum_upto_ext. intros c.
  apply sum_upto_ext. intros t. f_equal.
  rewrite Er. reflexivity.
Qed.

Lemma conv1d_row2 (x x' w bias y y' : tensor T) (s p : nat) :
  same_row2 b x x' -> conv1d x w bias s p = Ok y -> conv1d x' w bias s p = Ok y' ->
  same_row2 b y y'.
Proof.
  intros (Es & Er). unfold conv1d. rewrite Es.
  destruct (shape x') as [|n [|ci [|l [|]]]]; try discriminate;
    destruct (shape w) as [|co [|ci' [|k [|]]]]; try discriminate.
  destruct (negb (ci =? ci')); [discriminate|].
  destruct (l + 2 * p <? k); [discriminate|].
  intros E E'. injection E as <-. injection E' as <-. split; reflexivity.
Qed.

Lemma pool_row3 (x x' y y' : tensor T) (o : nat) :
  same_row3 b x x' ->
  adaptive_max_pool1d x o = Ok y -> adaptive_max_pool1d x' o = Ok y' ->
  same_row3 b y y'.
Proof.
  intros (Es & Er). unfold adaptive_max_pool1d. rewrite Es.
  destruct (shape x') as [|n [|ch [|l [|]]]]; try discriminate.
  destruct ((ch =? 0) || (l =? 0)); [discriminate|].
  intros E E'. injection E as <-. injection E' as <-. split; [reflexivity|].
  intros r j. cbn. apply max_over_ext. intros t. apply Er.
Qed.

Lemma pool_row2 (x x' y y' : tensor T) (o : nat) :
  same_row2 b x x' ->
  adaptive_max_pool1d x o = Ok y -> adaptive_max_pool1d x' o = Ok y' ->
  same_row2 b y y'.
Proof.
  intros (Es & Er). unfold adaptive_max_pool1d. rewrite Es.
  destruct (shape x') as [|n [|ch [|l [|]]]]; try discriminate.
  destruct ((ch =? 0) || (l =? 0)); [discriminate|].
  intros E E'. injection E as <-. injection E' as <-. split; reflexivity.
Qed.

Lemma nn_forward_row3 (m : nn_Module T) (x x' y y' : tensor T) :
  same_row3 b x x' -> nn_forward m x = Ok y -> nn_forward m x' = Ok y' ->
  same_row3 b y y'.
Proof.
  intros Hr. destruct m; cbn [nn_forward].
  - now apply F_linear_row3.
  - now apply conv1d_row3.
  - intros E E'. injection E as <-. injection E' as <-.
    destruct Hr as (Es & Er). split; [exact Es|]. intros i j. cbn. now rewrite Er.
  - intros E E'. injection E as <-. injection E' as <-.
    destruct Hr as (Es & Er). split; [exact Es|]. intros i j. cbn. now rewrite Er.
  - now apply pool_row3.
Qed.

Lemma nn_forward_row2 (m : nn_Module T) (x x' y y' : tensor T) :
  same_row2 b x x' -> nn_forward m x = Ok y -> nn_forward m x' = Ok y' ->
  same_row2 b y y'.
Proof.
  intros Hr. destruct m; cbn [nn_forward].
  - now apply F_linear_row2.
  - now apply conv1d_row2.
  - intros E E'. injection E as <-. injection E' as <-.
    destruct Hr as (Es & Er). split; [exact Es|]. intros i. cbn. now rewrite Er.
  - intros E E'. injection E as <-. injection E' as <-.
    destruct Hr as (Es & Er). split; [exact Es|]. intros i. cbn. now rewrite Er.
  - now apply pool_row2.
Qed.

Lemma Sequential_row3 (layers : list (nn_Module T)) :
  forall x x' y y',
    same_row3 b x x' ->
    Sequential_forward layers x = Ok y -> Sequential_forward layers x' = Ok y' ->
    same_row3 b y y'.
Proof.
  induction layers as [|m rest IH]; intros x x' y y' Hr; cbn [Sequential_forward].
  - intros E E'. injection E as <-. injection E' as <-. exact Hr.
  - destruct (nn_forward m x) as [z|] eqn:Ez; cbn [bind]; [|discriminate].
    destruct (nn_forward m x') as [z'|] eqn:Ez'; cbn [bind]; [|discriminate].
    apply IH. exact (nn_forward_row3 m Hr Ez Ez').
Qed.

Lemma Sequential_row2 (layers : list (nn_Module T)) :
  forall x x' y y',
    same_row2 b x x' ->
    Sequential_forward layers x = Ok y -> Sequential_forward layers x' = Ok y' ->
    same_row2 b y y'.
Proof.
  induction layers as [|m rest IH]; intros x x' y y' Hr; cbn [Sequential_forward].
  - intros E E'. injection E as <-. injection E' as <-. exact Hr.
  - destruct (nn_forward m x) as [z|] eqn:Ez; cbn [bind]; [|discriminate].
    destruct (nn_forward m x') as [z'|] eqn:Ez'; cbn [bind]; [|discriminate].
    apply IH. exact (nn_forward_row2 m Hr Ez Ez').
Qed.

Lemma transpose_row3 (x x' y y' : tensor T) :
  same_row3 b x x' -> transpose 1 2 x = Ok y -> transpose 1 2 x' = Ok y' ->
  same_row3 b y y'.
Proof.
  intros (Es & Er). unfold transpose. rewrite Es.
  destruct ((1 <? List.length (shape x')) && (2 <? List.length (shape x')));
    [|discriminate].
  intros E E'. injection E as <-. injection E' as <-. split; [reflexivity|].
  intros i j. cbn. apply Er.
Qed.

Lemma pooled_shape (x p : tensor T) :
  adaptive_max_pool1d x 1 = Ok p -> exists n ch, shape p = [n; ch; 1].
Proof.
  unfold adaptive_max_pool1d.
  destruct (shape x) as [|n [|ch [|l [|]]]]; try discriminate.
  destruct ((ch =? 0) || (l =? 0)); [discriminate|].
  intros E. injection E as <-. do 2 eexists. reflexivity.
Qed.

Lemma squeeze_last_row (p p' : tensor T) (n ch : nat) :
  same_row3 b p p' -> shape p = [n; ch; 1] ->
  same_row2 b (squeeze_last p) (squeeze_last p').
Proof.
  intros (Es & Er) Sp. unfold squeeze_last. rewrite <- Es, Sp. cbn.
  split; [reflexivity|]. intros i. apply Er.
Qed.

Lemma cat_row2 (a a' d d' y y' : tensor T) :
  same_row2 b a a' -> same_row2 b d d' ->
  cat a d 1 = Ok y -> cat a' d' 1 = Ok y' -> same_row2 b y y'.
Proof.
  intros (Ea & Ra) (Ed & Rd). unfold cat. rewrite Ea, Ed.
  destruct (negb _); [discriminate|]. destruct (negb _); [discriminate|].
  intros E E'. injection E as <-. injection E' as <-. split; [reflexivity|].
  intros i. cbn. rewrite Ra, Rd. reflexivity.
Qed.

Lemma compress_row (reduce : nn_Module T) (conv : list (nn_Module T))
    (x x' v v' : tensor T) :
  same_row3 b x x' ->
  TurnEndClassifier.compress reduce conv (AdaptiveMaxPool1d 1) x = Ok v ->
  TurnEndClassifier.compress reduce conv (AdaptiveMaxPool1d 1) x' = Ok v' ->
  same_row2 b v v'.
Proof.
  intros Hr. unfold TurnEndClassifier.compress, TurnEndClassifier.convolved.
  destruct (nn_forward reduce x) as [r|] eqn:E1; cbn [bind]; [|discriminate].
  destruct (nn_forward reduce x') as [r'|] eqn:E1'; cbn [bind]; [|discriminate].
  pose proof (nn_forward_row3 reduce Hr E1 E1') as H1.
  destruct (transpose 1 2 r) as [t|] eqn:E2; cbn [bind]; [|discriminate].
  destruct (transpose 1 2 r') as [t'|] eqn:E2'; cbn [bind]; [|discriminate].
  pose proof (transpose_row3 H1 E2 E2') as H2.
  destruct (Sequential_forward conv t) as [f|] eqn:E3; cbn [bind]; [|discriminate].
  destruct (Sequential_forward conv t') as [f'|] eqn:E3'; cbn [bind];
    [|discriminate].
  pose proof (Sequential_row3 conv H2 E3 E3') as H3.
  cbn [nn_forward].
  destruct (adaptive_max_pool1d f 1) as [p|] eqn:E4; cbn [bind]; [|discriminate].
  destruct (adaptive_max_pool1d f' 1) as [p'|] eqn:E4'; cbn [bind];
    [|discriminate].
  assert (H4 : same_row3 b p p') by (eapply pool_row3; eassumption).
  destruct (pooled_shape _ E4) as (n & ch & Sp).
  intros E E'. injection E as <-. injection E' as <-.
  exact (squeeze_last_row H4 Sp).
Qed.

Lemma classify_row (c : TurnEndClassifier.t T) (ev ev' dv dv' y y' : tensor T) :
  same_row2 b ev ev' -> same_row2 b dv dv' ->
  TurnEndClassifier.classify c ev dv = Ok y ->
  TurnEndClassifier.classify c ev' dv' = Ok y' ->
  same_row2 b y y'.
Proof.
  intros He Hd. unfold TurnEndClassifier.classify.
  destruct (cat ev dv 1) as [x|] eqn:E1; cbn [bind]; [|discriminate].
  destruct (cat ev' dv' 1) as [x'|] eqn:E1'; cbn [bind]; [|discriminate].
  apply Sequential_row2. exact (cat_row2 He Hd E1 E1').
Qed.

End RowFacts.

(** X18.  The rows of a batch do not mix in the head: when two batches
    of encoder states and two batches of decoder states have the same
    shapes and agree on row [b], the predictions that [forward] returns
    for them agree on row [b], whatever the other rows hold. *)
Theorem forward_rows_are_independent {T : Type} `{Scalar T}
    (e d h : nat) (c : TurnEndClassifier.t T) (b : nat)
    (e1 e2 d1 d2 y1 y2 : tensor T) :
  built_as e d h c ->
  same_row3 b e1 e2 -> same_row3 b d1 d2 ->
  TurnEndClassifier.forward c e1 d1 = Ok y1 ->
  TurnEndClassifier.forward c e2 d2 = Ok y2 ->
  forall i, elem y1 [b; i] = elem y2 [b; i].
Proof.
  intros Hc He Hd E1 E2.
  apply forward_streams in E1. destruct E1 as (ev1 & dv1 & Ee1 & Ed1 & Ec1).
  apply forward_streams in E2. destruct E2 as (ev2 & dv2 & Ee2 & Ed2 & Ec2).
  destruct (built_pools Hc) as (Ep & Ep').
  unfold TurnEndClassifier.compress_encoder in Ee1, Ee2.
  unfold TurnEndClassifier.compress_decoder in Ed1, Ed2.
  rewrite Ep in Ee1, Ee2. rewrite Ep' in Ed1, Ed2.
  pose proof (@compress_row T _ b _ _ e1 e2 ev1 ev2 He Ee1 Ee2) as Hev.
  pose proof (@compress_row T _ b _ _ d1 d2 dv1 dv2 Hd Ed1 Ed2) as Hdv.
  pose proof (@classify_row T _ b c ev1 ev2 dv1 dv2 y1 y2 Hev Hdv Ec1 Ec2) as Hy.
  exact (proj2 Hy).
Qed.

Lemma forward_rows_are_independent_witness :
  let other_row : tensor R :=
    {| shape := [2; 27; 384];
       elem := fun idx => match idx with 1 :: _ => 5%R | _ => 0%R end |} in
  let states := Notebook.const_tensor [2; 27; 384] 0 in
  same_row3 0 states other_row
  /\ exists y1 y2,
       TurnEndClassifier.forward Notebook.turn_end_classifier states states = Ok y1
       /\ TurnEndClassifier.forward Notebook.turn_end_classifier other_row other_row
          = Ok y2
       /\ elem y1 [0; 0] = elem y2 [0; 0].
Proof.
  intros other_row states.
  assert (Hr : same_row3 0 states other_row) by (split; reflexivity).
  split; [exact Hr|].
  destruct (forward_ok notebook_head_built (le_n_S _ _ (Nat.le_0_l 63))
              states states (batch := 2) (le := 27) (ld := 27))
    as (z1 & E1 & _); [reflexivity|lia|reflexivity|lia|].
  destruct (forward_ok notebook_head_built (le_n_S _ _ (Nat.le_0_l 63))
              other_row other_row (batch := 2) (le := 27) (ld := 27))
    as (z2 & E2 & _); [reflexivity|lia|reflexivity|lia|].
  exists (sigmoid z1), (sigmoid z2). split; [exact E1|]. split; [exact E2|].
  exact (forward_rows_are_independent notebook_head_built Hr Hr E1 E2 0).
Defined.
